(** * todo-demo: the record store, the filter engine and the calendar queries

    A shallow embedding of the record store module the application imports
    as [../db] (the IndexedDB record store and the daily statistics builder),
    of [filterTodos] in [src/store/todoStore.ts] and of the day / time-slot
    queries of [src/components/CalendarView.tsx], followed by the properties
    the specification states about them.

    Conventions.
    - A JavaScript [Date] is its time value: milliseconds since the epoch,
      an integer.  Invalid dates are not modelled.
    - [new Date()] and [uuid()] are inputs of the operations that call them.
    - An optional property ([description?: string]) is an [option]; a property
      holding [undefined] and a missing property are both [None]. The
      properties of the settings record are declared required, and are
      options all the same: an update can leave [undefined] in them.
    - An object store is a finite map from keys to records; the task store
      carries its key generator. *)

From Stdlib Require Import Ascii.
From stdpp Require Import gmap strings list fin_maps sorting.

Open Scope Z_scope.

(** ** The host environment

    The built-ins of the JavaScript engine the code relies on and whose
    result depends on the machine or on Unicode tables: the local time zone
    adjustment, [String.prototype.toLowerCase] and [String.prototype.trim].

    [LocalTZA t isUTC] is the abstract operation of ECMA-262: the offset of
    local time in milliseconds, east of Greenwich positive, at the time
    value [t] when [isUTC] is true, and for the local time [t] when it is
    false. The offset may change with [t]: daylight saving and the other
    clock changes of a zone are whatever the host makes them, and so is the
    choice the engine makes for a local time the clocks skip or repeat.

    One thing is asked of the host, [LocalTZA_startOfDay]: the instant at
    which a local day starts, as the conversion from local time finds it for
    the day of a time value [t], lies on that local day. This is so where
    local midnight exists, and where the clocks skip it, for the instant
    they jump to. (86400000 is the number of milliseconds of a day.) *)

Class Host := {
  LocalTZA : Z → bool → Z;
  toLowerCase : string → string;
  trim : string → string;
  LocalTZA_startOfDay (t : Z) :
    let day := (t + LocalTZA t true) / 86400000 in
    let start := day * 86400000 - LocalTZA (day * 86400000) false in
    (start + LocalTZA start true) / 86400000 = day;
}.

(** ** Dates (ECMA-262, section "Date Objects", and date-fns) *)

Module JSDate.

Definition msPerDay : Z := 86400000.
Definition msPerHour : Z := 3600000.
Definition msPerMinute : Z := 60000.

Definition Day (t : Z) : Z := t / msPerDay.
Definition HourFromTime (t : Z) : Z := (t / msPerHour) mod 24.
Definition MinFromTime (t : Z) : Z := (t / msPerMinute) mod 60.

(** Year, month (1..12) and day of the month of a day number counted from
    1970-01-01, in the proleptic Gregorian calendar. *)
Definition civilFromDays (days : Z) : Z * Z * Z :=
  let z := days + 719468 in
  let era := z / 146097 in
  let doe := z - era * 146097 in
  let yoe := (doe - doe / 1460 + doe / 36524 - doe / 146096) / 365 in
  let doy := doe - (365 * yoe + yoe / 4 - yoe / 100) in
  let mp := (5 * doy + 2) / 153 in
  let d := doy - (153 * mp + 2) / 5 + 1 in
  let m := if mp <? 10 then mp + 3 else mp - 9 in
  let y := yoe + era * 400 + (if m <=? 2 then 1 else 0) in
  (y, m, d).

Definition YearFromTime (t : Z) : Z := (civilFromDays (Day t)).1.1.
(** Months are numbered from 0 in JavaScript. *)
Definition MonthFromTime (t : Z) : Z := (civilFromDays (Day t)).1.2 - 1.
Definition DateFromTime (t : Z) : Z := (civilFromDays (Day t)).2.

Definition digit (n : Z) : ascii :=
  ascii_of_N (48 + Z.to_N (n mod 10)).

Definition pad2 (n : Z) : string :=
  String (digit (n / 10)) (String (digit n) EmptyString).
Definition pad4 (n : Z) : string := pad2 (n / 100) +:+ pad2 n.
Definition pad6 (n : Z) : string := pad2 (n / 10000) +:+ pad4 n.

(** [d.toISOString().split("T")[0]]: the UTC calendar date, as
    [YYYY-MM-DD], with the expanded year form outside 0..9999. *)
Definition isoDate (t : Z) : string :=
  let y := YearFromTime t in
  let year :=
    if (0 <=? y) && (y <=? 9999) then pad4 y
    else (if y <? 0 then "-" else "+") +:+ pad6 (Z.abs y) in
  year +:+ "-" +:+ pad2 (MonthFromTime t + 1) +:+ "-" +:+ pad2 (DateFromTime t).

Section Local.
Context {host : Host}.

Definition LocalTime (t : Z) : Z := t + LocalTZA t true.
Definition UTC (t : Z) : Z := t - LocalTZA t false.

Definition getFullYear (d : Z) : Z := YearFromTime (LocalTime d).
Definition getMonth (d : Z) : Z := MonthFromTime (LocalTime d).
Definition getDate (d : Z) : Z := DateFromTime (LocalTime d).
Definition getHours (d : Z) : Z := HourFromTime (LocalTime d).
Definition getMinutes (d : Z) : Z := MinFromTime (LocalTime d).

(** [d.setHours(0, 0, 0, 0)]: midnight, local time, of the local day of
    [d]. date-fns's [startOfDay] is this very call on a copy. *)
Definition setHoursZero (d : Z) : Z := UTC (Day (LocalTime d) * msPerDay).
Definition startOfDay (d : Z) : Z := setHoursZero d.

(** [d.setDate(d.getDate() + amount)]: the local date moves by [amount]
    days and the local time of day stays,
    [MakeDate(MakeDay(year, month, date + amount), TimeWithinDay(t))]; the
    result is read back as a local time. Across a clock change this is not
    [amount] times 24 hours. *)
Definition setDateBy (d amount : Z) : Z :=
  let t := LocalTime d in
  UTC ((Day t + amount) * msPerDay + t mod msPerDay).

(** date-fns: [addDays] returns the date as it is when [amount] is 0, and
    is [setDate] on a copy otherwise. *)
Definition addDays (d amount : Z) : Z :=
  if amount =? 0 then d else setDateBy d amount.

(** date-fns: both dates have the same start of day. *)
Definition isSameDay (a b : Z) : bool := startOfDay a =? startOfDay b.

(** date-fns: the interval is closed at both ends. *)
Definition isWithinInterval (d start_ end_ : Z) : bool :=
  (start_ <=? d) && (d <=? end_).
End Local.

End JSDate.

(** ** Two hosts

    Lower-casing of the ASCII letters and trimming of the ASCII white space,
    which is what the built-ins do on ASCII strings. *)

Definition asciiLower (c : ascii) : ascii :=
  let n := N_of_ascii c in
  if ((65 <=? n) && (n <=? 90))%N then ascii_of_N (n + 32) else c.

Fixpoint mapString (f : ascii → ascii) (s : string) : string :=
  match s with
  | EmptyString => EmptyString
  | String c r => String (f c) (mapString f r)
  end.

Definition isSpace (c : ascii) : bool :=
  let n := N_of_ascii c in
  ((n =? 32) || ((9 <=? n) && (n <=? 13)))%N.

Fixpoint trimStart (s : string) : string :=
  match s with
  | EmptyString => EmptyString
  | String c r => if isSpace c then trimStart r else s
  end.

Definition asciiTrim (s : string) : string :=
  String.rev (trimStart (String.rev (trimStart s))).

(** A host whose local time is UTC plus a constant offset. *)
Definition fixedOffsetHost (offset : Z) : Host :=
  {| LocalTZA := λ _ _, offset;
     toLowerCase := mapString asciiLower;
     trim := asciiTrim;
     LocalTZA_startOfDay := λ t,
       eq_trans (f_equal (λ x, x / 86400000) (Z.sub_add offset _))
                (Z.div_mul _ 86400000 (λ H : 86400000 = 0, Z.lt_neq 0 86400000 eq_refl (eq_sym H))) |}.

(** Seoul: UTC+9, no daylight saving. *)
Definition seoul : Host := fixedOffsetHost (9 * JSDate.msPerHour).

(** A machine whose local time is UTC. *)
Definition greenwich : Host := fixedOffsetHost 0.

(** A host with one clock change, the one of Cairo on 26 April 2024: at
    midnight, local time, the clocks go forward to 01:00. Local time is
    UTC+2 before 2024-04-25T22:00Z and UTC+3 from then on; a local time
    before 01:00 of the 26th is read with the offset before the change, the
    skipped hour included. *)
Definition cairo : Host :=
  {| LocalTZA := λ t isUTC,
       if isUTC then (if t <? 1714082400000 then 7200000 else 10800000)
       else (if t <? 1714093200000 then 7200000 else 10800000);
     toLowerCase := mapString asciiLower;
     trim := asciiTrim;
     LocalTZA_startOfDay :=
       ltac:(intros t; cbv beta zeta iota;
             repeat match goal with
                    | |- context [?a <? ?b] => destruct (Z.ltb_spec a b)
                    end;
             Z.to_euclidean_division_equations; lia) |}.

(** ** Strings *)

(** A non-empty string is truthy. *)
Definition truthy (s : string) : bool := negb (String.eqb s "").

(** [s.includes(q)]: [q] occurs in [s] as a contiguous run of code units. *)
Fixpoint includes (s q : string) : bool :=
  String.prefix q s ||
  match s with
  | EmptyString => false
  | String _ r => includes r q
  end.

Definition nonEmpty {A} (l : list A) : bool :=
  match l with [] => false | _ :: _ => true end.

(** ** The data model (the [db] module) *)

Inductive Priority := LOW | MEDIUM | HIGH.

Inductive RepeatType := NONE | DAILY | WEEKLY | MONTHLY | YEARLY | CUSTOM.

Module RepeatConfig.
Record t := mk {
  type : RepeatType;
  interval : option Z;
  daysOfWeek : option (list Z);
  endDate : option Z;
  occurrence : option Z;
}.
End RepeatConfig.

Module SubTask.
Record t := mk {
  id : string;
  text : string;
  completed : bool;
}.
End SubTask.

Module TodoNote.
Record t := mk {
  id : string;
  content : string;
  createdAt : Z;
  updatedAt : Z;
}.
End TodoNote.

Module TimeTracking.
Record t := mk {
  started : option Z;
  stopped : option Z;
  totalTime : option Z;
}.
(** The empty object [{}]. *)
Definition empty : t := mk None None None.
End TimeTracking.

(** A task as it lies in the store or travels through the application; every
    property the code tests for presence is optional here, whatever the
    interface declares, since records written by earlier versions lack
    them. *)
Module Todo.
Record t := mk {
  id : option Z;
  text : string;
  description : option string;
  completed : bool;
  createdAt : option Z;
  dueDate : option Z;
  startDate : option Z;
  endDate : option Z;
  tags : option (list string);
  priority : option Priority;
  repeat : option RepeatConfig.t;
  subtasks : option (list SubTask.t);
  notes : option (list TodoNote.t);
  parentId : option Z;
  categoryId : option string;
  completedAt : option Z;
  timeTracking : option TimeTracking.t;
}.

Definition set_id (v : option Z) (x : t) : t :=
  mk v (text x) (description x) (completed x) (createdAt x) (dueDate x)
     (startDate x) (endDate x) (tags x) (priority x) (repeat x) (subtasks x)
     (notes x) (parentId x) (categoryId x) (completedAt x) (timeTracking x).

Definition set_completed (v : bool) (x : t) : t :=
  mk (id x) (text x) (description x) v (createdAt x) (dueDate x)
     (startDate x) (endDate x) (tags x) (priority x) (repeat x) (subtasks x)
     (notes x) (parentId x) (categoryId x) (completedAt x) (timeTracking x).

Definition set_completedAt (v : option Z) (x : t) : t :=
  mk (id x) (text x) (description x) (completed x) (createdAt x) (dueDate x)
     (startDate x) (endDate x) (tags x) (priority x) (repeat x) (subtasks x)
     (notes x) (parentId x) (categoryId x) v (timeTracking x).

Definition set_subtasks (v : option (list SubTask.t)) (x : t) : t :=
  mk (id x) (text x) (description x) (completed x) (createdAt x) (dueDate x)
     (startDate x) (endDate x) (tags x) (priority x) (repeat x) v
     (notes x) (parentId x) (categoryId x) (completedAt x) (timeTracking x).

Definition set_notes (v : option (list TodoNote.t)) (x : t) : t :=
  mk (id x) (text x) (description x) (completed x) (createdAt x) (dueDate x)
     (startDate x) (endDate x) (tags x) (priority x) (repeat x) (subtasks x)
     v (parentId x) (categoryId x) (completedAt x) (timeTracking x).

Definition set_categoryId (v : option string) (x : t) : t :=
  mk (id x) (text x) (description x) (completed x) (createdAt x) (dueDate x)
     (startDate x) (endDate x) (tags x) (priority x) (repeat x) (subtasks x)
     (notes x) (parentId x) v (completedAt x) (timeTracking x).

Definition set_timeTracking (v : option TimeTracking.t) (x : t) : t :=
  mk (id x) (text x) (description x) (completed x) (createdAt x) (dueDate x)
     (startDate x) (endDate x) (tags x) (priority x) (repeat x) (subtasks x)
     (notes x) (parentId x) (categoryId x) (completedAt x) v.

Definition set_createdAt (v : option Z) (x : t) : t :=
  mk (id x) (text x) (description x) (completed x) v (dueDate x)
     (startDate x) (endDate x) (tags x) (priority x) (repeat x) (subtasks x)
     (notes x) (parentId x) (categoryId x) (completedAt x) (timeTracking x).

(** The object spread shared by [addTodo] and [getTodos]:
    [{...todo, tags: todo.tags || [], priority: todo.priority ||
    Priority.MEDIUM, subtasks: todo.subtasks || [], notes: todo.notes || [],
    description: todo.description || ""}]. *)
Definition withDefaults (x : t) : t :=
  mk (id x) (text x) (Some (default ""%string (description x))) (completed x)
     (createdAt x) (dueDate x) (startDate x) (endDate x)
     (Some (default [] (tags x))) (Some (default MEDIUM (priority x)))
     (repeat x) (Some (default [] (subtasks x))) (Some (default [] (notes x)))
     (parentId x) (categoryId x) (completedAt x) (timeTracking x).
End Todo.

Module Category.
Record t := mk {
  id : string;
  name : string;
  color : string;
  parentId : option string;
}.
End Category.

Module UserSettings.
Inductive Theme := light | dark | system.
Inductive TimeFormat := h12 | h24.
Inductive View := list | calendar.
Inductive CalendarView := day | week | month | year.

(** The [id] of the record, the literal ["settings"], is the key it lies
    under and is not repeated here. *)
Record t := mk {
  theme : option Theme;
  language : option string;
  dateFormat : option string;
  timeFormat : option TimeFormat;
  defaultView : option View;
  defaultCalendarView : option CalendarView;
  startOfWeek : option Z;
}.
End UserSettings.

Module TodoTemplate.
Record t := mk {
  id : string;
  name : string;
  description : option string;
  todoData : Todo.t;
}.
End TodoTemplate.

Module Counts.
Record t := mk { completed : Z; total : Z }.
End Counts.

Module StatsData.
Record t := mk {
  id : string;
  date : Z;
  completedCount : Z;
  totalCount : Z;
  categoryStats : gmap string Counts.t;
  tagStats : gmap string Counts.t;
}.
End StatsData.

#[global] Instance Priority_eq_dec : EqDecision Priority.
Proof. solve_decision. Defined.

(** ** The filter engine ([filterTodos], [src/store/todoStore.ts]) *)

Module CompletionFilter.
Inductive t := all | completed | active.
End CompletionFilter.

Section Filter.
Context {host : Host}.
Import JSDate.

(** The three comparisons of the date filter. *)
Definition isSameDayYMD (todoDate selectedDate : Z) : bool :=
  (getFullYear todoDate =? getFullYear selectedDate) &&
  (getMonth todoDate =? getMonth selectedDate) &&
  (getDate todoDate =? getDate selectedDate).

(** The callback of [todos.filter]: each [if] of the source that returns
    [false] is one [if] here; falling through all of them returns [true]. *)
Definition keeps
    (selectedDate : option Z)
    (selectedTags : list string)
    (selectedCategories : list string)
    (selectedPriority : option Priority)
    (searchQuery : string)
    (completionFilter : CompletionFilter.t)
    (todo : Todo.t) : bool :=
  if match selectedDate, Todo.dueDate todo with
     | Some selected, Some dueDate => negb (isSameDayYMD dueDate selected)
     | _, _ => false
     end
  then false
  else if nonEmpty selectedTags &&
    match Todo.tags todo with
    | None => true
    | Some tags => negb (forallb (λ tag, bool_decide (tag ∈ tags)) selectedTags)
    end
  then false
  else if nonEmpty selectedCategories &&
    match Todo.categoryId todo with
    | None => true
    | Some categoryId =>
        negb (truthy categoryId) ||
        negb (bool_decide (categoryId ∈ selectedCategories))
    end
  then false
  else if match selectedPriority with
    | Some p => negb (bool_decide (Todo.priority todo = Some p))
    | None => false
    end
  then false
  else if truthy (trim searchQuery) &&
    (let query := toLowerCase searchQuery in
     let textMatch := includes (toLowerCase (Todo.text todo)) query in
     let descMatch :=
       match Todo.description todo with
       | Some d => truthy d && includes (toLowerCase d) query
       | None => false
       end in
     let tagsMatch :=
       match Todo.tags todo with
       | Some tags => existsb (λ tag, includes (toLowerCase tag) query) tags
       | None => false
       end in
     let notesMatch :=
       match Todo.notes todo with
       | Some notes =>
           existsb (λ note, includes (toLowerCase (TodoNote.content note)) query) notes
       | None => false
       end in
     negb (textMatch || descMatch || tagsMatch || notesMatch))
  then false
  else if match completionFilter with
    | CompletionFilter.completed => negb (Todo.completed todo)
    | _ => false
    end
  then false
  else if match completionFilter with
    | CompletionFilter.active => Todo.completed todo
    | _ => false
    end
  then false
  else true.

(** What the tag branch of the callback decides, taken alone. *)
Definition tagsPass (selectedTags : list string) (todo : Todo.t) : bool :=
  negb (nonEmpty selectedTags &&
        match Todo.tags todo with
        | None => true
        | Some tags => negb (forallb (λ tag, bool_decide (tag ∈ tags)) selectedTags)
        end).

(** What the date branch of the callback decides, taken alone. *)
Definition datePass (selectedDate : option Z) (todo : Todo.t) : bool :=
  match selectedDate, Todo.dueDate todo with
  | Some selected, Some dueDate => isSameDayYMD dueDate selected
  | _, _ => true
  end.

Definition filterTodos
    (todos : list Todo.t)
    (selectedDate : option Z)
    (selectedTags : list string)
    (selectedCategories : list string)
    (selectedPriority : option Priority)
    (searchQuery : string)
    (completionFilter : CompletionFilter.t) : list Todo.t :=
  List.filter
    (keeps selectedDate selectedTags selectedCategories selectedPriority
           searchQuery completionFilter)
    todos.

End Filter.

(** ** The calendar queries ([src/components/CalendarView.tsx]) *)

(** The 48 half-hour slots of a day. *)
Definition TIME_SLOTS : list (Z * Z) :=
  (λ i : nat, (Z.of_nat i / 2, if Z.of_nat i mod 2 =? 0 then 0 else 30)) <$> seq 0 48.

Section Calendar.
Context {host : Host}.
Import JSDate.

Definition getTodosForDay (todos : list Todo.t) (day : Z) : list Todo.t :=
  let dayStart := startOfDay day in
  let dayEnd := addDays dayStart 1 in
  List.filter
    (λ todo,
       match Todo.dueDate todo with
       | None => false
       | Some dueDate =>
           if negb (getHours dueDate =? 0) || negb (getMinutes dueDate =? 0)
           then isWithinInterval dueDate dayStart dayEnd
           else isSameDay dueDate day
       end)
    todos.

(** The slot bounds [slotStart] and [slotEnd] the source computes are not
    used by its filter and are left out. *)
Definition getTodosForTimeSlot (todos : list Todo.t) (day hour minute : Z)
  : list Todo.t :=
  List.filter
    (λ todo,
       match Todo.dueDate todo with
       | None => false
       | Some dueDate =>
           let dueHour := getHours dueDate in
           let dueMinute := getMinutes dueDate in
           if (dueHour =? 0) && (dueMinute =? 0) then false
           else
             isSameDay dueDate day &&
             (dueHour =? hour) &&
             (if minute =? 0 then dueMinute <? 30 else 30 <=? dueMinute)
       end)
    todos.

(** The slot of a due date: its hour, and the half of the hour its minute
    falls in. *)
Definition slotOf (dueDate : Z) : Z * Z :=
  (getHours dueDate, if getMinutes dueDate <? 30 then 0 else 30).

(** The list under the "all day" heading of the day view:
    [getTodosForDay(day).filter(...)]. *)
Definition allDayTodos (todos : list Todo.t) (day : Z) : list Todo.t :=
  List.filter
    (λ todo,
       match Todo.dueDate todo with
       | None => false
       | Some dueDate => (getHours dueDate =? 0) && (getMinutes dueDate =? 0)
       end)
    (getTodosForDay todos day).

End Calendar.

(** ** The record store (IndexedDB through [idb], the [db] module) *)

(** The records of an object store, in ascending key order. *)
Definition getAllOf {K V} `{Countable K} (le : relation K)
    `{∀ x y, Decision (le x y)} (m : gmap K V) : list V :=
  (merge_sort (λ a b, le a.1 b.1) (map_to_list m)).*2.

Inductive outcome (A : Type) :=
  | Ok (a : A)
  | ConstraintError.
Arguments Ok {A} a.
Arguments ConstraintError {A}.

Module DB.
(** The five object stores of [todo-app-db]. [todoKey] is the current
    number of the key generator of the task store ([autoIncrement]). *)
Record t := mk {
  todos : gmap Z Todo.t;
  todoKey : Z;
  categories : gmap string Category.t;
  settings : gmap string UserSettings.t;
  templates : gmap string TodoTemplate.t;
  stats : gmap string StatsData.t;
}.

Definition set_todos (m : gmap Z Todo.t) (key : Z) (db : t) : t :=
  mk m key (categories db) (settings db) (templates db) (stats db).
Definition set_categories (m : gmap string Category.t) (db : t) : t :=
  mk (todos db) (todoKey db) m (settings db) (templates db) (stats db).
Definition set_stats (m : gmap string StatsData.t) (db : t) : t :=
  mk (todos db) (todoKey db) (categories db) (settings db) (templates db) m.

(** The default settings the version 3 upgrade writes. *)
Definition defaultSettings : UserSettings.t :=
  UserSettings.mk (Some UserSettings.system) (Some "ko"%string) (Some "yyyy-MM-dd"%string)
    (Some UserSettings.h24) (Some UserSettings.list) (Some UserSettings.month) (Some 0).

(** A freshly created database. *)
Definition init : t :=
  mk ∅ 1 ∅ {[ "settings"%string := defaultSettings ]} ∅ ∅.

(** Key path [id], in-line keys: a stored task carries its key; the key
    generator is ahead of every key. *)
Definition wf (db : t) : Prop :=
  ∀ k todo, todos db !! k = Some todo → Todo.id todo = Some k ∧ k < todoKey db.

(** [db.get(TODO_STORE, id)] *)
Definition get (id : Z) (db : t) : option Todo.t := todos db !! id.

(** [db.getAll(TODO_STORE)] *)
Definition getAll (db : t) : list Todo.t := getAllOf Z.le (todos db).

(** [db.put(TODO_STORE, todo)]: the key is the [id] of the record; a record
    without one gets the next generated key, written into it. An explicit
    key at or above the generator's number moves the generator past it. *)
Definition put (todo : Todo.t) (db : t) : Z * t :=
  match Todo.id todo with
  | Some k => (k, set_todos (<[k := todo]> (todos db)) (Z.max (todoKey db) (k + 1)) db)
  | None =>
      let k := todoKey db in
      (k, set_todos (<[k := Todo.set_id (Some k) todo]> (todos db)) (k + 1) db)
  end.

(** [db.add(TODO_STORE, todo)]: as [put], but a record already stored under
    the key makes the request fail. *)
Definition add (todo : Todo.t) (db : t) : outcome (Z * t) :=
  let k := default (todoKey db) (Todo.id todo) in
  match todos db !! k with
  | Some _ => ConstraintError
  | None => Ok (put todo db)
  end.

(** [db.getAllFromIndex(TODO_STORE, "categoryId", categoryId)]: the records
    that have the property with this value. *)
Definition getAllFromIndex_categoryId (categoryId : string) (db : t) : list Todo.t :=
  List.filter (λ todo, bool_decide (Todo.categoryId todo = Some categoryId)) (getAll db).

(** [db.getAllFromIndex(TODO_STORE, "priority", priority)] *)
Definition getAllFromIndex_priority (priority : Priority) (db : t) : list Todo.t :=
  List.filter (λ todo, bool_decide (Todo.priority todo = Some priority)) (getAll db).
End DB.

Section Operations.
Context {host : Host}.
Import JSDate.

(** *** Tasks *)

Definition addTodo (now : Z) (todo : Todo.t) (db : DB.t) : outcome (Z * DB.t) :=
  let newTodo :=
    Todo.withDefaults
      (Todo.set_createdAt (Some (default now (Todo.createdAt todo))) todo) in
  DB.add newTodo db.

Definition getTodos (db : DB.t) : list Todo.t :=
  Todo.withDefaults <$> DB.getAll db.

Definition getTodosByDate (date : Z) (db : DB.t) : list Todo.t :=
  List.filter
    (λ todo,
       match Todo.dueDate todo with
       | None => false
       | Some todoDate =>
           (getFullYear todoDate =? getFullYear date) &&
           (getMonth todoDate =? getMonth date) &&
           (getDate todoDate =? getDate date)
       end)
    (DB.getAll db).

Definition getTodosByPriority (priority : Priority) (db : DB.t) : list Todo.t :=
  DB.getAllFromIndex_priority priority db.

Definition getTodosByCategory (categoryId : string) (db : DB.t) : list Todo.t :=
  DB.getAllFromIndex_categoryId categoryId db.

Definition getTodosByTag (tag : string) (db : DB.t) : list Todo.t :=
  List.filter
    (λ todo,
       match Todo.tags todo with
       | Some tags => bool_decide (tag ∈ tags)
       | None => false
       end)
    (DB.getAll db).

Definition searchTodos (query : string) (db : DB.t) : list Todo.t :=
  let lowerQuery := toLowerCase query in
  List.filter
    (λ todo,
       includes (toLowerCase (Todo.text todo)) lowerQuery ||
       match Todo.description todo with
       | Some d => truthy d && includes (toLowerCase d) lowerQuery
       | None => false
       end ||
       match Todo.notes todo with
       | Some notes =>
           existsb (λ note, includes (toLowerCase (TodoNote.content note)) lowerQuery) notes
       | None => false
       end)
    (DB.getAll db).

(** [Array.from] of the [Set] the tags are added to: every tag once, in
    the order of its first occurrence. *)
Definition getAllTags (db : DB.t) : list string :=
  foldl
    (λ tagsSet todo,
       foldl
         (λ acc tag, if bool_decide (tag ∈ acc) then acc else acc ++ [tag])
         tagsSet (default [] (Todo.tags todo)))
    [] (DB.getAll db).

Definition updateTodo (todo : Todo.t) (db : DB.t) : Z * DB.t :=
  DB.put todo db.

Definition toggleTodoCompletion (now : Z) (id : Z) (completed : bool) (db : DB.t)
  : option Todo.t * DB.t :=
  match DB.get id db with
  | Some todo =>
      let todo := Todo.set_completed completed todo in
      let todo := Todo.set_completedAt (if completed then Some now else None) todo in
      (Some todo, (DB.put todo db).2)
  | None => (None, db)
  end.

Definition addSubtask (uuid : string) (todoId : Z) (subtaskText : string) (db : DB.t)
  : option Todo.t * DB.t :=
  match DB.get todoId db with
  | Some todo =>
      let newSubtask := SubTask.mk uuid subtaskText false in
      let todo :=
        Todo.set_subtasks (Some (default [] (Todo.subtasks todo) ++ [newSubtask])) todo in
      (Some todo, (DB.put todo db).2)
  | None => (None, db)
  end.

Definition toggleSubtask (todoId : Z) (subtaskId : string) (completed : bool) (db : DB.t)
  : option Todo.t * DB.t :=
  match DB.get todoId db with
  | Some todo =>
      match Todo.subtasks todo with
      | Some subtasks =>
          let todo :=
            Todo.set_subtasks
              (Some ((λ subtask,
                        if bool_decide (SubTask.id subtask = subtaskId)
                        then SubTask.mk (SubTask.id subtask) (SubTask.text subtask) completed
                        else subtask) <$> subtasks))
              todo in
          (Some todo, (DB.put todo db).2)
      | None => (None, db)
      end
  | None => (None, db)
  end.

Definition addNote (now : Z) (uuid : string) (todoId : Z) (content : string) (db : DB.t)
  : option Todo.t * DB.t :=
  match DB.get todoId db with
  | Some todo =>
      let newNote := TodoNote.mk uuid content now now in
      let todo :=
        Todo.set_notes (Some (default [] (Todo.notes todo) ++ [newNote])) todo in
      (Some todo, (DB.put todo db).2)
  | None => (None, db)
  end.

Definition startTimeTracking (now : Z) (todoId : Z) (db : DB.t)
  : option Todo.t * DB.t :=
  match DB.get todoId db with
  | Some todo =>
      let old := default TimeTracking.empty (Todo.timeTracking todo) in
      let todo :=
        Todo.set_timeTracking
          (Some (TimeTracking.mk (Some now) None (TimeTracking.totalTime old))) todo in
      (Some todo, (DB.put todo db).2)
  | None => (None, db)
  end.

Definition stopTimeTracking (now : Z) (todoId : Z) (db : DB.t)
  : option Todo.t * DB.t :=
  match DB.get todoId db with
  | Some todo =>
      match Todo.timeTracking todo with
      | Some tracking =>
          match TimeTracking.started tracking with
          | Some started =>
              let elapsed := now - started in
              let todo :=
                Todo.set_timeTracking
                  (Some (TimeTracking.mk (Some started) (Some now)
                           (Some (default 0 (TimeTracking.totalTime tracking) + elapsed))))
                  todo in
              (Some todo, (DB.put todo db).2)
          | None => (None, db)
          end
      | None => (None, db)
      end
  | None => (None, db)
  end.

Definition deleteTodo (id : Z) (db : DB.t) : DB.t :=
  DB.set_todos (delete id (DB.todos db)) (DB.todoKey db) db.

(** *** Categories *)

(** The body of the [for] loop of [deleteCategory]:
    [todo.categoryId = undefined; await updateTodo(todo)]. *)
Definition clearCategory (db : DB.t) (todo : Todo.t) : DB.t :=
  (updateTodo (Todo.set_categoryId None todo) db).2.

(** Each task read through the index is written back with its
    [categoryId] removed. *)
Definition deleteCategory (id : string) (db : DB.t) : DB.t :=
  let db := DB.set_categories (delete id (DB.categories db)) db in
  let todos := getTodosByCategory id db in
  foldl clearCategory db todos.

End Operations.

(** ** The statistics builder ([updateDailyStats], the [db] module) *)

Section Statistics.
Context {host : Host}.
Import JSDate.

(** [stats[key].total++] and, for a completed task, [stats[key].completed++]. *)
Definition bump (completed : bool) (c : Counts.t) : Counts.t :=
  Counts.mk (Counts.completed c + (if completed then 1 else 0)) (Counts.total c + 1).

(** The four accumulators of the [forEach] over all tasks. *)
Record Tally := mkTally {
  completedCount : Z;
  totalCount : Z;
  categoryStats : gmap string Counts.t;
  tagStats : gmap string Counts.t;
}.

(** One round of the [forEach]. A key the table does not hold is skipped;
    the properties an object inherits from its prototype are not
    modelled. *)
Definition tallyTodo (todayStr : string) (acc : Tally) (todo : Todo.t) : Tally :=
  let completedCount :=
    match Todo.completedAt todo with
    | Some completedDate =>
        if String.eqb (isoDate completedDate) todayStr
        then completedCount acc + 1 else completedCount acc
    | None => completedCount acc
    end in
  match Todo.dueDate todo with
  | Some dueDate =>
      if String.eqb (isoDate dueDate) todayStr then
        let categoryStats :=
          match Todo.categoryId todo with
          | Some categoryId =>
              if truthy categoryId then
                match categoryStats acc !! categoryId with
                | Some c =>
                    <[categoryId := bump (Todo.completed todo) c]> (categoryStats acc)
                | None => categoryStats acc
                end
              else categoryStats acc
          | None => categoryStats acc
          end in
        let tagStats :=
          match Todo.tags todo with
          | Some tags =>
              foldl
                (λ stats tag,
                   match stats !! tag with
                   | Some c => <[tag := bump (Todo.completed todo) c]> stats
                   | None => stats
                   end)
                (tagStats acc) tags
          | None => tagStats acc
          end in
        mkTally completedCount (totalCount acc + 1) categoryStats tagStats
      else mkTally completedCount (totalCount acc) (categoryStats acc) (tagStats acc)
  | None => mkTally completedCount (totalCount acc) (categoryStats acc) (tagStats acc)
  end.

(** The two date tests of [tallyTodo], taken alone. *)
Definition completedOn (todayStr : string) (todo : Todo.t) : bool :=
  match Todo.completedAt todo with
  | Some completedDate => String.eqb (isoDate completedDate) todayStr
  | None => false
  end.

Definition dueOn (todayStr : string) (todo : Todo.t) : bool :=
  match Todo.dueDate todo with
  | Some dueDate => String.eqb (isoDate dueDate) todayStr
  | None => false
  end.

Definition updateDailyStats (now : Z) (db : DB.t) : DB.t :=
  let today := setHoursZero now in
  let todayStr := isoDate today in
  let statsId := ("stats_" +:+ todayStr)%string in
  let allTodos := DB.getAll db in
  let categories := getAllOf String.le (DB.categories db) in
  let categoryStats0 : gmap string Counts.t :=
    foldl (λ stats cat, <[Category.id cat := Counts.mk 0 0]> stats) ∅ categories in
  let tags := getAllTags db in
  let tagStats0 : gmap string Counts.t :=
    foldl (λ stats tag, <[tag := Counts.mk 0 0]> stats) ∅ tags in
  let result :=
    foldl (tallyTodo todayStr) (mkTally 0 0 categoryStats0 tagStats0) allTodos in
  let statsData :=
    StatsData.mk statsId today (completedCount result) (totalCount result)
      (categoryStats result) (tagStats result) in
  DB.set_stats (<[statsId := statsData]> (DB.stats db)) db.

End Statistics.

(** ** The other queries of the [db] module *)

(** The keys of an object store, in ascending order ([getAllKeys]). *)
Definition getAllKeysOf {K V} `{Countable K} (le : relation K)
    `{∀ x y, Decision (le x y)} (m : gmap K V) : list K :=
  (merge_sort (λ a b, le a.1 b.1) (map_to_list m)).*1.

Definition getTodosByDateRange (startDate endDate : Z) (db : DB.t) : list Todo.t :=
  List.filter
    (λ todo,
       match Todo.dueDate todo with
       | None => false
       | Some dueDate => (startDate <=? dueDate) && (dueDate <=? endDate)
       end)
    (DB.getAll db).

(** [!todo.parentId]: no parent, or the parent number 0. *)
Definition getParentTodos (db : DB.t) : list Todo.t :=
  List.filter
    (λ todo,
       match Todo.parentId todo with
       | None => true
       | Some parentId => parentId =? 0
       end)
    (DB.getAll db).

(** [db.getAllFromIndex(TODO_STORE, "parentId", parentId)] *)
Definition getSubTodos (parentId : Z) (db : DB.t) : list Todo.t :=
  List.filter (λ todo, bool_decide (Todo.parentId todo = Some parentId)) (DB.getAll db).

Definition getTodosByAnyTags (tags : list string) (db : DB.t) : list Todo.t :=
  List.filter
    (λ todo,
       match Todo.tags todo with
       | Some todoTags => existsb (λ tag, bool_decide (tag ∈ tags)) todoTags
       | None => false
       end)
    (DB.getAll db).

Definition getTodosByAllTags (tags : list string) (db : DB.t) : list Todo.t :=
  List.filter
    (λ todo,
       match Todo.tags todo with
       | Some todoTags => forallb (λ tag, bool_decide (tag ∈ todoTags)) tags
       | None => false
       end)
    (DB.getAll db).

Definition getTodosByCompletion (completed : bool) (db : DB.t) : list Todo.t :=
  List.filter (λ todo, Bool.eqb (Todo.completed todo) completed) (DB.getAll db).

(** The loop of [deleteAllTodos] over the keys read at its start. No request
    fails in this model, so the [catch] branch, which returns [false], is
    not reached. *)
Definition deleteAllTodos (db : DB.t) : bool * DB.t :=
  let keys := getAllKeysOf Z.le (DB.todos db) in
  (true, foldl (λ db key, deleteTodo key db) db keys).

(** *** Categories *)

(** [{...category, id: uuid()}] and [db.add], which fails on a key in use. *)
Definition addCategory (uuid : string) (category : Category.t) (db : DB.t)
  : outcome (Category.t * DB.t) :=
  let newCategory :=
    Category.mk uuid (Category.name category) (Category.color category)
      (Category.parentId category) in
  match DB.categories db !! uuid with
  | Some _ => ConstraintError
  | None => Ok (newCategory, DB.set_categories (<[uuid := newCategory]> (DB.categories db)) db)
  end.

Definition getCategories (db : DB.t) : list Category.t :=
  getAllOf String.le (DB.categories db).

Definition updateCategory (category : Category.t) (db : DB.t) : Category.t * DB.t :=
  (category,
   DB.set_categories (<[Category.id category := category]> (DB.categories db)) db).

(** *** Settings *)

(** [Partial<UserSettings>]: the properties an update carries. A property
    is missing ([None]), or present and holding [undefined] ([Some None]),
    or present with a value. The [id], of the literal type ["settings"], has
    one value. *)
Module SettingsPatch.
Record t := mk {
  id : option (option unit);
  theme : option (option UserSettings.Theme);
  language : option (option string);
  dateFormat : option (option string);
  timeFormat : option (option UserSettings.TimeFormat);
  defaultView : option (option UserSettings.View);
  defaultCalendarView : option (option UserSettings.CalendarView);
  startOfWeek : option (option Z);
}.

(** [{ ...currentSettings, ...settings }], the [id] apart: a property the
    update has, whatever it holds, takes the place of the current one. *)
Definition apply (patch : t) (current : UserSettings.t) : UserSettings.t :=
  UserSettings.mk
    (match theme patch with Some v => v | None => UserSettings.theme current end)
    (match language patch with Some v => v | None => UserSettings.language current end)
    (match dateFormat patch with Some v => v | None => UserSettings.dateFormat current end)
    (match timeFormat patch with Some v => v | None => UserSettings.timeFormat current end)
    (match defaultView patch with Some v => v | None => UserSettings.defaultView current end)
    (match defaultCalendarView patch with
     | Some v => v
     | None => UserSettings.defaultCalendarView current
     end)
    (match startOfWeek patch with Some v => v | None => UserSettings.startOfWeek current end).
End SettingsPatch.

(** What a [put] into a store with in-line keys answers: the record is
    stored, or, its key path holding no key, a [DataError] is thrown. *)
Inductive putOutcome (A : Type) :=
  | Stored (a : A)
  | DataError.
Arguments Stored {A} a.
Arguments DataError {A}.

Definition setSettingsStore (m : gmap string UserSettings.t) (db : DB.t) : DB.t :=
  DB.mk (DB.todos db) (DB.todoKey db) (DB.categories db) m (DB.templates db) (DB.stats db).

Definition setTemplateStore (m : gmap string TodoTemplate.t) (db : DB.t) : DB.t :=
  DB.mk (DB.todos db) (DB.todoKey db) (DB.categories db) (DB.settings db) m (DB.stats db).

(** [return settings || (await db.get(SETTINGS_STORE, "settings"))], after
    the defaults are written when the record is missing. *)
Definition initDefaultSettings (db : DB.t) : option UserSettings.t * DB.t :=
  match DB.settings db !! "settings"%string with
  | Some settings => (Some settings, db)
  | None =>
      let db :=
        setSettingsStore (<["settings"%string := DB.defaultSettings]> (DB.settings db)) db in
      (DB.settings db !! "settings"%string, db)
  end.

Definition getSettings (db : DB.t) : option UserSettings.t * DB.t :=
  match DB.settings db !! "settings"%string with
  | Some settings => (Some settings, db)
  | None => initDefaultSettings db
  end.

(** [{ ...currentSettings, ...settings }] and the [put]. The spread of a
    record that is [undefined] adds no property. The [id] of the result is
    the update's if the update has the property, the current record's
    otherwise; when it holds no key, [put] throws and nothing is written
    after what [getSettings] wrote. *)
Definition updateSettings (settings : SettingsPatch.t) (db : DB.t)
  : putOutcome UserSettings.t * DB.t :=
  let '(currentSettings, db) := getSettings db in
  let updatedSettings :=
    SettingsPatch.apply settings
      (default (UserSettings.mk None None None None None None None) currentSettings) in
  let id :=
    match SettingsPatch.id settings with
    | Some v => v
    | None => (λ _, ()) <$> currentSettings
    end in
  match id with
  | Some _ =>
      (Stored updatedSettings,
       setSettingsStore (<["settings"%string := updatedSettings]> (DB.settings db)) db)
  | None => (DataError, db)
  end.

(** *** Templates *)

Definition addTemplate (uuid : string) (template : TodoTemplate.t) (db : DB.t)
  : outcome (TodoTemplate.t * DB.t) :=
  let newTemplate :=
    TodoTemplate.mk uuid (TodoTemplate.name template) (TodoTemplate.description template)
      (TodoTemplate.todoData template) in
  match DB.templates db !! uuid with
  | Some _ => ConstraintError
  | None => Ok (newTemplate, setTemplateStore (<[uuid := newTemplate]> (DB.templates db)) db)
  end.

Definition getTemplates (db : DB.t) : list TodoTemplate.t :=
  getAllOf String.le (DB.templates db).

Definition updateTemplate (template : TodoTemplate.t) (db : DB.t) : TodoTemplate.t * DB.t :=
  (template,
   setTemplateStore (<[TodoTemplate.id template := template]> (DB.templates db)) db).

Definition deleteTemplate (id : string) (db : DB.t) : DB.t :=
  setTemplateStore (delete id (DB.templates db)) db.

(** [{...template.todoData, createdAt: new Date()}], then [addTodo], whose
    own clock reading is not used since [createdAt] is set; the key of the
    task store is a number, so the [typeof] test holds. *)
Definition createTodoFromTemplate (now : Z) (templateId : string) (db : DB.t)
  : outcome (option Z * DB.t) :=
  match DB.templates db !! templateId with
  | Some template =>
      let todoData := Todo.set_createdAt (Some now) (TodoTemplate.todoData template) in
      match addTodo now todoData db with
      | Ok (id, db) => Ok (Some id, db)
      | ConstraintError => ConstraintError
      end
  | None => Ok (None, db)
  end.

(** *** Statistics *)

Definition getStatsRange (startDate endDate : Z) (db : DB.t) : list StatsData.t :=
  List.filter
    (λ stats, (startDate <=? StatsData.date stats) && (StatsData.date stats <=? endDate))
    (getAllOf String.le (DB.stats db)).

(** ** The application state ([src/store/todoStore.ts]) *)

Module TodoState.
Record t := mk {
  todos : list Todo.t;
  categories : list Category.t;
  templates : list TodoTemplate.t;
  settings : option UserSettings.t;
  stats : list StatsData.t;
  selectedDate : Z;
  selectedTags : list string;
  selectedCategories : list string;
  selectedPriority : option Priority;
  searchQuery : string;
  completionFilter : CompletionFilter.t;
  isLoading : bool;
  activeView : UserSettings.View;
  calendarViewType : UserSettings.CalendarView;
  selectedTodo : option Todo.t;
  editingTodo : option Todo.t;
  refreshTrigger : Z;
}.

(** The state [create] starts from; [now] is its [new Date()]. *)
Definition initial (now : Z) : t :=
  mk [] [] [] None [] now [] [] None "" CompletionFilter.all false
     UserSettings.list UserSettings.month None None 0.

(** [set({ selectedTags })] *)
Definition setSelectedTags (tags : list string) (s : t) : t :=
  mk (todos s) (categories s) (templates s) (settings s) (stats s) (selectedDate s)
     tags (selectedCategories s) (selectedPriority s) (searchQuery s)
     (completionFilter s) (isLoading s) (activeView s) (calendarViewType s)
     (selectedTodo s) (editingTodo s) (refreshTrigger s).

(** [set({ selectedCategories })] *)
Definition setSelectedCategories (cats : list string) (s : t) : t :=
  mk (todos s) (categories s) (templates s) (settings s) (stats s) (selectedDate s)
     (selectedTags s) cats (selectedPriority s) (searchQuery s)
     (completionFilter s) (isLoading s) (activeView s) (calendarViewType s)
     (selectedTodo s) (editingTodo s) (refreshTrigger s).

Definition setSelectedDate (date : Z) (s : t) : t :=
  mk (todos s) (categories s) (templates s) (settings s) (stats s) date
     (selectedTags s) (selectedCategories s) (selectedPriority s) (searchQuery s)
     (completionFilter s) (isLoading s) (activeView s) (calendarViewType s)
     (selectedTodo s) (editingTodo s) (refreshTrigger s).

Definition toggleTag (tag : string) (s : t) : t :=
  if bool_decide (tag ∈ selectedTags s)
  then setSelectedTags (List.filter (λ t, negb (String.eqb t tag)) (selectedTags s)) s
  else setSelectedTags (selectedTags s ++ [tag]) s.

Definition toggleCategory (categoryId : string) (s : t) : t :=
  if bool_decide (categoryId ∈ selectedCategories s)
  then setSelectedCategories
         (List.filter (λ c, negb (String.eqb c categoryId)) (selectedCategories s)) s
  else setSelectedCategories (selectedCategories s ++ [categoryId]) s.

(** The five fields [clearFilters] sets; [selectedDate] is not among
    them. *)
Definition clearFilters (s : t) : t :=
  mk (todos s) (categories s) (templates s) (settings s) (stats s) (selectedDate s)
     [] [] None "" CompletionFilter.all (isLoading s) (activeView s)
     (calendarViewType s) (selectedTodo s) (editingTodo s) (refreshTrigger s).

(** The [set] at the end of a successful [loadData]. *)
Definition setLoaded (todos : list Todo.t) (categories : list Category.t)
    (templates : list TodoTemplate.t) (settings : option UserSettings.t)
    (stats : list StatsData.t) (s : t) : t :=
  mk todos categories templates settings stats (selectedDate s)
     (selectedTags s) (selectedCategories s) (selectedPriority s) (searchQuery s)
     (completionFilter s) false (activeView s) (calendarViewType s)
     (selectedTodo s) (editingTodo s) (refreshTrigger s).
End TodoState.

(** [getFilteredTodos]: the filter on the loaded tasks with the filter fields
    of the state; the selected date is always passed. *)
Definition getFilteredTodos {host : Host} (s : TodoState.t) : list Todo.t :=
  filterTodos (TodoState.todos s) (Some (TodoState.selectedDate s))
    (TodoState.selectedTags s) (TodoState.selectedCategories s)
    (TodoState.selectedPriority s) (TodoState.searchQuery s)
    (TodoState.completionFilter s).

(** [loadData], once its promises have settled: the four collections, then
    the statistics of the seven days before [weekAgo] up to [today], two
    readings of the clock. [weekAgo.setDate(weekAgo.getDate() - 7)] moves the
    local date and keeps the local time of day. *)
Definition loadData {host : Host} (today weekAgo : Z) (db : DB.t) (s : TodoState.t)
  : DB.t * TodoState.t :=
  let todos := getTodos db in
  let categories := getCategories db in
  let templates := getTemplates db in
  let '(settings, db) := getSettings db in
  let weekAgo := JSDate.setDateBy weekAgo (-7) in
  let stats := getStatsRange weekAgo today db in
  (db, TodoState.setLoaded todos categories templates settings stats s).

(** ** The tag input (the [TagInput] component) *)

(** [s.split(",")] *)
Fixpoint splitComma (s : string) : list string :=
  match s with
  | EmptyString => [EmptyString]
  | String c r =>
      if Ascii.eqb c ","%char then EmptyString :: splitComma r
      else match splitComma r with
           | piece :: pieces => String c piece :: pieces
           | [] => [String c EmptyString]
           end
  end.

(** [l.slice(0, end)] *)
Definition sliceFromStart {A} (l : list A) (end_ : Z) : list A :=
  if end_ <? 0 then take (Z.to_nat (Z.of_nat (length l) + end_)) l
  else take (Z.to_nat end_) l.

Section TagInput.
Context {host : Host}.

(** The tags [handleAddTag] passes to [onTagsChange], or [None] where it
    returns without calling it. *)
Definition handleAddTag (tags : list string) (maxTags : Z) (tag : string)
  : option (list string) :=
  let trimmedTag := trim tag in
  if negb (truthy trimmedTag) || bool_decide (trimmedTag ∈ tags) ||
     (maxTags <=? Z.of_nat (length tags))
  then None
  else Some (tags ++ [trimmedTag]).

(** [newTags.splice(index, 1)] on a copy. *)
Definition handleRemoveTag (tags : list string) (index : nat) : list string :=
  take index tags ++ drop (S index) tags.

Definition handlePaste (tags : list string) (maxTags : Z) (pasteData : string)
  : option (list string) :=
  if negb (truthy pasteData) then None
  else
    let pastedTags :=
      List.filter (λ tag, truthy tag && negb (bool_decide (tag ∈ tags)))
        (trim <$> splitComma pasteData) in
    let newTags := sliceFromStart (tags ++ pastedTags) maxTags in
    if nonEmpty pastedTags then Some newTags else None.

End TagInput.

(** ** Auxiliary notions used in the statements *)

(** The day number of a calendar date: the inverse of [civilFromDays]. *)
Definition daysFromCivil (ymd : Z * Z * Z) : Z :=
  let '(y, m, d) := ymd in
  let y' := y - (if m <=? 2 then 1 else 0) in
  let era := y' / 400 in
  let yoe := y' - era * 400 in
  let mp := if 2 <? m then m - 3 else m + 9 in
  let doy := (153 * mp + 2) / 5 + d - 1 in
  let doe := yoe * 365 + yoe / 4 - yoe / 100 + doy in
  era * 146097 + doe - 719468.

(** The local day number of a date. *)
Definition localDay {host : Host} (d : Z) : Z := JSDate.Day (JSDate.LocalTime d).

(** A host without clock changes: local time is UTC plus one offset. *)
Definition FixedOffset (host : Host) : Prop :=
  ∃ offset, ∀ t isUTC, LocalTZA t isUTC = offset.

(** A category lies under its [id] (key path [id] of the category store). *)
Definition categoriesKeyed (db : DB.t) : Prop :=
  ∀ k cat, DB.categories db !! k = Some cat → Category.id cat = k.

(** The stores and tasks an operation on the task [k] leaves alone. *)
Definition sameBut (k : Z) (db db' : DB.t) : Prop :=
  (∀ k', k' ≠ k → DB.get k' db' = DB.get k' db) ∧
  DB.todoKey db' = DB.todoKey db ∧
  DB.categories db' = DB.categories db ∧ DB.settings db' = DB.settings db ∧
  DB.templates db' = DB.templates db ∧ DB.stats db' = DB.stats db.

(** What the subtask, note and time-tracking operations never change in a
    task. *)
Definition sameCore (t t' : Todo.t) : Prop :=
  Todo.id t' = Todo.id t ∧ Todo.text t' = Todo.text t ∧
  Todo.description t' = Todo.description t ∧ Todo.createdAt t' = Todo.createdAt t ∧
  Todo.dueDate t' = Todo.dueDate t ∧ Todo.startDate t' = Todo.startDate t ∧
  Todo.endDate t' = Todo.endDate t ∧ Todo.tags t' = Todo.tags t ∧
  Todo.priority t' = Todo.priority t ∧ Todo.repeat t' = Todo.repeat t ∧
  Todo.parentId t' = Todo.parentId t ∧ Todo.categoryId t' = Todo.categoryId t.

(** A task counted under the category [c] for the day [todayStr]. *)
Definition inCategoryDueOn (todayStr c : string) (todo : Todo.t) : bool :=
  dueOn todayStr todo && bool_decide (Todo.categoryId todo = Some c) && truthy c.

(** A tag list as the tag input keeps it: no tag twice, no empty tag, at
    most [maxTags] tags. *)
Definition validTags (maxTags : Z) (tags : list string) : Prop :=
  NoDup tags ∧ (EmptyString ∉ tags) ∧ Z.of_nat (length tags) ≤ maxTags.

(** ** Sample data

    Wednesday 10 January 2024 in Seoul. Local midnight is 15:00 UTC of the
    9th. *)

Definition jan10_midnight : Z := 1704812400000.
Definition jan10_0900 : Z := jan10_midnight + 9 * JSDate.msPerHour.
Definition jan10_1000 : Z := jan10_midnight + 10 * JSDate.msPerHour.
Definition jan10_1200 : Z := jan10_midnight + 12 * JSDate.msPerHour.

(** A task as a minimal form submission stores it. *)
Definition plainTodo (id : Z) (text : string) (dueDate : option Z) : Todo.t :=
  Todo.mk (Some id) text (Some ""%string) false (Some jan10_midnight) dueDate None None
    (Some []) (Some MEDIUM) None (Some []) (Some []) None None None None.

Definition undated : Todo.t := plainTodo 1 "call the bank" None.
Definition allDay : Todo.t := plainTodo 2 "pay the rent" (Some jan10_midnight).
Definition atNine : Todo.t := plainTodo 3 "stand-up" (Some jan10_0900).
Definition atNoon : Todo.t := plainTodo 4 "lunch" (Some jan10_1200).

(** A record written by an earlier version of the application: no
    [description], [subtasks] or [notes]. *)
Definition legacy : Todo.t :=
  Todo.mk (Some 1) "old" None false (Some jan10_midnight) (Some jan10_1200) None None
    (Some ["home"%string]) (Some HIGH) None None None None (Some "work"%string) None None.

Definition work : Category.t := Category.mk "work" "Work" "#3B82F6" None.

Definition withCategories (cats : list Category.t) (db : DB.t) : DB.t :=
  DB.set_categories
    (foldl (λ m cat, <[Category.id cat := cat]> m) (DB.categories db) cats) db.

Definition withTodos (todos : list Todo.t) (db : DB.t) : DB.t :=
  foldl (λ db todo, (DB.put todo db).2) db todos.

Definition legacyDB : DB.t := withTodos [legacy] (withCategories [work] DB.init).

(** A task of the category "work", due at noon and completed at nine. *)
Definition doneAtNine : Todo.t :=
  Todo.mk (Some 5) "report" (Some ""%string) true (Some jan10_midnight) (Some jan10_1200)
    None None (Some ["home"%string]) (Some MEDIUM) None (Some []) (Some []) None
    (Some "work"%string) (Some jan10_0900) None.

Definition sampleDB : DB.t :=
  withTodos [undated; allDay; atNine; atNoon; doneAtNine]
    (withCategories [work] DB.init).


(** A form submission that leaves out every optional property. *)
Definition buyMilk : Todo.t :=
  Todo.mk None "Buy milk" None false None (Some jan10_midnight) None None None
    (Some MEDIUM) None None None None None None None.

(** The database after [buyMilk] is added at 10:00, and after it is then
    completed at noon. *)
Definition milkDB : DB.t :=
  match addTodo jan10_1000 buyMilk DB.init with
  | Ok (_, db) => db
  | ConstraintError => DB.init
  end.

Definition milkDoneDB : DB.t := (toggleTodoCompletion jan10_1200 1 true milkDB).2.

(** A template, and the sample database with it. *)
Definition standup : TodoTemplate.t :=
  TodoTemplate.mk "tpl" "Stand-up" None
    (Todo.mk None "stand-up" None false None None None None (Some ["team"%string])
       (Some LOW) None None None None None None None).

Definition templateDB : DB.t :=
  setTemplateStore (<["tpl"%string := standup]> (DB.templates sampleDB)) sampleDB.

(** The sample database with two subtasks under the all-day task. *)
Definition choresDB : DB.t :=
  (addSubtask "s2" 2 "dry" (addSubtask "s1" 2 "wash" sampleDB).2).2.

(** The all-day task as [choresDB] holds it. *)
Definition chores : Todo.t :=
  Todo.set_subtasks
    (Some [SubTask.mk "s1" "wash" false; SubTask.mk "s2" "dry" false]) allDay.

(** Three updates of the settings: [{ theme: "dark" }],
    [{ theme: undefined, language: "en" }] and [{ id: undefined }]. *)
Definition darkTheme : SettingsPatch.t :=
  SettingsPatch.mk None (Some (Some UserSettings.dark)) None None None None None None.

Definition noThemeEnglish : SettingsPatch.t :=
  SettingsPatch.mk None (Some None) (Some (Some "en"%string)) None None None None None.

Definition noId : SettingsPatch.t :=
  SettingsPatch.mk (Some None) None None None None None None None.

(** Cairo, April 2024: noon of the 25th, 23:30 of the 25th, the first
    instant of the 26th (01:00, there being no midnight) and 00:30 of the
    27th; a task due at each of the last two. *)
Definition apr25_noon : Z := 1714039200000.
Definition apr25_2330 : Z := 1714080600000.
Definition apr26_0100 : Z := 1714082400000.
Definition apr27_0030 : Z := 1714167000000.
Definition flight : Todo.t := plainTodo 7 "flight" (Some apr26_0100).
Definition nightBus : Todo.t := plainTodo 8 "night bus" (Some apr27_0030).

(** The state after the sample database is loaded at 10:00. *)
Definition sampleState : TodoState.t :=
  (@loadData seoul jan10_1000 jan10_1000 sampleDB (TodoState.initial jan10_1000)).2.

(** A task due the next day, and the state with it. *)
Definition dentist : Todo.t :=
  plainTodo 6 "dentist" (Some (jan10_1200 + JSDate.msPerDay)).

Definition busyState : TodoState.t :=
  TodoState.setSelectedTags ["home"%string]
    (@loadData seoul jan10_1000 jan10_1000 (withTodos [dentist] sampleDB)
       (TodoState.initial jan10_1000)).2.

(** * Properties *)

Lemma elem_of_filter_bool {A} (f : A → bool) (l : list A) (x : A) :
  x ∈ List.filter f l ↔ x ∈ l ∧ f x = true.
Proof. rewrite !list_elem_of_In. apply filter_In. Qed.

Lemma filter_bool_idem {A} (f : A → bool) (l : list A) :
  List.filter f (List.filter f l) = List.filter f l.
Proof.
  induction l as [|x l IH]; simpl; [done|].
  destruct (f x) eqn:Hx; simpl; [|done].
  by rewrite Hx, IH.
Qed.

Section FilterFacts.
Context {host : Host}.

Lemma keeps_tags date S cats prio q comp todo :
  keeps date S cats prio q comp todo =
  tagsPass S todo && keeps date [] cats prio q comp todo.
Proof.
  unfold keeps, tagsPass. simpl.
  destruct (match date with Some _ => _ | None => _ end);
    [by rewrite andb_false_r|].
  by destruct (nonEmpty S && _).
Qed.

Lemma keeps_date date S cats prio q comp todo :
  keeps date S cats prio q comp todo =
  datePass date todo && keeps None S cats prio q comp todo.
Proof.
  unfold keeps, datePass.
  destruct date as [sel|]; [|done].
  destruct (Todo.dueDate todo) as [due|]; [|done].
  by destruct (isSameDayYMD due sel).
Qed.

Lemma tagsPass_subseteq S todo :
  tagsPass S todo = true ↔ S ⊆ default [] (Todo.tags todo).
Proof.
  unfold tagsPass. destruct S as [|s S]; simpl.
  { split; [intros _ x Hx; inversion Hx|done]. }
  destruct (Todo.tags todo) as [tags|]; simpl.
  - rewrite negb_involutive.
    change (bool_decide (s ∈ tags) && forallb (λ tag, bool_decide (tag ∈ tags)) S)
      with (forallb (λ tag, bool_decide (tag ∈ tags)) (s :: S)).
    rewrite forallb_forall. split.
    + intros H x Hx. apply list_elem_of_In in Hx.
      by apply (bool_decide_eq_true_1 _), H.
    + intros H x Hx. apply bool_decide_eq_true_2, H. by apply list_elem_of_In.
  - split; [done|]. intros H. specialize (H s). 
    assert (s ∈ @nil string) as Hs by (apply H; left). inversion Hs.
Qed.

(** C9. [filterTodos] is idempotent: filtering its own output again with
    the same criteria gives the same list. *)
Theorem filterTodos_idempotent (todos : list Todo.t) date tags cats prio q comp :
  filterTodos (filterTodos todos date tags cats prio q comp) date tags cats prio q comp
  = filterTodos todos date tags cats prio q comp.
Proof. apply filter_bool_idem. Qed.

(** What the callback asks of a task when no date and no tag is selected:
    the four remaining criteria, one by one. *)
Lemma keeps_others cats prio q comp (t : Todo.t) :
  keeps None [] cats prio q comp t = true ↔
    (cats ≠ [] → ∃ c, Todo.categoryId t = Some c ∧ c ≠ ""%string ∧ c ∈ cats) ∧
    (∀ p, prio = Some p → Todo.priority t = Some p) ∧
    (truthy (trim q) = true →
       includes (toLowerCase (Todo.text t)) (toLowerCase q) = true ∨
       (∃ d, Todo.description t = Some d ∧ d ≠ ""%string ∧
             includes (toLowerCase d) (toLowerCase q) = true) ∨
       (∃ tags tag, Todo.tags t = Some tags ∧ tag ∈ tags ∧
                    includes (toLowerCase tag) (toLowerCase q) = true) ∨
       (∃ notes note, Todo.notes t = Some notes ∧ note ∈ notes ∧
                      includes (toLowerCase (TodoNote.content note)) (toLowerCase q) = true)) ∧
    (comp = CompletionFilter.completed → Todo.completed t = true) ∧
    (comp = CompletionFilter.active → Todo.completed t = false).
Proof.
  assert (∀ b1 b2 b3 b4 b5 : bool,
            (if b1 then false else if b2 then false else if b3 then false
             else if b4 then false else if b5 then false else true) = true ↔
            b1 = false ∧ b2 = false ∧ b3 = false ∧ b4 = false ∧ b5 = false) as Hifs.
  { intros [] [] [] [] []; simpl; split; (done || by intros (?&?&?&?&?)). }
  assert (∀ s, truthy s = true ↔ s ≠ ""%string) as Htruthy.
  { intros s0. unfold truthy. by rewrite negb_true_iff, String.eqb_neq. }
  unfold keeps. cbn [nonEmpty andb].
  set (bc := nonEmpty cats && _). set (bp := match prio with Some _ => _ | None => _ end).
  set (bs := truthy (trim q) && _).
  set (b4 := match comp with CompletionFilter.completed => _ | _ => _ end).
  set (b5 := match comp with CompletionFilter.active => _ | _ => _ end).
  rewrite Hifs.
  assert (bc = false ↔
          (cats ≠ [] → ∃ c, Todo.categoryId t = Some c ∧ c ≠ ""%string ∧ c ∈ cats)) as ->.
  { unfold bc. destruct cats as [|c0 cats']; [by split|]. cbn [nonEmpty andb].
    destruct (Todo.categoryId t) as [c|].
    - rewrite orb_false_iff, !negb_false_iff, Htruthy, bool_decide_eq_true. split.
      + intros [? ?] _. by exists c.
      + intros H. destruct H as (c' & [= <-] & ? & ?); done.
    - split; [done|]. intros H. by destruct H as (c' & [=] & _). }
  assert (bp = false ↔ (∀ p, prio = Some p → Todo.priority t = Some p)) as ->.
  { unfold bp. destruct prio as [p|].
    - rewrite negb_false_iff, bool_decide_eq_true. split; [by intros ? ? [= <-]|auto].
    - by split. }
  assert (b4 = false ↔ (comp = CompletionFilter.completed → Todo.completed t = true)) as ->.
  { unfold b4. destruct comp, (Todo.completed t); simpl;
      (split; [intros Hb Hc; congruence|intros H; first [done|specialize (H eq_refl); congruence]]). }
  assert (b5 = false ↔ (comp = CompletionFilter.active → Todo.completed t = false)) as ->.
  { unfold b5. destruct comp, (Todo.completed t); simpl;
      (split; [intros Hb Hc; congruence|intros H; first [done|specialize (H eq_refl); congruence]]). }
  assert (bs = false ↔
          (truthy (trim q) = true →
           includes (toLowerCase (Todo.text t)) (toLowerCase q) = true ∨
           (∃ d, Todo.description t = Some d ∧ d ≠ ""%string ∧
                 includes (toLowerCase d) (toLowerCase q) = true) ∨
           (∃ tags tag, Todo.tags t = Some tags ∧ tag ∈ tags ∧
                        includes (toLowerCase tag) (toLowerCase q) = true) ∨
           (∃ notes note, Todo.notes t = Some notes ∧ note ∈ notes ∧
                          includes (toLowerCase (TodoNote.content note)) (toLowerCase q)
                          = true))) as ->; [|tauto].
  unfold bs. destruct (truthy (trim q)); [|by split]. cbn [andb].
  rewrite negb_false_iff, !orb_true_iff.
  assert (match Todo.description t with
          | Some d => truthy d && includes (toLowerCase d) (toLowerCase q)
          | None => false
          end = true ↔
          ∃ d, Todo.description t = Some d ∧ d ≠ ""%string ∧
               includes (toLowerCase d) (toLowerCase q) = true) as ->.
  { destruct (Todo.description t) as [d|].
    - rewrite andb_true_iff, Htruthy. split; [by exists d|].
      by intros (d' & [= <-] & ? & ?).
    - split; [done|]. by intros (? & [=] & _). }
  assert (match Todo.tags t with
          | Some tags => existsb (λ tag, includes (toLowerCase tag) (toLowerCase q)) tags
          | None => false
          end = true ↔
          ∃ tags tag, Todo.tags t = Some tags ∧ tag ∈ tags ∧
                      includes (toLowerCase tag) (toLowerCase q) = true) as ->.
  { destruct (Todo.tags t) as [tags|].
    - rewrite existsb_exists. split.
      + intros (tag & Hin%list_elem_of_In & ?). by exists tags, tag.
      + intros (tags' & tag & [= <-] & Hin%list_elem_of_In & ?). by exists tag.
    - split; [done|]. by intros (? & ? & [=] & _). }
  assert (match Todo.notes t with
          | Some notes =>
              existsb (λ note, includes (toLowerCase (TodoNote.content note)) (toLowerCase q))
                notes
          | None => false
          end = true ↔
          ∃ notes note, Todo.notes t = Some notes ∧ note ∈ notes ∧
                        includes (toLowerCase (TodoNote.content note)) (toLowerCase q) = true)
    as ->.
  { destruct (Todo.notes t) as [notes|].
    - rewrite existsb_exists. split.
      + intros (note & Hin%list_elem_of_In & ?). by exists notes, note.
      + intros (notes' & note & [= <-] & Hin%list_elem_of_In & ?). by exists note.
    - split; [done|]. by intros (? & ? & [=] & _). }
  tauto.
Qed.

(** With no date, category or priority selected, a search text that is
    blank once trimmed and every completion state admitted, the callback
    decides by the tags alone. *)
Lemma keeps_tags_only S q todo :
  truthy (trim q) = false →
  keeps None S [] None q CompletionFilter.all todo = tagsPass S todo.
Proof.
  intros Hq. rewrite keeps_tags.
  assert (keeps None [] [] None q CompletionFilter.all todo = true) as ->.
  { unfold keeps. simpl. by rewrite Hq. }
  apply andb_true_r.
Qed.

(** C3. The filter returns a task exactly when it is in the list, the
    selected tags [S] are all in its tag list (a task without a tag list has
    no tags) and it meets the other criteria, none of which looks at [S]:
    the selected day if it has a due date, one of the selected categories,
    the selected priority, the search text in its text, description, tags
    or notes, the completion state. So the tag filter asks that [S] be
    included in the tags of the task, and asks nothing when [S] is empty.
    In particular, under the tag filter alone (no date, category or
    priority selected, a blank search text, every completion state
    admitted) the filter returns the tasks of the list whose tags include
    [S], and the whole list when no tag is selected; and whatever the other
    criteria are, a task passes the filter with the selected tags [S]
    exactly when [S] is included in its tag list and it passes the filter
    with no tag selected. *)
Theorem filterTodos_tags_subset (todos : list Todo.t) date (S : list string)
    cats prio q comp (t : Todo.t) :
  (t ∈ filterTodos todos date S cats prio q comp ↔
     t ∈ todos ∧
     S ⊆ default [] (Todo.tags t) ∧
     (∀ selected due, date = Some selected → Todo.dueDate t = Some due →
        isSameDayYMD due selected = true) ∧
     (cats ≠ [] → ∃ c, Todo.categoryId t = Some c ∧ c ≠ ""%string ∧ c ∈ cats) ∧
     (∀ p, prio = Some p → Todo.priority t = Some p) ∧
     (truthy (trim q) = true →
        includes (toLowerCase (Todo.text t)) (toLowerCase q) = true ∨
        (∃ d, Todo.description t = Some d ∧ d ≠ ""%string ∧
              includes (toLowerCase d) (toLowerCase q) = true) ∨
        (∃ tags tag, Todo.tags t = Some tags ∧ tag ∈ tags ∧
                     includes (toLowerCase tag) (toLowerCase q) = true) ∨
        (∃ notes note, Todo.notes t = Some notes ∧ note ∈ notes ∧
                       includes (toLowerCase (TodoNote.content note)) (toLowerCase q)
                       = true)) ∧
     (comp = CompletionFilter.completed → Todo.completed t = true) ∧
     (comp = CompletionFilter.active → Todo.completed t = false)) ∧
  (truthy (trim q) = false →
     (t ∈ filterTodos todos None S [] None q CompletionFilter.all ↔
        t ∈ todos ∧ S ⊆ default [] (Todo.tags t)) ∧
     filterTodos todos None [] [] None q CompletionFilter.all = todos) ∧
  (t ∈ filterTodos todos date S cats prio q comp ↔
     S ⊆ default [] (Todo.tags t) ∧ t ∈ filterTodos todos date [] cats prio q comp).
Proof.
  split; [|split].
  - unfold filterTodos.
    rewrite elem_of_filter_bool, keeps_date, keeps_tags, !andb_true_iff.
    rewrite tagsPass_subseteq, keeps_others.
    assert (datePass date t = true ↔
            (∀ selected due, date = Some selected → Todo.dueDate t = Some due →
               isSameDayYMD due selected = true)) as ->; [|tauto].
    unfold datePass. destruct date as [selected|], (Todo.dueDate t) as [due|].
    + split; [by intros ? ? ? [= <-] [= <-]|auto].
    + by split.
    + by split.
    + by split.
  - intros Hq. split.
    + unfold filterTodos. rewrite elem_of_filter_bool, (keeps_tags_only _ _ _ Hq).
      by rewrite tagsPass_subseteq.
    + unfold filterTodos. induction todos as [|todo todos IH]; [done|].
      cbn [List.filter]. rewrite (keeps_tags_only _ _ _ Hq).
      change (tagsPass [] todo) with true. cbn iota. by rewrite IH.
  - unfold filterTodos. rewrite !elem_of_filter_bool, keeps_tags.
    rewrite andb_true_iff, tagsPass_subseteq. tauto.
Qed.

(** C1, amended. With a date selected, a task that has a due date passes
    only if the year, month and day of the month of its due date are those
    of the selected date; the date filter does not look at a task that has
    no due date. Precisely, the filter with a date keeps the tasks the
    filter without a date keeps, less those with a due date on another
    day. *)
Theorem filterTodos_date (todos : list Todo.t) (selected : Z) tags cats prio q comp
    (t : Todo.t) :
  t ∈ filterTodos todos (Some selected) tags cats prio q comp ↔
    (∀ due, Todo.dueDate t = Some due → isSameDayYMD due selected = true) ∧
    t ∈ filterTodos todos None tags cats prio q comp.
Proof.
  unfold filterTodos. rewrite !elem_of_filter_bool, keeps_date.
  rewrite andb_true_iff. unfold datePass.
  destruct (Todo.dueDate t) as [due|].
  - split.
    + intros (? & ? & ?). split; [by intros ? [= <-]|done].
    + intros (H & ? & ?). split; [done|]. split; [by apply H|done].
  - split; [intros (? & ? & ?); split; [by intros ? [=]|done]|].
    intros (_ & ? & ?). done.
Qed.

End FilterFacts.

(** The tag filter on a list of three: a task without tag list, a task
    tagged "home" and a task with an empty tag list. *)
Lemma filterTodos_tags_subset_witness :
  truthy (@trim seoul "") = false ∧
  doneAtNine ∈ @filterTodos seoul [buyMilk; doneAtNine; atNine] None ["home"%string] []
                 None "" CompletionFilter.all ∧
  ¬ (buyMilk ∈ @filterTodos seoul [buyMilk; doneAtNine; atNine] None ["home"%string] []
                 None "" CompletionFilter.all) ∧
  @filterTodos seoul [buyMilk; doneAtNine; atNine] None [] [] None "" CompletionFilter.all
  = [buyMilk; doneAtNine; atNine].
Proof.
  assert (truthy (@trim seoul "") = false) as Hq by reflexivity.
  destruct (@filterTodos_tags_subset seoul [buyMilk; doneAtNine; atNine] None
              ["home"%string] [] None "" CompletionFilter.all doneAtNine)
    as (_ & Hdone & _).
  destruct (@filterTodos_tags_subset seoul [buyMilk; doneAtNine; atNine] None
              ["home"%string] [] None "" CompletionFilter.all buyMilk)
    as (_ & Hmilk & _).
  destruct (Hdone Hq) as [Hin Hall]. destruct (Hmilk Hq) as [Hout _].
  split; [exact Hq|]. split; [|split; [|exact Hall]].
  - apply Hin. split; [right; left|]. intros tag Htag. exact Htag.
  - intros Hm. apply Hout in Hm as [_ Hsub].
    specialize (Hsub "home"%string). cbn in Hsub.
    assert ("home"%string ∈ @nil string) as Hnil by (apply Hsub; left).
    inversion Hnil.
Defined.

(** C1, as the specification states it, fails: with a date selected and no
    other criterion, the undated task is kept. *)
Lemma undated_task_passes_date_filter :
  Todo.dueDate undated = None ∧
  undated ∈ @filterTodos seoul [undated; atNine] (Some jan10_1000) [] [] None ""
              CompletionFilter.all.
Proof. split; [reflexivity|]. vm_compute. left. Qed.

Section CalendarFacts.
Context {host : Host}.
Import JSDate.

Lemma getHours_range d : 0 ≤ getHours d < 24.
Proof. unfold getHours, HourFromTime. by apply Z.mod_pos_bound. Qed.

Lemma getMinutes_range d : 0 ≤ getMinutes d < 60.
Proof. unfold getMinutes, MinFromTime. by apply Z.mod_pos_bound. Qed.

Lemma isSameDay_refl d : isSameDay d d = true.
Proof. unfold isSameDay. apply Z.eqb_refl. Qed.

(** The slots are the pairs of an hour of the day and of 0 or 30. *)
Lemma elem_of_TIME_SLOTS hour minute :
  (hour, minute) ∈ TIME_SLOTS ↔ 0 ≤ hour < 24 ∧ (minute = 0 ∨ minute = 30).
Proof.
  unfold TIME_SLOTS. rewrite list_elem_of_fmap. split.
  - intros (i & [= -> ->] & Hi). apply elem_of_seq in Hi.
    split.
    + split; [apply Z.div_pos; lia|apply Z.div_lt_upper_bound; lia].
    + destruct (_ =? 0); auto.
  - intros (Hh & Hm).
    exists (Z.to_nat (2 * hour + (if minute =? 0 then 0 else 1))).
    split; [|apply elem_of_seq; destruct (minute =? 0); lia].
    rewrite Z2Nat.id by (destruct (minute =? 0); lia).
    destruct Hm as [-> | ->]; simpl (if _ =? 0 then 0 else 1).
    + replace (2 * hour + 0) with (0 + hour * 2) by lia.
      by rewrite Z.div_add, Z.mod_add.
    + replace (2 * hour + 1) with (1 + hour * 2) by lia.
      by rewrite Z.div_add, Z.mod_add.
Qed.

(** C7. A task due at hour 0, minute 0 is listed under "all day" in the day
    view of exactly the days that are the day of its due date, itself
    included, and in no time slot of any day. A task due at another time
    is never listed under "all day"; in the day view of the day of its due
    date it is in one of the 48 slots only, the one of its hour and of the
    half hour its minute falls in. *)
Theorem day_view_buckets (todos : list Todo.t) (t : Todo.t) (due : Z) :
  t ∈ todos →
  Todo.dueDate t = Some due →
  (getHours due = 0 ∧ getMinutes due = 0 →
     t ∈ allDayTodos todos due ∧
     (∀ day, t ∈ allDayTodos todos day ↔ isSameDay due day = true) ∧
     (∀ day hour minute, t ∉ getTodosForTimeSlot todos day hour minute)) ∧
  (¬ (getHours due = 0 ∧ getMinutes due = 0) →
     (∀ day, t ∉ allDayTodos todos day) ∧
     slotOf due ∈ TIME_SLOTS ∧
     (∀ day, isSameDay due day = true →
        ∀ slot, slot ∈ TIME_SLOTS →
          (t ∈ getTodosForTimeSlot todos day slot.1 slot.2 ↔ slot = slotOf due))).
Proof.
  intros Ht Hdue. split.
  - intros [Hh Hm].
    assert (∀ day, t ∈ allDayTodos todos day ↔ isSameDay due day = true) as Hall.
    { intros day. unfold allDayTodos, getTodosForDay.
      rewrite !elem_of_filter_bool, Hdue, Hh, Hm. simpl. tauto. }
    split; [apply Hall, isSameDay_refl|]. split; [done|].
    intros day hour minute. unfold getTodosForTimeSlot.
    rewrite elem_of_filter_bool, Hdue, Hh, Hm. simpl. by intros [_ ?].
  - intros Hnot.
    assert ((getHours due =? 0) && (getMinutes due =? 0) = false) as Hmid.
    { apply andb_false_iff.
      destruct (Z.eqb_spec (getHours due) 0), (Z.eqb_spec (getMinutes due) 0); tauto. }
    split; [|split].
    + intros day. unfold allDayTodos.
      rewrite elem_of_filter_bool, Hdue, Hmid. by intros [_ ?].
    + unfold slotOf. apply elem_of_TIME_SLOTS. split; [apply getHours_range|].
      destruct (_ <? 30); auto.
    + intros day Hday [hour minute] [_ Hminute]%elem_of_TIME_SLOTS.
      unfold getTodosForTimeSlot, slotOf.
      rewrite elem_of_filter_bool, Hdue, Hmid, Hday. simpl.
      rewrite andb_true_iff, Z.eqb_eq.
      destruct Hminute as [-> | ->]; simpl (if _ =? 0 then _ else _);
        rewrite ?Z.leb_le;
        destruct (Z.ltb_spec (getMinutes due) 30);
        (split; [intros (_ & -> & ?); f_equal; (done || lia)
                |intros ?; simplify_eq; repeat split; (done || lia)]).
Qed.

End CalendarFacts.

(** The 09:00 task of the sample day, next to the all-day one. *)
Lemma day_view_buckets_witness :
  atNine ∈ [allDay; atNine] ∧
  Todo.dueDate atNine = Some jan10_0900 ∧
  ¬ (@JSDate.getHours seoul jan10_0900 = 0 ∧ @JSDate.getMinutes seoul jan10_0900 = 0) ∧
  (∀ day, atNine ∉ @allDayTodos seoul [allDay; atNine] day) ∧
  (atNine ∈ @getTodosForTimeSlot seoul [allDay; atNine] jan10_1000 9 0 ↔
     (9, 0) = @slotOf seoul jan10_0900).
Proof.
  assert (atNine ∈ [allDay; atNine]) as Hin by (right; left).
  assert (¬ (@JSDate.getHours seoul jan10_0900 = 0 ∧
             @JSDate.getMinutes seoul jan10_0900 = 0)) as Hnot
    by (vm_compute; intros [[=] _]).
  destruct (@day_view_buckets seoul [allDay; atNine] atNine jan10_0900 Hin eq_refl)
    as [_ Htimed].
  destruct (Htimed Hnot) as (Hall & _ & Hslot).
  split; [exact Hin|]. split; [reflexivity|]. split; [exact Hnot|].
  split; [exact Hall|].
  assert (@JSDate.isSameDay seoul jan10_0900 jan10_1000 = true) as Hday
    by (vm_compute; reflexivity).
  apply (Hslot jan10_1000 Hday (9, 0)).
  apply elem_of_TIME_SLOTS. lia.
Defined.

(** ** The record store *)

Lemma elem_of_getAllOf {K V} `{Countable K} (le : relation K)
    `{∀ x y, Decision (le x y)} (m : gmap K V) (v : V) :
  v ∈ getAllOf le m ↔ ∃ k, m !! k = Some v.
Proof.
  unfold getAllOf. rewrite list_elem_of_fmap. split.
  - intros ([k v'] & -> & Hin). exists k.
    rewrite merge_sort_Permutation in Hin. by apply elem_of_map_to_list in Hin.
  - intros (k & Hk). exists (k, v). split; [done|].
    rewrite merge_sort_Permutation. by apply elem_of_map_to_list.
Qed.

Lemma elem_of_getAll (db : DB.t) (todo : Todo.t) :
  todo ∈ DB.getAll db ↔ ∃ k, DB.get k db = Some todo.
Proof. apply elem_of_getAllOf. Qed.

(** Writing a record that carries its key touches that key only. *)
Lemma get_put_keyed (todo : Todo.t) (k k' : Z) (db : DB.t) :
  Todo.id todo = Some k →
  DB.get k' (DB.put todo db).2 = if decide (k = k') then Some todo else DB.get k' db.
Proof.
  intros Hid. unfold DB.put, DB.get. rewrite Hid. simpl.
  apply lookup_insert.
Qed.

Lemma put_keyed_others (todo : Todo.t) (db : DB.t) :
  let db' := (DB.put todo db).2 in
  DB.categories db' = DB.categories db ∧ DB.settings db' = DB.settings db ∧
  DB.templates db' = DB.templates db ∧ DB.stats db' = DB.stats db.
Proof. unfold DB.put. by destruct (Todo.id todo). Qed.

(** The store invariant holds initially and every write keeps it. *)
Lemma wf_init : DB.wf DB.init.
Proof. intros k todo Hk. unfold DB.init in Hk. simpl in Hk. by rewrite lookup_empty in Hk. Qed.

Lemma wf_put (todo : Todo.t) (db : DB.t) : DB.wf db → DB.wf (DB.put todo db).2.
Proof.
  intros Hwf k' todo'. unfold DB.put.
  destruct (Todo.id todo) as [k|] eqn:Hid; simpl; rewrite lookup_insert;
    case_decide as Hk; intros Hlook; simplify_eq.
  - split; [done|lia].
  - destruct (Hwf _ _ Hlook). split; [done|lia].
  - split; [by destruct todo|lia].
  - destruct (Hwf _ _ Hlook). split; [done|lia].
Qed.

(** What one call of [toggleTodoCompletion] does to a stored task. *)
Lemma toggleTodoCompletion_stored (now k : Z) (c : bool) (db : DB.t) (t0 : Todo.t) :
  DB.wf db → DB.get k db = Some t0 →
  let t1 := Todo.set_completedAt (if c then Some now else None) (Todo.set_completed c t0) in
  let db1 := (toggleTodoCompletion now k c db).2 in
  (toggleTodoCompletion now k c db).1 = Some t1 ∧
  DB.get k db1 = Some t1 ∧
  (∀ k', k' ≠ k → DB.get k' db1 = DB.get k' db) ∧
  DB.wf db1.
Proof.
  intros Hwf Hget. unfold toggleTodoCompletion. rewrite Hget. simpl.
  assert (Todo.id (Todo.set_completedAt (if c then Some now else None)
                     (Todo.set_completed c t0)) = Some k) as Hid.
  { by destruct (Hwf _ _ Hget). }
  split; [done|]. split; [|split].
  - rewrite (get_put_keyed _ k) by done. by rewrite decide_True.
  - intros k' Hk'. rewrite (get_put_keyed _ k) by done. by rewrite decide_False.
  - by apply wf_put.
Qed.

(** C4. For a stored task, a call with a flag [c] followed by a call with
    the opposite flag: each call stores and returns the task with [completed]
    set to the flag it was given, [completedAt] set to the time of the call
    when the flag is [true] and removed when it is [false], and nothing else
    changed; so when [c] is the opposite of the original flag, the second
    call brings [completed] back to the original value. *)
Theorem toggleTodoCompletion_twice
    (db : DB.t) (k : Z) (t0 : Todo.t) (now1 now2 : Z) (c : bool) :
  DB.wf db →
  DB.get k db = Some t0 →
  let r1 := toggleTodoCompletion now1 k c db in
  let r2 := toggleTodoCompletion now2 k (negb c) r1.2 in
  let t1 := Todo.set_completedAt (if c then Some now1 else None)
              (Todo.set_completed c t0) in
  let t2 := Todo.set_completedAt (if negb c then Some now2 else None)
              (Todo.set_completed (negb c) t0) in
  r1.1 = Some t1 ∧ DB.get k r1.2 = Some t1 ∧
  Todo.completed t1 = c ∧
  Todo.completedAt t1 = (if c then Some now1 else None) ∧
  r2.1 = Some t2 ∧ DB.get k r2.2 = Some t2 ∧
  Todo.completed t2 = negb c ∧
  Todo.completedAt t2 = (if negb c then Some now2 else None) ∧
  (c = negb (Todo.completed t0) → Todo.completed t2 = Todo.completed t0).
Proof.
  intros Hwf Hget r1 r2 t1 t2.
  destruct (toggleTodoCompletion_stored now1 k c db t0 Hwf Hget)
    as (Hr1 & Hg1 & _ & Hwf1).
  destruct (toggleTodoCompletion_stored now2 k (negb c) r1.2 t1 Hwf1 Hg1)
    as (Hr2 & Hg2 & _ & _).
  assert (Todo.set_completedAt (if negb c then Some now2 else None)
            (Todo.set_completed (negb c) t1) = t2) as Ht2 by done.
  rewrite Ht2 in Hr2, Hg2.
  repeat split; try done.
  intros ->. simpl. apply negb_involutive.
Qed.

(** C10. When no task is stored under [k], [toggleTodoCompletion],
    [addSubtask], [addNote], [startTimeTracking] and [stopTimeTracking]
    return [undefined] and the database they leave is the one they found;
    [stopTimeTracking] does the same whenever the task, its [timeTracking]
    or the [started] time of it is missing. *)
Theorem absent_task_no_op
    (db : DB.t) (k now : Z) (uuid text content : string) (b : bool) :
  (DB.get k db = None →
     toggleTodoCompletion now k b db = (None, db) ∧
     addSubtask uuid k text db = (None, db) ∧
     addNote now uuid k content db = (None, db) ∧
     startTimeTracking now k db = (None, db) ∧
     stopTimeTracking now k db = (None, db)) ∧
  ((DB.get k db ≫= Todo.timeTracking) ≫= TimeTracking.started = None →
     stopTimeTracking now k db = (None, db)).
Proof.
  split.
  - intros Hget.
    unfold toggleTodoCompletion, addSubtask, addNote, startTimeTracking,
      stopTimeTracking.
    by rewrite Hget.
  - unfold stopTimeTracking.
    destruct (DB.get k db) as [todo|]; simpl; [|done].
    destruct (Todo.timeTracking todo) as [tracking|]; simpl; [|done].
    by intros ->.
Qed.

(** C5. Adding a payload [x] that has no [id] succeeds, under the key the
    generator holds, and [getTodos] then lists the record that has this key
    as [id], the fields of [x] that are not defaulted as they are in [x], and
    the defaulted ones filled in: [tags], [subtasks] and [notes] are those of
    [x] or the empty list, [createdAt] is that of [x] or the time of the
    call, [description] is that of [x] or the empty string ([priority], which
    the interface requires, is that of [x], or medium for a payload that
    lacks it). *)
Theorem addTodo_then_getTodos (db : DB.t) (x : Todo.t) (now : Z) :
  DB.wf db →
  Todo.id x = None →
  ∃ db',
    addTodo now x db = Ok (DB.todoKey db, db') ∧
    Todo.mk (Some (DB.todoKey db)) (Todo.text x)
      (Some (default ""%string (Todo.description x))) (Todo.completed x)
      (Some (default now (Todo.createdAt x))) (Todo.dueDate x) (Todo.startDate x)
      (Todo.endDate x) (Some (default [] (Todo.tags x)))
      (Some (default MEDIUM (Todo.priority x))) (Todo.repeat x)
      (Some (default [] (Todo.subtasks x))) (Some (default [] (Todo.notes x)))
      (Todo.parentId x) (Todo.categoryId x) (Todo.completedAt x)
      (Todo.timeTracking x)
    ∈ getTodos db'.
Proof.
  intros Hwf Hid. unfold addTodo, DB.add.
  set (newTodo := Todo.withDefaults _).
  assert (Todo.id newTodo = None) as Hnew by done.
  rewrite Hnew. simpl.
  destruct (DB.todos db !! DB.todoKey db) as [old|] eqn:Hold.
  { destruct (Hwf _ _ Hold). lia. }
  unfold DB.put. rewrite Hnew.
  eexists. split; [reflexivity|].
  unfold getTodos. apply list_elem_of_fmap.
  exists (Todo.set_id (Some (DB.todoKey db)) newTodo). split; [done|].
  apply elem_of_getAll. exists (DB.todoKey db).
  unfold DB.get. simpl. apply lookup_insert_eq.
Qed.

Lemma get_clearCategory (db : DB.t) (todo : Todo.t) (k k' : Z) :
  Todo.id todo = Some k →
  DB.get k' (clearCategory db todo) =
    if decide (k = k') then Some (Todo.set_categoryId None todo) else DB.get k' db.
Proof. intros Hid. by apply get_put_keyed. Qed.

Lemma categories_clearCategory (db : DB.t) (l : list Todo.t) :
  DB.categories (foldl clearCategory db l) = DB.categories db.
Proof.
  revert db. induction l as [|todo l IH]; intros db; simpl; [done|].
  rewrite IH. apply put_keyed_others.
Qed.

(** The loop leaves alone the keys of the tasks it is not given. *)
Lemma get_foldl_clearCategory_other (l : list Todo.t) (db : DB.t) (k : Z) :
  (∀ todo, todo ∈ l → is_Some (Todo.id todo)) →
  (∀ todo, todo ∈ l → Todo.id todo ≠ Some k) →
  DB.get k (foldl clearCategory db l) = DB.get k db.
Proof.
  revert db. induction l as [|todo l IH]; intros db Hids Hk; simpl; [done|].
  rewrite IH.
  - destruct (Hids todo) as [k' Hk']; [left|].
    rewrite (get_clearCategory _ _ k') by done.
    rewrite decide_False; [done|]. intros ->. by apply (Hk todo); [left|].
  - intros ? ?. apply Hids. by right.
  - intros ? ?. apply Hk. by right.
Qed.

(** A task the loop is given ends without category, when the list holds no
    other task of the same key. *)
Lemma get_foldl_clearCategory_in (l : list Todo.t) (db : DB.t) (k : Z) (K : Todo.t) :
  Todo.id K = Some k →
  (∀ todo, todo ∈ l → is_Some (Todo.id todo)) →
  (∀ todo, todo ∈ l → Todo.id todo = Some k → todo = K) →
  K ∈ l →
  DB.get k (foldl clearCategory db l) = Some (Todo.set_categoryId None K).
Proof.
  intros HK. induction l as [|todo l IH] using rev_ind; intros Hids Hsame Hin.
  { inversion Hin. }
  rewrite foldl_app. simpl.
  destruct (Hids todo) as [k' Hk']; [apply elem_of_app; right; left|].
  rewrite (get_clearCategory _ _ k') by done.
  case_decide as Hkk.
  - subst k'. f_equal. f_equal. apply Hsame; [|done].
    apply elem_of_app. right. left.
  - apply IH.
    + intros ? ?. apply Hids, elem_of_app. by left.
    + intros ? ?. apply Hsame, elem_of_app. by left.
    + apply elem_of_app in Hin as [?|Hlast]; [done|].
      apply list_elem_of_singleton in Hlast. subst todo. congruence.
Qed.

(** After [deleteCategory c], under every key of the task store lies what
    lay there before, without its [categoryId] if that was [c]. *)
Lemma get_deleteCategory (db : DB.t) (c : string) (k : Z) :
  DB.wf db →
  DB.get k (deleteCategory c db) =
    (λ K, if bool_decide (Todo.categoryId K = Some c)
          then Todo.set_categoryId None K else K) <$> DB.get k db.
Proof.
  intros Hwf. unfold deleteCategory.
  set (db1 := DB.set_categories _ db).
  set (l := getTodosByCategory c db1).
  assert (∀ todo, todo ∈ l ↔
            Todo.categoryId todo = Some c ∧ ∃ k', DB.get k' db = Some todo) as Hl.
  { intros todo. unfold l, getTodosByCategory, DB.getAllFromIndex_categoryId.
    rewrite elem_of_filter_bool, elem_of_getAll, bool_decide_eq_true. tauto. }
  assert (∀ todo, todo ∈ l → is_Some (Todo.id todo)) as Hids.
  { intros todo (_ & k' & Hk')%Hl. destruct (Hwf _ _ Hk') as [-> _]. by eexists. }
  assert (∀ todo, todo ∈ l → Todo.id todo = Some k → DB.get k db = Some todo) as Hkey.
  { intros todo (_ & k' & Hk')%Hl Hid.
    destruct (Hwf _ _ Hk') as [Hid' _]. rewrite Hid in Hid'. by injection Hid' as ->. }
  change (DB.get k db) with (DB.get k db1) in *.
  destruct (DB.get k db1) as [K|] eqn:HK; simpl.
  - destruct (Hwf _ _ HK) as [HidK _]. case_bool_decide as Hcat.
    + apply get_foldl_clearCategory_in; [done|done| |].
      * intros todo Hin Hid. specialize (Hkey todo Hin Hid). congruence.
      * apply Hl. split; [done|]. by exists k.
    + rewrite get_foldl_clearCategory_other; [done|done|].
      intros todo Hin Hid. specialize (Hkey todo Hin Hid).
      apply Hl in Hin as [Hc _]. congruence.
  - rewrite get_foldl_clearCategory_other; [done|done|].
    intros todo Hin Hid. specialize (Hkey todo Hin Hid). congruence.
Qed.

(** C6. After [deleteCategory c] the category is gone, and a task [K] stored
    under [k] is still stored under [k]. If its category was [c], the
    record stored is now [K] with no [categoryId] and every other property
    as it was, and [getTodos] returns a task of this [id] and text that has
    no [categoryId]; otherwise the record is unchanged. *)
Theorem deleteCategory_keeps_tasks (db : DB.t) (c : string) (k : Z) (K : Todo.t) :
  DB.wf db →
  DB.get k db = Some K →
  DB.categories (deleteCategory c db) !! c = None ∧
  (Todo.categoryId K = Some c →
     DB.get k (deleteCategory c db) = Some (Todo.set_categoryId None K) ∧
     Todo.withDefaults (Todo.set_categoryId None K) ∈ getTodos (deleteCategory c db) ∧
     DB.get k (deleteCategory c db) =
       Some (Todo.mk (Todo.id K) (Todo.text K) (Todo.description K) (Todo.completed K)
               (Todo.createdAt K) (Todo.dueDate K) (Todo.startDate K) (Todo.endDate K)
               (Todo.tags K) (Todo.priority K) (Todo.repeat K) (Todo.subtasks K)
               (Todo.notes K) (Todo.parentId K) None (Todo.completedAt K)
               (Todo.timeTracking K)) ∧
     (Todo.categoryId <$> DB.get k (deleteCategory c db)) = Some None ∧
     ∃ K', K' ∈ getTodos (deleteCategory c db) ∧ Todo.id K' = Some k ∧
           Todo.text K' = Todo.text K ∧ Todo.categoryId K' = None) ∧
  (Todo.categoryId K ≠ Some c →
     DB.get k (deleteCategory c db) = Some K).
Proof.
  intros Hwf HK.
  pose proof (get_deleteCategory db c k Hwf) as Hget. rewrite HK in Hget. simpl in Hget.
  split; [|split].
  - unfold deleteCategory. rewrite categories_clearCategory. apply lookup_delete_eq.
  - intros Hc. rewrite bool_decide_true in Hget by done.
    assert (Todo.withDefaults (Todo.set_categoryId None K)
              ∈ getTodos (deleteCategory c db)) as Hin.
    { unfold getTodos. apply list_elem_of_fmap. eexists. split; [done|].
      apply elem_of_getAll. by exists k. }
    split_and!; [done|done|done|by rewrite Hget|].
    eexists. split; [exact Hin|]. destruct (Hwf _ _ HK) as [Hid _].
    by split_and!.
  - intros Hc. by rewrite bool_decide_false in Hget.
Qed.

Lemma wf_withTodos (todos : list Todo.t) (db : DB.t) :
  DB.wf db → DB.wf (withTodos todos db).
Proof.
  unfold withTodos. revert db.
  induction todos as [|todo todos IH]; intros db Hwf; simpl; [done|].
  by apply IH, wf_put.
Qed.

(** ** Reads *)

Section ReadFacts.
Context {host : Host}.

(** [getTodos] fills in the missing properties of every record it
    returns. *)
Lemma getTodos_normalized (db : DB.t) (todo : Todo.t) :
  todo ∈ getTodos db →
  is_Some (Todo.tags todo) ∧ is_Some (Todo.subtasks todo) ∧
  is_Some (Todo.notes todo) ∧ is_Some (Todo.description todo).
Proof.
  unfold getTodos. intros (raw & -> & _)%list_elem_of_fmap.
  unfold Todo.withDefaults. simpl. eauto.
Qed.

End ReadFacts.

(** C2. [getTodos] returns the legacy record with its missing properties
    filled in; [getTodosByDate], [getTodosByCategory], [getTodosByPriority],
    [getTodosByTag] and [searchTodos] return it as it is stored, without
    [subtasks], [notes] and [description]. *)
Theorem reads_of_a_legacy_record :
  getTodos legacyDB = [Todo.withDefaults legacy] ∧
  @getTodosByDate seoul jan10_1000 legacyDB = [legacy] ∧
  getTodosByCategory "work" legacyDB = [legacy] ∧
  getTodosByPriority HIGH legacyDB = [legacy] ∧
  getTodosByTag "home" legacyDB = [legacy] ∧
  @searchTodos seoul "OLD" legacyDB = [legacy] ∧
  Todo.subtasks legacy = None ∧ Todo.notes legacy = None ∧
  Todo.description legacy = None.
Proof. vm_compute. repeat split. Qed.

(** ** Statistics *)

(** The two counters of [updateDailyStats] count the tasks whose completion
    date, respectively due date, has the date string [todayStr]. *)
Lemma tallyTodo_counts (todayStr : string) (l : list Todo.t) (acc : Tally) :
  completedCount (foldl (tallyTodo todayStr) acc l) =
    completedCount acc + Z.of_nat (length (List.filter (completedOn todayStr) l)) ∧
  totalCount (foldl (tallyTodo todayStr) acc l) =
    totalCount acc + Z.of_nat (length (List.filter (dueOn todayStr) l)).
Proof.
  revert acc. induction l as [|todo l IH]; intros acc; simpl; [lia|].
  destruct (IH (tallyTodo todayStr acc todo)) as [-> ->].
  unfold tallyTodo, completedOn, dueOn.
  destruct (Todo.completedAt todo) as [cd|], (Todo.dueDate todo) as [dd|]; simpl;
    repeat (match goal with |- context [String.eqb ?a ?b] => destruct (String.eqb a b) end;
            simpl);
    lia.
Qed.

(** [todayStr] is the UTC date of the local midnight: the record of a call
    at [now] is keyed by it and counts against it. *)
Lemma updateDailyStats_record {host : Host} (now : Z) (db : DB.t) :
  let todayStr := JSDate.isoDate (JSDate.setHoursZero now) in
  ∃ r, DB.stats (updateDailyStats now db) !! ("stats_" +:+ todayStr)%string = Some r ∧
       StatsData.completedCount r =
         Z.of_nat (length (List.filter (completedOn todayStr) (DB.getAll db))) ∧
       StatsData.totalCount r =
         Z.of_nat (length (List.filter (dueOn todayStr) (DB.getAll db))) ∧
       ∀ key, key ≠ ("stats_" +:+ todayStr)%string →
              DB.stats (updateDailyStats now db) !! key = DB.stats db !! key.
Proof.
  intros todayStr. unfold updateDailyStats. fold todayStr. simpl.
  eexists. split; [apply lookup_insert_eq|]. simpl.
  match goal with |- context [foldl (tallyTodo todayStr) ?a ?l] =>
    destruct (tallyTodo_counts todayStr l a) as [-> ->] end.
  simpl. repeat split; try lia.
  intros key Hkey. by apply lookup_insert_ne.
Qed.

(** C8. A call at 10:00 on 10 January 2024 in Seoul (01:00 UTC of the same
    day), on a database with four tasks due that day, one of them of the
    category "work", tagged "home" and completed at 09:00: no record is
    written for the 10th; the record written is keyed by the 9th and counts
    one task due (the one due at local midnight), none completed, and
    nothing for the category and the tag. *)
Theorem updateDailyStats_in_seoul :
  let db' := @updateDailyStats seoul jan10_1000 sampleDB in
  (@JSDate.getFullYear seoul jan10_1000, @JSDate.getMonth seoul jan10_1000,
   @JSDate.getDate seoul jan10_1000) = (2024, 0, 10) ∧
  JSDate.isoDate jan10_1000 = "2024-01-10"%string ∧
  Todo.id <$> @getTodosByDate seoul jan10_1000 sampleDB = [Some 2; Some 3; Some 4; Some 5] ∧
  DB.stats db' !! "stats_2024-01-10"%string = None ∧
  ∃ r, DB.stats db' !! "stats_2024-01-09"%string = Some r ∧
       StatsData.id r = "stats_2024-01-09"%string ∧
       StatsData.totalCount r = 1 ∧
       StatsData.completedCount r = 0 ∧
       StatsData.categoryStats r !! "work"%string = Some (Counts.mk 0 0) ∧
       StatsData.tagStats r !! "home"%string = Some (Counts.mk 0 0).
Proof.
  intros db'. repeat (split; [vm_compute; reflexivity|]).
  eexists. split; [vm_compute; reflexivity|].
  repeat split; vm_compute; reflexivity.
Qed.

(** ** The store invariant is kept *)

Lemma wf_foldl_clearCategory (l : list Todo.t) (db : DB.t) :
  DB.wf db → DB.wf (foldl clearCategory db l).
Proof.
  revert db. induction l as [|todo l IH]; intros db Hwf; simpl; [done|].
  by apply IH, wf_put.
Qed.

Lemma wf_operations {host : Host} (db : DB.t) (now id : Z) (s u : string) (b : bool)
    (todo : Todo.t) :
  DB.wf db →
  (∀ k db', addTodo now todo db = Ok (k, db') → DB.wf db') ∧
  DB.wf (updateTodo todo db).2 ∧
  DB.wf (toggleTodoCompletion now id b db).2 ∧
  DB.wf (addSubtask u id s db).2 ∧
  DB.wf (toggleSubtask id u b db).2 ∧
  DB.wf (addNote now u id s db).2 ∧
  DB.wf (startTimeTracking now id db).2 ∧
  DB.wf (stopTimeTracking now id db).2 ∧
  DB.wf (deleteTodo id db) ∧
  DB.wf (deleteCategory s db) ∧
  DB.wf (updateDailyStats now db).
Proof.
  intros Hwf. split_and!.
  - intros k db'. unfold addTodo, DB.add.
    destruct (DB.todos db !! _); [done|]. intros [= Hput].
    match type of Hput with ?p = _ => replace db' with p.2 by (by rewrite Hput) end.
    by apply wf_put.
  - by apply wf_put.
  - unfold toggleTodoCompletion. destruct (DB.get id db); [by apply wf_put|done].
  - unfold addSubtask. destruct (DB.get id db); [by apply wf_put|done].
  - unfold toggleSubtask. destruct (DB.get id db) as [t|]; [|done].
    destruct (Todo.subtasks t); [by apply wf_put|done].
  - unfold addNote. destruct (DB.get id db); [by apply wf_put|done].
  - unfold startTimeTracking. destruct (DB.get id db); [by apply wf_put|done].
  - unfold stopTimeTracking. destruct (DB.get id db) as [t|]; [|done].
    destruct (Todo.timeTracking t) as [tr|]; [|done].
    destruct (TimeTracking.started tr); [by apply wf_put|done].
  - intros k t. unfold deleteTodo. simpl. intros Hk.
    apply lookup_delete_Some in Hk as [_ Hk]. by apply Hwf.
  - unfold deleteCategory. by apply wf_foldl_clearCategory.
  - done.
Qed.

(** ** Worked examples *)

Example isoDate_samples :
  JSDate.isoDate 0 = "1970-01-01"%string ∧
  JSDate.isoDate (-1) = "1969-12-31"%string ∧
  JSDate.isoDate (11016 * JSDate.msPerDay) = "2000-02-29"%string ∧
  JSDate.isoDate jan10_midnight = "2024-01-09"%string ∧
  JSDate.isoDate 253402300800000 = "+010000-01-01"%string.
Proof. vm_compute. repeat split. Qed.

Example seoul_clock :
  (@JSDate.getFullYear seoul jan10_midnight, @JSDate.getMonth seoul jan10_midnight,
   @JSDate.getDate seoul jan10_midnight, @JSDate.getHours seoul jan10_midnight,
   @JSDate.getMinutes seoul jan10_midnight) = (2024, 0, 10, 0, 0) ∧
  (@JSDate.getHours seoul jan10_0900, @JSDate.getMinutes seoul jan10_0900) = (9, 0) ∧
  @JSDate.setHoursZero seoul jan10_1000 = jan10_midnight.
Proof. vm_compute. repeat split. Qed.

(** The day view of the sample day: the midnight task alone is listed under
    "all day", the 09:00 task alone has a slot, the one at (9, 0). *)
Example day_view_of_jan10 :
  @allDayTodos seoul [allDay; atNine] jan10_1000 = [allDay] ∧
  @getTodosForTimeSlot seoul [allDay; atNine] jan10_1000 9 0 = [atNine] ∧
  List.filter
    (λ slot, nonEmpty (@getTodosForTimeSlot seoul [allDay; atNine] jan10_1000 slot.1 slot.2))
    TIME_SLOTS = [(9, 0)].
Proof. vm_compute. repeat split. Qed.

(** The task "Buy milk", due at midnight of the 10th: listed as active once
    added; after it is completed at noon, not listed as active and listed as
    completed, with noon as [completedAt]. *)
Example buy_milk_scenario :
  Todo.text <$> @filterTodos seoul (getTodos milkDB) None [] [] None ""
                  CompletionFilter.active = ["Buy milk"%string] ∧
  @filterTodos seoul (getTodos milkDoneDB) None [] [] None "" CompletionFilter.active = [] ∧
  (λ todo, (Todo.text todo, Todo.completedAt todo)) <$>
    @filterTodos seoul (getTodos milkDoneDB) None [] [] None "" CompletionFilter.completed
  = [("Buy milk"%string, Some jan10_1200)].
Proof. vm_compute. repeat split. Qed.

(** On a machine whose local time is UTC the same call counts the tasks of
    the UTC day of the call: three due, one completed. *)
Example updateDailyStats_in_greenwich :
  let db' := @updateDailyStats greenwich jan10_1000 sampleDB in
  ∃ r, DB.stats db' !! "stats_2024-01-10"%string = Some r ∧
       StatsData.totalCount r = 3 ∧
       StatsData.completedCount r = 1 ∧
       StatsData.categoryStats r !! "work"%string = Some (Counts.mk 1 1) ∧
       StatsData.tagStats r !! "home"%string = Some (Counts.mk 1 1).
Proof.
  intros db'. eexists. split; [vm_compute; reflexivity|].
  repeat split; vm_compute; reflexivity.
Qed.

(** ** Instances *)

Lemma toggleTodoCompletion_twice_witness :
  DB.wf sampleDB ∧ DB.get 2 sampleDB = Some allDay ∧
  Todo.completed allDay = false ∧
  let r1 := toggleTodoCompletion jan10_1000 2 true sampleDB in
  let r2 := toggleTodoCompletion jan10_1200 2 false r1.2 in
  (Todo.completed <$> DB.get 2 r1.2) = Some true ∧
  (Todo.completedAt <$> DB.get 2 r1.2) = Some (Some jan10_1000) ∧
  (Todo.completed <$> DB.get 2 r2.2) = Some false ∧
  (Todo.completedAt <$> DB.get 2 r2.2) = Some None.
Proof.
  assert (DB.wf sampleDB) as Hwf.
  { apply wf_withTodos. intros k todo Hk. vm_compute in Hk. discriminate. }
  assert (DB.get 2 sampleDB = Some allDay) as Hget by (vm_compute; reflexivity).
  destruct (toggleTodoCompletion_twice sampleDB 2 allDay jan10_1000 jan10_1200 true
              Hwf Hget) as (_ & H1 & _ & _ & _ & H2 & _).
  split; [exact Hwf|]. split; [exact Hget|]. split; [reflexivity|].
  intros r1 r2. subst r1 r2.
  change (toggleTodoCompletion jan10_1200 2 false)
    with (toggleTodoCompletion jan10_1200 2 (negb true)).
  rewrite H1, H2. repeat split.
Defined.

Lemma absent_task_no_op_witness :
  DB.get 9 sampleDB = None ∧
  toggleTodoCompletion jan10_1000 9 true sampleDB = (None, sampleDB) ∧
  (DB.get 2 sampleDB ≫= Todo.timeTracking) ≫= TimeTracking.started = None ∧
  stopTimeTracking jan10_1000 2 sampleDB = (None, sampleDB).
Proof.
  assert (DB.get 9 sampleDB = None) as Hget by (vm_compute; reflexivity).
  assert ((DB.get 2 sampleDB ≫= Todo.timeTracking) ≫= TimeTracking.started = None)
    as Hstart by (vm_compute; reflexivity).
  destruct (absent_task_no_op sampleDB 9 jan10_1000 "u" "s" "n" true) as [H9 _].
  destruct (absent_task_no_op sampleDB 2 jan10_1000 "u" "s" "n" true) as [_ H2].
  split; [exact Hget|]. split; [exact (proj1 (H9 Hget))|].
  split; [exact Hstart|]. exact (H2 Hstart).
Defined.

Lemma addTodo_then_getTodos_witness :
  DB.wf sampleDB ∧ Todo.id buyMilk = None ∧
  ∃ db', addTodo jan10_1000 buyMilk sampleDB = Ok (6, db') ∧
    Todo.mk (Some 6) "Buy milk" (Some ""%string) false (Some jan10_1000)
      (Some jan10_midnight) None None (Some []) (Some MEDIUM) None (Some []) (Some [])
      None None None None
    ∈ getTodos db'.
Proof.
  assert (DB.wf sampleDB) as Hwf.
  { apply wf_withTodos. intros k todo Hk. vm_compute in Hk. discriminate. }
  split; [exact Hwf|]. split; [reflexivity|].
  exact (addTodo_then_getTodos sampleDB buyMilk jan10_1000 Hwf eq_refl).
Defined.

Lemma deleteCategory_keeps_tasks_witness :
  DB.wf sampleDB ∧
  DB.get 5 sampleDB = Some doneAtNine ∧
  Todo.categoryId doneAtNine = Some "work"%string ∧
  DB.get 5 (deleteCategory "work" sampleDB) = Some (Todo.set_categoryId None doneAtNine) ∧
  (Todo.categoryId <$> DB.get 5 (deleteCategory "work" sampleDB)) = Some None ∧
  DB.get 2 sampleDB = Some allDay ∧
  DB.get 2 (deleteCategory "work" sampleDB) = Some allDay.
Proof.
  assert (DB.wf sampleDB) as Hwf.
  { apply wf_withTodos. intros k todo Hk. vm_compute in Hk. discriminate. }
  assert (DB.get 5 sampleDB = Some doneAtNine) as H5 by (vm_compute; reflexivity).
  assert (DB.get 2 sampleDB = Some allDay) as H2 by (vm_compute; reflexivity).
  destruct (deleteCategory_keeps_tasks sampleDB "work" 5 doneAtNine Hwf H5)
    as (_ & Hin & _).
  destruct (deleteCategory_keeps_tasks sampleDB "work" 2 allDay Hwf H2)
    as (_ & _ & Hout).
  split; [exact Hwf|]. split; [exact H5|]. split; [reflexivity|].
  destruct (Hin eq_refl) as (Hstored & _ & _ & Hunset & _).
  split; [exact Hstored|]. split; [exact Hunset|]. split; [exact H2|].
  apply Hout. discriminate.
Defined.

(** Where the local time is UTC, the date string [updateDailyStats] counts
    against is the UTC date of the call. *)
Lemma todayStr_utc {host : Host} (now : Z) :
  (∀ t isUTC, LocalTZA t isUTC = 0) →
  JSDate.isoDate (JSDate.setHoursZero now) = JSDate.isoDate now.
Proof.
  intros Htz.
  unfold JSDate.isoDate, JSDate.YearFromTime, JSDate.MonthFromTime, JSDate.DateFromTime.
  assert (JSDate.Day (JSDate.setHoursZero now) = JSDate.Day now) as ->; [|done].
  unfold JSDate.setHoursZero, JSDate.UTC, JSDate.LocalTime, JSDate.Day.
  rewrite !Htz, Z.add_0_r, Z.sub_0_r. by apply Z.div_mul.
Qed.

(** ** Lists *)

Lemma filter_bool_filter {A} (f g : A → bool) (l : list A) :
  List.filter f (List.filter g l) = List.filter (λ x, g x && f x) l.
Proof.
  induction l as [|x l IH]; [done|]. simpl.
  destruct (g x); simpl; [|done]. destruct (f x); by rewrite IH.
Qed.

Lemma filter_bool_comm {A} (f g : A → bool) (l : list A) :
  List.filter f (List.filter g l) = List.filter g (List.filter f l).
Proof.
  rewrite !filter_bool_filter. apply List.filter_ext. intros x. apply andb_comm.
Qed.

Lemma filter_bool_length_split {A} (f : A → bool) (l : list A) :
  length l = (length (List.filter f l) + length (List.filter (λ x, negb (f x)) l))%nat.
Proof.
  induction l as [|x l IH]; [done|]. simpl. destruct (f x); simpl; lia.
Qed.

Lemma filter_bool_sublist {A} (f : A → bool) (l : list A) :
  List.filter f l `sublist_of` l.
Proof.
  induction l as [|x l IH]; simpl; [done|].
  destruct (f x); [by apply sublist_skip|by apply sublist_cons].
Qed.

(** ** Calendar days *)

Lemma dayOfEra_bounds (doe : Z) :
  0 ≤ doe < 146097 →
  let yoe := (doe - doe / 1460 + doe / 36524 - doe / 146096) / 365 in
  let doy := doe - (365 * yoe + yoe / 4 - yoe / 100) in
  0 ≤ yoe ≤ 399 ∧ 0 ≤ doy ≤ 365.
Proof.
  intros H yoe doy. subst yoe doy.
  Z.to_euclidean_division_equations; lia.
Qed.

(** A day number is recovered from its year, month and day. *)
Lemma daysFromCivil_civilFromDays (z : Z) :
  daysFromCivil (JSDate.civilFromDays z) = z.
Proof.
  unfold JSDate.civilFromDays.
  set (z' := z + 719468).
  set (era := z' / 146097).
  set (doe := z' - era * 146097).
  assert (0 ≤ doe < 146097) as Hdoe.
  { subst doe era. Z.to_euclidean_division_equations; lia. }
  destruct (dayOfEra_bounds doe Hdoe) as [Hyoe Hdoy].
  set (yoe := (doe - doe / 1460 + doe / 36524 - doe / 146096) / 365) in *.
  set (doy := doe - (365 * yoe + yoe / 4 - yoe / 100)) in *.
  set (mp := (5 * doy + 2) / 153).
  assert (0 ≤ mp ≤ 11) as Hmp.
  { subst mp. Z.to_euclidean_division_equations; lia. }
  unfold daysFromCivil.
  set (m := if mp <? 10 then mp + 3 else mp - 9).
  assert ((if 2 <? m then m - 3 else m + 9) = mp) as ->.
  { subst m. destruct (Z.ltb_spec mp 10);
      [destruct (Z.ltb_spec 2 (mp + 3))|destruct (Z.ltb_spec 2 (mp - 9))]; lia. }
  assert (yoe + era * 400 + (if m <=? 2 then 1 else 0) - (if m <=? 2 then 1 else 0)
          = yoe + era * 400) as -> by lia.
  assert ((yoe + era * 400) / 400 = era) as ->.
  { symmetry. apply (Z.div_unique _ _ _ yoe); lia. }
  replace (yoe + era * 400 - era * 400) with yoe by lia.
  subst doy doe z'. lia.
Qed.

Lemma civilFromDays_inj (z1 z2 : Z) :
  JSDate.civilFromDays z1 = JSDate.civilFromDays z2 → z1 = z2.
Proof.
  intros H. rewrite <- (daysFromCivil_civilFromDays z1), <- (daysFromCivil_civilFromDays z2).
  by rewrite H.
Qed.

Section DayFacts.
Context {host : Host}.
Import JSDate.

(** The start of a local day lies on that day. *)
Lemma localDay_setHoursZero (t : Z) : localDay (setHoursZero t) = localDay t.
Proof. apply LocalTZA_startOfDay. Qed.

Lemma isSameDay_localDay (a b : Z) :
  isSameDay a b = true ↔ localDay a = localDay b.
Proof.
  unfold isSameDay, startOfDay. rewrite Z.eqb_eq. split.
  - intros H. by rewrite <- (localDay_setHoursZero a), <- (localDay_setHoursZero b), H.
  - unfold setHoursZero, localDay. by intros ->.
Qed.

Lemma isSameDayYMD_localDay (a b : Z) :
  isSameDayYMD a b = true ↔ localDay a = localDay b.
Proof.
  unfold isSameDayYMD, getFullYear, getMonth, getDate, YearFromTime, MonthFromTime,
    DateFromTime, localDay.
  rewrite !andb_true_iff, !Z.eqb_eq. split.
  - intros [[Hy Hm] Hd]. apply civilFromDays_inj.
    destruct (civilFromDays (Day (LocalTime a))) as [[y1 m1] d1],
             (civilFromDays (Day (LocalTime b))) as [[y2 m2] d2].
    simpl in *. f_equal; [f_equal|]; lia.
  - by intros ->.
Qed.

(** The two "same day" tests of the code agree: the year, month and day of
    the month of two dates, in local time, are equal (the test of
    [filterTodos] and of [getTodosByDate]) exactly when the two dates have
    the same local start of day (date-fns's [isSameDay], the test of the
    calendar). *)
Lemma isSameDayYMD_isSameDay (a b : Z) :
  isSameDayYMD a b = isSameDay a b.
Proof.
  apply eq_true_iff_eq. by rewrite isSameDayYMD_localDay, isSameDay_localDay.
Qed.

End DayFacts.

(** The hosts of the examples have no clock changes. *)
Lemma fixedOffsetHost_FixedOffset (offset : Z) : FixedOffset (fixedOffsetHost offset).
Proof. by exists offset. Qed.

(** *** Hosts without clock changes

    Where the offset of local time never changes, a local day lasts 24
    hours and starts at local midnight. What follows is proved of such hosts
    only: where the clocks change, the day after a start of day is not 24
    hours later, and where they skip midnight the interval of
    [getTodosForDay] ends at 01:00 of the next day. *)

Section FixedOffsetFacts.
Context {host : Host}.
Import JSDate.

Lemma addDays_fixed (Hfixed : FixedOffset host) (d amount : Z) :
  addDays d amount = d + amount * msPerDay.
Proof.
  destruct Hfixed as [offset Hoffset].
  unfold addDays, setDateBy, UTC, LocalTime, Day. rewrite !Hoffset.
  destruct (Z.eqb_spec amount 0) as [->|_]; [lia|].
  unfold msPerDay. Z.to_euclidean_division_equations; lia.
Qed.

Lemma setDateBy_fixed (Hfixed : FixedOffset host) (d amount : Z) :
  setDateBy d amount = d + amount * msPerDay.
Proof.
  destruct Hfixed as [offset Hoffset].
  unfold setDateBy, UTC, LocalTime, Day. rewrite !Hoffset.
  unfold msPerDay. Z.to_euclidean_division_equations; lia.
Qed.

(** Off midnight, the closed interval from the start of a day to the start
    of the next holds the dates of that day only: its upper end is a
    midnight. *)
Lemma isWithinInterval_day (Hfixed : FixedOffset host) (due day : Z) :
  negb (getHours due =? 0) || negb (getMinutes due =? 0) = true →
  isWithinInterval due (startOfDay day) (addDays (startOfDay day) 1) = isSameDay due day.
Proof.
  intros Hoff. apply eq_true_iff_eq. rewrite isSameDay_localDay, (addDays_fixed Hfixed).
  destruct Hfixed as [offset Hoffset].
  unfold isWithinInterval, startOfDay, setHoursZero, UTC, localDay.
  rewrite andb_true_iff, !Z.leb_le.
  apply orb_true_iff in Hoff.
  rewrite !negb_true_iff, !Z.eqb_neq in Hoff.
  unfold getHours, getMinutes, HourFromTime, MinFromTime in Hoff.
  unfold Day, LocalTime in *. rewrite !Hoffset in *.
  unfold msPerDay, msPerHour, msPerMinute in *.
  Z.to_euclidean_division_equations; lia.
Qed.

Lemma getTodosForDay_filter (Hfixed : FixedOffset host) (todos : list Todo.t) (day : Z) :
  getTodosForDay todos day =
  List.filter
    (λ todo,
       match Todo.dueDate todo with
       | Some dueDate => isSameDay dueDate day
       | None => false
       end)
    todos.
Proof.
  unfold getTodosForDay. apply List.filter_ext. intros todo.
  destruct (Todo.dueDate todo) as [due|]; [|done].
  destruct (negb (getHours due =? 0) || negb (getMinutes due =? 0)) eqn:Hoff; [|done].
  by apply (isWithinInterval_day Hfixed).
Qed.

(** X1. On a host without clock changes, the list of a day cell is the tasks
    due on that local day, at midnight or not: the task due at the midnight
    that ends the day, which the closed interval of the source reaches, is
    not in it. *)
Theorem getTodosForDay_same_day (Hfixed : FixedOffset host)
    (todos : list Todo.t) (day : Z) (t : Todo.t) :
  t ∈ getTodosForDay todos day ↔
    t ∈ todos ∧ ∃ due, Todo.dueDate t = Some due ∧ localDay due = localDay day.
Proof.
  rewrite (getTodosForDay_filter Hfixed), elem_of_filter_bool.
  destruct (Todo.dueDate t) as [due|].
  - rewrite isSameDay_localDay. split.
    + intros [? ?]. split; [done|]. by exists due.
    + intros [? (due' & [= <-] & ?)]. done.
  - split; [by intros [_ ?]|]. by intros [_ (? & [=] & _)].
Qed.

(** X2. On a host without clock changes, the by-date query of the store
    lists what the day cell of the calendar lists for the stored tasks:
    being due on the same year, month and day of the month is being due
    between the start of the day and the start of the next. *)
Theorem getTodosByDate_getTodosForDay (Hfixed : FixedOffset host) (db : DB.t) (date : Z) :
  getTodosByDate date db = getTodosForDay (DB.getAll db) date.
Proof.
  rewrite (getTodosForDay_filter Hfixed).
  unfold getTodosByDate. apply List.filter_ext. intros todo.
  destruct (Todo.dueDate todo) as [due|]; [|done].
  apply (isSameDayYMD_isSameDay due date).
Qed.

(** X3. On a host without clock changes, the by-date query is the range
    query from the start of the local day to 24 hours later, less a
    millisecond. *)
Theorem getTodosByDate_range (Hfixed : FixedOffset host) (db : DB.t) (date : Z) :
  getTodosByDate date db =
  getTodosByDateRange (startOfDay date) (startOfDay date + msPerDay - 1) db.
Proof.
  unfold getTodosByDate, getTodosByDateRange. apply List.filter_ext. intros todo.
  destruct (Todo.dueDate todo) as [due|]; [|done].
  change (isSameDayYMD due date = (startOfDay date <=? due) && (due <=? startOfDay date + msPerDay - 1)).
  apply eq_true_iff_eq. rewrite isSameDayYMD_localDay, andb_true_iff, !Z.leb_le.
  destruct Hfixed as [offset Hoffset].
  unfold startOfDay, setHoursZero, UTC, localDay, Day, LocalTime. rewrite !Hoffset.
  unfold msPerDay.
  Z.to_euclidean_division_equations; lia.
Qed.

End FixedOffsetFacts.

(** Where the clocks change, none of this holds. In Cairo the day cell of
    25 April 2024 lists the task due at 01:00 of the 26th, which the cell of
    the 26th lists too and which the by-date query of the 25th does not
    return; the day view of the 25th shows it under no heading. The 26th
    lasts 23 hours, so the range of 24 hours from its start holds the task
    due at 00:30 of the 27th. And the statistics record written at 23:30 of
    the 25th is not loaded 144 hours later, seven days back from then being
    00:30 of the 25th. *)
Lemma clock_change_in_cairo :
  @JSDate.getHours cairo apr26_0100 = 1 ∧
  @localDay cairo apr26_0100 = @localDay cairo apr25_noon + 1 ∧
  @getTodosForDay cairo [flight] apr25_noon = [flight] ∧
  @getTodosForDay cairo [flight] apr26_0100 = [flight] ∧
  @getTodosByDate cairo apr25_noon (withTodos [flight] DB.init) = [] ∧
  @allDayTodos cairo [flight] apr25_noon = [] ∧
  sum_list ((λ slot, length (@getTodosForTimeSlot cairo [flight] apr25_noon slot.1 slot.2))
              <$> TIME_SLOTS) = 0%nat ∧
  @getTodosByDate cairo apr26_0100 (withTodos [nightBus] DB.init) = [] ∧
  getTodosByDateRange (@JSDate.startOfDay cairo apr26_0100)
    (@JSDate.startOfDay cairo apr26_0100 + JSDate.msPerDay - 1)
    (withTodos [nightBus] DB.init) = [nightBus] ∧
  TodoState.stats
    (@loadData cairo (apr25_2330 + 6 * JSDate.msPerDay) (apr25_2330 + 6 * JSDate.msPerDay)
       (@updateDailyStats cairo apr25_2330 DB.init)
       (TodoState.initial (apr25_2330 + 6 * JSDate.msPerDay))).2 = [].
Proof. split_and!; vm_compute; reflexivity. Qed.

(** ** More on the filter *)

Section FilterMore.
Context {host : Host}.

(** Strip the branches the two sides of an equation between callbacks
    share. *)
Ltac peel :=
  repeat match goal with
         | |- (if ?c then false else _) = (if ?c then false else _) && _ =>
             destruct c; [done|]
         | |- (if ?c then false else _) = _ && (if ?c then false else _) =>
             destruct c; [by rewrite andb_false_r|]
         end.

(** With every other criterion empty, the callback is the date test. *)
Lemma keeps_date_only date q todo :
  truthy (trim q) = false →
  keeps date [] [] None q CompletionFilter.all todo = datePass date todo.
Proof.
  intros Hq. unfold keeps, datePass. rewrite Hq. simpl.
  destruct date as [sel|]; [|done].
  destruct (Todo.dueDate todo) as [due|]; [|done].
  by destruct (isSameDayYMD due sel).
Qed.

Lemma keeps_completed date S cats prio q todo :
  keeps date S cats prio q CompletionFilter.completed todo =
  keeps date S cats prio q CompletionFilter.all todo && Todo.completed todo.
Proof. unfold keeps. peel. by destruct (Todo.completed todo). Qed.

Lemma keeps_active date S cats prio q todo :
  keeps date S cats prio q CompletionFilter.active todo =
  keeps date S cats prio q CompletionFilter.all todo && negb (Todo.completed todo).
Proof. unfold keeps. peel. by destruct (Todo.completed todo). Qed.

(** The filter keeps the order of the tasks and adds none. *)
Lemma filterTodos_sublist (todos : list Todo.t) date S cats prio q comp :
  filterTodos todos date S cats prio q comp `sublist_of` todos.
Proof. apply filter_bool_sublist. Qed.

(** X4. The completion filter splits the unfiltered result in two: "completed"
    keeps its completed tasks, "active" the others, each in their order, and
    no task is in both or in neither. *)
Theorem filterTodos_completion_split (todos : list Todo.t) date S cats prio q :
  let result := filterTodos todos date S cats prio q in
  result CompletionFilter.completed = List.filter Todo.completed (result CompletionFilter.all) ∧
  result CompletionFilter.active =
    List.filter (λ todo, negb (Todo.completed todo)) (result CompletionFilter.all) ∧
  length (result CompletionFilter.all) =
    (length (result CompletionFilter.completed) + length (result CompletionFilter.active))%nat.
Proof.
  intros result.
  assert (result CompletionFilter.completed =
          List.filter Todo.completed (result CompletionFilter.all)) as Hc.
  { unfold result, filterTodos. rewrite filter_bool_filter.
    apply List.filter_ext. intros todo. apply keeps_completed. }
  assert (result CompletionFilter.active =
          List.filter (λ todo, negb (Todo.completed todo)) (result CompletionFilter.all)) as Ha.
  { unfold result, filterTodos. rewrite filter_bool_filter.
    apply List.filter_ext. intros todo. apply keeps_active. }
  split; [done|]. split; [done|].
  rewrite Hc, Ha. apply filter_bool_length_split.
Qed.

Lemma keeps_categories date S cats prio q comp todo :
  keeps date S cats prio q comp todo =
  negb (nonEmpty cats &&
        match Todo.categoryId todo with
        | None => true
        | Some categoryId =>
            negb (truthy categoryId) || negb (bool_decide (categoryId ∈ cats))
        end)
  && keeps date S [] prio q comp todo.
Proof. unfold keeps. peel. simpl (nonEmpty []). by destruct (nonEmpty cats && _). Qed.

Lemma keeps_priority date S cats prio q comp todo :
  keeps date S cats prio q comp todo =
  match prio with
  | Some p => bool_decide (Todo.priority todo = Some p)
  | None => true
  end
  && keeps date S cats None q comp todo.
Proof.
  unfold keeps. peel. destruct prio as [p|]; [|done].
  by destruct (bool_decide (Todo.priority todo = Some p)).
Qed.

Lemma truthy_ne (s : string) : truthy s = true ↔ s ≠ ""%string.
Proof.
  unfold truthy. rewrite negb_true_iff. split.
  - intros H ->. by rewrite String.eqb_refl in H.
  - intros H. by apply String.eqb_neq.
Qed.

(** X5. With categories selected, a task passes exactly when it has a category,
    other than the empty string, among the selected ones, and passes the
    filter with no category selected: a task without category is hidden. *)
Theorem filterTodos_categories (todos : list Todo.t) date S (cats : list string)
    prio q comp (t : Todo.t) :
  t ∈ filterTodos todos date S cats prio q comp ↔
    (cats = [] ∨
     ∃ c, Todo.categoryId t = Some c ∧ c ≠ ""%string ∧ c ∈ cats) ∧
    t ∈ filterTodos todos date S [] prio q comp.
Proof.
  unfold filterTodos. rewrite !elem_of_filter_bool, keeps_categories, andb_true_iff.
  assert (negb (nonEmpty cats &&
                match Todo.categoryId t with
                | None => true
                | Some categoryId =>
                    negb (truthy categoryId) || negb (bool_decide (categoryId ∈ cats))
                end) = true ↔
          cats = [] ∨ ∃ c, Todo.categoryId t = Some c ∧ c ≠ ""%string ∧ c ∈ cats) as ->;
    [|tauto].
  destruct cats as [|c0 cats]; simpl; [by split; [left|]|].
  destruct (Todo.categoryId t) as [c|]; simpl.
  - rewrite negb_orb, !negb_involutive, andb_true_iff, truthy_ne, bool_decide_eq_true.
    split.
    + intros [? ?]. right. by exists c.
    + intros [[=]|(c' & [= <-] & ? & ?)]. done.
  - split; [done|]. by intros [[=]|(c' & [=] & _)].
Qed.

(** With a priority selected, a task passes exactly when it has this
    priority and passes the filter with no priority selected. *)
Lemma filterTodos_priority (todos : list Todo.t) date S cats (p : Priority) q comp
    (t : Todo.t) :
  t ∈ filterTodos todos date S cats (Some p) q comp ↔
    Todo.priority t = Some p ∧ t ∈ filterTodos todos date S cats None q comp.
Proof.
  unfold filterTodos. rewrite !elem_of_filter_bool, keeps_priority, andb_true_iff.
  rewrite bool_decide_eq_true. tauto.
Qed.

(** X6. With no date, tag, category or priority selected, a search text that is
    blank once trimmed and the completion filter "all", the filter returns
    its input. *)
Theorem filterTodos_no_criteria (todos : list Todo.t) (q : string) :
  truthy (trim q) = false →
  filterTodos todos None [] [] None q CompletionFilter.all = todos.
Proof.
  intros Hq. unfold filterTodos.
  induction todos as [|todo todos IH]; [done|]. simpl.
  rewrite (keeps_date_only None q todo Hq). simpl. by rewrite IH.
Qed.

End FilterMore.

Lemma filterTodos_no_criteria_witness :
  truthy (@trim seoul "   ") = false ∧
  @filterTodos seoul [undated; atNine] None [] [] None "   " CompletionFilter.all
  = [undated; atNine].
Proof.
  assert (truthy (@trim seoul "   ") = false) as Hq by (vm_compute; reflexivity).
  split; [exact Hq|].
  exact (@filterTodos_no_criteria seoul [undated; atNine] "   " Hq).
Defined.

Section FilterStages.
Context {host : Host}.

Lemma keeps_completion date S cats prio q comp todo :
  keeps date S cats prio q comp todo =
  keeps date S cats prio q CompletionFilter.all todo &&
  match comp with
  | CompletionFilter.completed => Todo.completed todo
  | CompletionFilter.active => negb (Todo.completed todo)
  | CompletionFilter.all => true
  end.
Proof.
  destruct comp; [by rewrite andb_true_r|apply keeps_completed|apply keeps_active].
Qed.

(** X7. The six criteria act one by one: filtering by all of them at once is
    filtering by the date, then by the tags, the categories, the priority,
    the search text and the completion state, each time with the other
    criteria empty. *)
Theorem filterTodos_stages (todos : list Todo.t) date S cats prio q comp :
  truthy (trim "") = false →
  filterTodos todos date S cats prio q comp =
  filterTodos
    (filterTodos
       (filterTodos
          (filterTodos
             (filterTodos
                (filterTodos todos date [] [] None "" CompletionFilter.all)
                None S [] None "" CompletionFilter.all)
             None [] cats None "" CompletionFilter.all)
          None [] [] prio "" CompletionFilter.all)
       None [] [] None q CompletionFilter.all)
    None [] [] None "" comp.
Proof.
  intros He. unfold filterTodos. rewrite !filter_bool_filter.
  apply List.filter_ext. intros t.
  assert (∀ d, keeps d [] [] None "" CompletionFilter.all t = datePass d t) as Hd
    by (intros d; by apply keeps_date_only).
  rewrite (keeps_completion date S cats prio q comp).
  rewrite (keeps_completion None [] [] None "" comp), (Hd None), (Hd date).
  rewrite (keeps_date date S cats prio q), (keeps_tags None S cats prio q).
  rewrite (keeps_categories None [] cats prio q), (keeps_priority None [] [] prio q).
  rewrite (keeps_tags None S [] None ""), (keeps_categories None [] cats None "").
  rewrite (keeps_priority None [] [] prio ""), (Hd None).
  change (datePass None t) with true.
  rewrite !andb_true_r, !andb_true_l. by rewrite !andb_assoc.
Qed.

(** X8. For a search text that is not blank, the search of the list view finds
    the tasks the store's [searchTodos] finds and, besides, the tasks one of
    whose tags contains the text: [searchTodos] does not look at tags. *)
Theorem filterTodos_search_searchTodos (db : DB.t) (q : string) (t : Todo.t) :
  truthy (trim q) = true →
  t ∈ filterTodos (DB.getAll db) None [] [] None q CompletionFilter.all ↔
    t ∈ searchTodos q db ∨
    (t ∈ DB.getAll db ∧
     ∃ tags tag, Todo.tags t = Some tags ∧ tag ∈ tags ∧
                 includes (toLowerCase tag) (toLowerCase q) = true).
Proof.
  intros Hq. unfold filterTodos, searchTodos. rewrite !elem_of_filter_bool.
  unfold keeps. rewrite Hq. simpl.
  set (textMatch := includes (toLowerCase (Todo.text t)) (toLowerCase q)).
  set (descMatch := match Todo.description t with Some d => _ | None => false end).
  set (notesMatch := match Todo.notes t with Some n => _ | None => false end).
  set (tagsMatch := match Todo.tags t with Some tg => _ | None => false end).
  assert (tagsMatch = true ↔
          ∃ tags tag, Todo.tags t = Some tags ∧ tag ∈ tags ∧
                      includes (toLowerCase tag) (toLowerCase q) = true) as Htags.
  { unfold tagsMatch. destruct (Todo.tags t) as [tags|].
    - rewrite existsb_exists. split.
      + intros (tag & Hin & Hinc). exists tags, tag. by rewrite list_elem_of_In.
      + intros (tags' & tag & [= <-] & Hin & Hinc). exists tag.
        by rewrite <- list_elem_of_In.
    - split; [done|]. by intros (? & ? & [=] & _). }
  rewrite <- Htags.
  destruct textMatch, descMatch, tagsMatch, notesMatch; simpl; intuition congruence.
Qed.

End FilterStages.

Lemma filterTodos_stages_witness :
  truthy (@trim seoul "") = false ∧
  @filterTodos seoul [undated; allDay; atNine] (Some jan10_1000) [] [] (Some MEDIUM) "pay"
    CompletionFilter.active = [allDay].
Proof.
  assert (truthy (@trim seoul "") = false) as He by reflexivity.
  split; [exact He|].
  rewrite (@filterTodos_stages seoul [undated; allDay; atNine] (Some jan10_1000) [] []
             (Some MEDIUM) "pay" CompletionFilter.active He).
  vm_compute. reflexivity.
Defined.

Lemma filterTodos_search_searchTodos_witness :
  truthy (@trim seoul "HOME") = true ∧
  doneAtNine ∈ @filterTodos seoul (DB.getAll sampleDB) None [] [] None "HOME"
                 CompletionFilter.all ∧
  @searchTodos seoul "HOME" sampleDB = [].
Proof.
  assert (truthy (@trim seoul "HOME") = true) as Hq by (vm_compute; reflexivity).
  split; [exact Hq|]. split; [|vm_compute; reflexivity].
  apply (@filterTodos_search_searchTodos seoul sampleDB "HOME" doneAtNine Hq).
  right. split.
  - apply elem_of_getAll. exists 5. vm_compute. reflexivity.
  - exists ["home"%string], "home"%string.
    split; [reflexivity|]. split; [left|vm_compute; reflexivity].
Defined.

(** ** The filter fields of the application state *)

(** Toggling a value in a selection list: removed if present, appended if
    not. *)
Lemma toggle_list_spec (x : string) (l : list string) :
  let l' := if bool_decide (x ∈ l)
            then List.filter (λ t, negb (String.eqb t x)) l else l ++ [x] in
  (x ∈ l' ↔ x ∉ l) ∧
  (∀ y, y ≠ x → y ∈ l' ↔ y ∈ l) ∧
  (NoDup l → NoDup l').
Proof.
  simpl. case_bool_decide as Hin.
  - split; [|split].
    + rewrite elem_of_filter_bool, String.eqb_refl. simpl. split; [by intros [_ ?]|done].
    + intros y Hy. rewrite elem_of_filter_bool, negb_true_iff, String.eqb_neq. tauto.
    + intros Hnd. induction Hnd as [|z l Hz Hnd IH]; simpl; [constructor|].
      assert (NoDup (List.filter (λ t, negb (t =? x)%string) l)) as IH'.
      { destruct (decide (x ∈ l)); [by apply IH|].
        clear -Hnd. induction Hnd as [|w l Hw Hnd IH]; simpl; [constructor|].
        destruct (negb _); [|done]. constructor; [|done].
        rewrite elem_of_filter_bool. tauto. }
      destruct (negb _); [|done]. constructor; [|done].
      rewrite elem_of_filter_bool. tauto.
  - split; [|split].
    + rewrite elem_of_app, list_elem_of_singleton. tauto.
    + intros y Hy. rewrite elem_of_app, list_elem_of_singleton. tauto.
    + intros Hnd. apply NoDup_app. split; [done|]. split; [|apply NoDup_singleton].
      intros y Hy ->%list_elem_of_singleton. done.
Qed.

Lemma filter_ne_notin (x : string) (l : list string) :
  x ∉ l → List.filter (λ t, negb (String.eqb t x)) l = l.
Proof.
  induction l as [|y l IH]; [done|]. intros Hx. simpl.
  apply not_elem_of_cons in Hx as [Hxy Hx].
  assert ((y =? x)%string = false) as -> by (apply String.eqb_neq; congruence).
  simpl. by rewrite IH.
Qed.

Lemma toggle_list_twice (x : string) (l : list string) :
  let toggle := λ l, if bool_decide (x ∈ l)
                     then List.filter (λ t, negb (String.eqb t x)) l else l ++ [x] in
  toggle (toggle l) =
  if bool_decide (x ∈ l) then List.filter (λ t, negb (String.eqb t x)) l ++ [x] else l.
Proof.
  simpl. destruct (toggle_list_spec x l) as (Hx & _ & _). simpl in Hx.
  case_bool_decide as Hin.
  - rewrite bool_decide_false; [done|]. intros Hf. by apply Hx in Hf.
  - rewrite bool_decide_true by (by apply Hx).
    rewrite List.filter_app. simpl. rewrite String.eqb_refl. simpl.
    by rewrite filter_ne_notin, app_nil_r.
Qed.

(** [toggleTag] and [toggleCategory] flip the membership of the value they
    are given in the selection, leave the membership of every other value as
    it is, and keep a selection without repetition so. *)
Lemma toggle_selection (x : string) (s : TodoState.t) :
  let tags := TodoState.selectedTags s in
  let tags' := TodoState.selectedTags (TodoState.toggleTag x s) in
  let cats := TodoState.selectedCategories s in
  let cats' := TodoState.selectedCategories (TodoState.toggleCategory x s) in
  ((x ∈ tags' ↔ x ∉ tags) ∧ (∀ y, y ≠ x → y ∈ tags' ↔ y ∈ tags) ∧
   (NoDup tags → NoDup tags')) ∧
  ((x ∈ cats' ↔ x ∉ cats) ∧ (∀ y, y ≠ x → y ∈ cats' ↔ y ∈ cats) ∧
   (NoDup cats → NoDup cats')).
Proof.
  split.
  - pose proof (toggle_list_spec x (TodoState.selectedTags s)) as H.
    unfold TodoState.toggleTag. simpl in *.
    by destruct (bool_decide (x ∈ TodoState.selectedTags s)).
  - pose proof (toggle_list_spec x (TodoState.selectedCategories s)) as H.
    unfold TodoState.toggleCategory. simpl in *.
    by destruct (bool_decide (x ∈ TodoState.selectedCategories s)).
Qed.

(** X9. Toggling twice: a value that was not selected leaves the state as it
    was; a value that was selected ends up selected again, at the end of the
    selection. *)
Theorem toggle_selection_twice (x : string) (s : TodoState.t) :
  (x ∉ TodoState.selectedTags s →
     TodoState.toggleTag x (TodoState.toggleTag x s) = s) ∧
  (x ∈ TodoState.selectedTags s →
     TodoState.selectedTags (TodoState.toggleTag x (TodoState.toggleTag x s)) =
     List.filter (λ t, negb (String.eqb t x)) (TodoState.selectedTags s) ++ [x]) ∧
  (x ∉ TodoState.selectedCategories s →
     TodoState.toggleCategory x (TodoState.toggleCategory x s) = s) ∧
  (x ∈ TodoState.selectedCategories s →
     TodoState.selectedCategories (TodoState.toggleCategory x (TodoState.toggleCategory x s)) =
     List.filter (λ t, negb (String.eqb t x)) (TodoState.selectedCategories s) ++ [x]).
Proof.
  pose proof (toggle_list_twice x (TodoState.selectedTags s)) as Ht.
  pose proof (toggle_list_twice x (TodoState.selectedCategories s)) as Hc.
  simpl in Ht, Hc. destruct s as [?????? tags cats ?????????]. simpl in *.
  unfold TodoState.toggleTag, TodoState.toggleCategory. simpl.
  split_and!; intros Hx.
  - assert (bool_decide (x ∈ tags) = false) as Hb by (by apply bool_decide_eq_false).
    rewrite Hb in Ht |- *. simpl.
    destruct (bool_decide (x ∈ tags ++ [x])); unfold TodoState.setSelectedTags;
      simpl; by rewrite Ht.
  - assert (bool_decide (x ∈ tags) = true) as Hb by (by apply bool_decide_eq_true).
    rewrite Hb in Ht |- *. simpl.
    by destruct (bool_decide (x ∈ List.filter _ tags)).
  - assert (bool_decide (x ∈ cats) = false) as Hb by (by apply bool_decide_eq_false).
    rewrite Hb in Hc |- *. simpl.
    destruct (bool_decide (x ∈ cats ++ [x])); unfold TodoState.setSelectedCategories;
      simpl; by rewrite Hc.
  - assert (bool_decide (x ∈ cats) = true) as Hb by (by apply bool_decide_eq_true).
    rewrite Hb in Hc |- *. simpl.
    by destruct (bool_decide (x ∈ List.filter _ cats)).
Qed.

Section StateFacts.
Context {host : Host}.

Lemma elem_of_filterTodos_tags (todos : list Todo.t) date S cats prio q comp t :
  t ∈ filterTodos todos date S cats prio q comp ↔
    S ⊆ default [] (Todo.tags t) ∧ t ∈ filterTodos todos date [] cats prio q comp.
Proof.
  unfold filterTodos. rewrite !elem_of_filter_bool, keeps_tags.
  rewrite andb_true_iff, tagsPass_subseteq. tauto.
Qed.

(** X10. Selecting one more tag narrows the list shown to the tasks that carry
    it; unselecting a tag removes no task from the list shown. *)
Theorem toggleTag_getFilteredTodos (x : string) (s : TodoState.t) (t : Todo.t) :
  (x ∉ TodoState.selectedTags s →
     (t ∈ getFilteredTodos (TodoState.toggleTag x s) ↔
      t ∈ getFilteredTodos s ∧ x ∈ default [] (Todo.tags t))) ∧
  (x ∈ TodoState.selectedTags s →
     t ∈ getFilteredTodos s → t ∈ getFilteredTodos (TodoState.toggleTag x s)).
Proof.
  unfold getFilteredTodos, TodoState.toggleTag. split; intros Hx.
  - rewrite bool_decide_false by done. simpl.
    rewrite (elem_of_filterTodos_tags _ _ (_ ++ [x])).
    rewrite (elem_of_filterTodos_tags _ _ (TodoState.selectedTags s)).
    assert (TodoState.selectedTags s ++ [x] ⊆ default [] (Todo.tags t) ↔
            TodoState.selectedTags s ⊆ default [] (Todo.tags t) ∧
            x ∈ default [] (Todo.tags t)) as ->; [|tauto].
    split.
    + intros H. split.
      * intros y Hy. apply H, elem_of_app. by left.
      * apply H, elem_of_app. right. left.
    + intros [H Hin] y [Hy| ->%list_elem_of_singleton]%elem_of_app; [by apply H|done].
  - rewrite bool_decide_true by done. simpl.
    rewrite (elem_of_filterTodos_tags _ _ (List.filter _ _)).
    rewrite (elem_of_filterTodos_tags _ _ (TodoState.selectedTags s)).
    intros [H Hin]. split; [|done].
    intros y [Hy _]%elem_of_filter_bool. by apply H.
Qed.

(** X11. [clearFilters] does not clear the date: what is shown afterwards is the
    loaded tasks that have no due date or are due on the selected day, and
    a task due on another day stays hidden. *)
Theorem clearFilters_keeps_date (s : TodoState.t) (t : Todo.t) :
  truthy (trim "") = false →
  TodoState.selectedDate (TodoState.clearFilters s) = TodoState.selectedDate s ∧
  (t ∈ getFilteredTodos (TodoState.clearFilters s) ↔
     t ∈ TodoState.todos s ∧
     ∀ due, Todo.dueDate t = Some due →
            JSDate.isSameDay due (TodoState.selectedDate s) = true).
Proof.
  intros He. split; [done|].
  unfold getFilteredTodos, filterTodos. simpl.
  rewrite elem_of_filter_bool, (keeps_date_only _ _ _ He). unfold datePass.
  destruct (Todo.dueDate t) as [due|].
  - rewrite isSameDayYMD_isSameDay. split.
    + intros [? ?]. split; [done|]. by intros ? [= <-].
    + intros [? H]. split; [done|]. by apply H.
  - split; [intros [? _]; split; [done|]; by intros ? [=]|]. by intros [? _].
Qed.

End StateFacts.

(** ** The task store: order, deletion, upsert *)

Lemma elem_of_getAllKeysOf {K V} `{Countable K} (le : relation K)
    `{∀ x y, Decision (le x y)} (m : gmap K V) (k : K) :
  k ∈ getAllKeysOf le m ↔ is_Some (m !! k).
Proof.
  unfold getAllKeysOf. rewrite list_elem_of_fmap. split.
  - intros ([k' v] & -> & Hin).
    rewrite merge_sort_Permutation in Hin. apply elem_of_map_to_list in Hin. by eexists.
  - intros [v Hv]. exists (k, v). split; [done|].
    rewrite merge_sort_Permutation. by apply elem_of_map_to_list.
Qed.

Lemma getAllOf_empty {K V} `{Countable K} (le : relation K)
    `{∀ x y, Decision (le x y)} :
  getAllOf le (∅ : gmap K V) = [].
Proof. unfold getAllOf. by rewrite map_to_list_empty. Qed.

Lemma StronglySorted_fst_le (l : list (Z * Todo.t)) :
  StronglySorted (λ a b, a.1 ≤ b.1) l → NoDup l.*1 → StronglySorted Z.lt l.*1.
Proof.
  induction 1 as [|[k t] l Hl IH Hall]; simpl; [constructor|].
  intros [Hk Hnd]%NoDup_cons. constructor; [by apply IH|].
  apply Forall_fmap, Forall_forall. intros [k' t'] Hin. simpl.
  rewrite Forall_forall in Hall. specialize (Hall _ Hin). simpl in Hall.
  assert (k ≠ k'); [|lia].
  intros ->. apply Hk. apply list_elem_of_fmap. by exists (k', t').
Qed.

(** X12. [getTodos] lists each stored task once, in ascending order of [id]. *)
Theorem getTodos_ascending (db : DB.t) :
  DB.wf db →
  Todo.id <$> getTodos db = Some <$> getAllKeysOf Z.le (DB.todos db) ∧
  StronglySorted Z.lt (getAllKeysOf Z.le (DB.todos db)) ∧
  length (getTodos db) = size (DB.todos db).
Proof.
  intros Hwf. unfold getTodos, DB.getAll, getAllOf, getAllKeysOf.
  set (R := λ a b : Z * Todo.t, a.1 ≤ b.1).
  set (l := merge_sort R (map_to_list (DB.todos db))).
  assert (l ≡ₚ map_to_list (DB.todos db)) as Hperm by apply merge_sort_Permutation.
  split; [|split].
  - rewrite <- !list_fmap_compose. apply list_fmap_ext.
    intros i [k t] Hi. simpl.
    assert ((k, t) ∈ l) as Hin by (by eapply list_elem_of_lookup_2).
    rewrite Hperm in Hin. apply elem_of_map_to_list in Hin.
    by destruct (Hwf _ _ Hin).
  - apply StronglySorted_fst_le.
    + assert (Transitive R) by (intros ???; unfold R; lia).
      assert (Total R) by (intros ??; unfold R; lia).
      apply StronglySorted_merge_sort; apply _.
    + rewrite Hperm. apply NoDup_fst_map_to_list.
  - rewrite !length_fmap, Hperm. apply length_map_to_list.
Qed.

Lemma todos_foldl_deleteTodo (keys : list Z) (db : DB.t) (k : Z) :
  DB.get k (foldl (λ db key, deleteTodo key db) db keys) =
  if bool_decide (k ∈ keys) then None else DB.get k db.
Proof.
  revert db. induction keys as [|key keys IH]; intros db; simpl; [done|].
  rewrite IH. unfold deleteTodo, DB.get. simpl.
  case_bool_decide as Hin.
  - by rewrite bool_decide_true by (by right).
  - destruct (decide (k = key)) as [->|Hne].
    + rewrite bool_decide_true by left. apply lookup_delete_eq.
    + rewrite bool_decide_false by (by intros [?|?]%elem_of_cons).
      by apply lookup_delete_ne.
Qed.

Lemma frame_foldl_deleteTodo (keys : list Z) (db : DB.t) :
  let db' := foldl (λ db key, deleteTodo key db) db keys in
  DB.todoKey db' = DB.todoKey db ∧ DB.categories db' = DB.categories db ∧
  DB.settings db' = DB.settings db ∧ DB.templates db' = DB.templates db ∧
  DB.stats db' = DB.stats db.
Proof.
  revert db. induction keys as [|key keys IH]; intros db; simpl; [done|].
  destruct (IH (deleteTodo key db)) as (-> & -> & -> & -> & ->). done.
Qed.

(** X13. Deleting does not give identifiers back. [deleteTodo] removes the task
    of the key and nothing else; [deleteAllTodos] reports success and leaves
    no task, the other stores being as they were; after either, the next
    task added gets the identifier it would have got before, beyond every
    identifier in use so far. *)
Theorem delete_keeps_identifiers (db : DB.t) (k now : Z) (x : Todo.t) :
  DB.wf db →
  Todo.id x = None →
  (DB.get k (deleteTodo k db) = None ∧
   (∀ k', k' ≠ k → DB.get k' (deleteTodo k db) = DB.get k' db) ∧
   ∃ db', addTodo now x (deleteTodo k db) = Ok (DB.todoKey db, db')) ∧
  (let r := deleteAllTodos db in
   r.1 = true ∧ getTodos r.2 = [] ∧
   DB.categories r.2 = DB.categories db ∧ DB.settings r.2 = DB.settings db ∧
   DB.templates r.2 = DB.templates db ∧ DB.stats r.2 = DB.stats db ∧
   ∃ db', addTodo now x r.2 = Ok (DB.todoKey db, db')) ∧
  (∀ k' todo, DB.get k' db = Some todo → k' < DB.todoKey db).
Proof.
  intros Hwf Hid.
  assert (∀ db0, DB.todoKey db0 = DB.todoKey db →
                 DB.get (DB.todoKey db) db0 = None →
                 ∃ db', addTodo now x db0 = Ok (DB.todoKey db, db')) as Hadd.
  { intros db0 Hkey Hfree. unfold addTodo, DB.add.
    assert (Todo.id (Todo.withDefaults
                       (Todo.set_createdAt (Some (default now (Todo.createdAt x))) x))
            = None) as Hnew by done.
    rewrite Hnew. simpl. rewrite Hkey. unfold DB.get in Hfree. rewrite Hfree.
    unfold DB.put. rewrite Hnew, Hkey. by eexists. }
  assert (DB.get (DB.todoKey db) db = None) as Hfree.
  { destruct (DB.get (DB.todoKey db) db) as [old|] eqn:Hold; [|done].
    destruct (Hwf _ _ Hold). lia. }
  split; [|split].
  - split; [apply lookup_delete_eq|]. split.
    + intros k' Hk'. by apply lookup_delete_ne.
    + apply Hadd; [done|]. unfold deleteTodo, DB.get. simpl.
      destruct (decide (k = DB.todoKey db)) as [->|Hne];
        [apply lookup_delete_eq|by rewrite lookup_delete_ne].
  - unfold deleteAllTodos. simpl.
    set (keys := getAllKeysOf Z.le (DB.todos db)).
    set (db' := foldl _ db keys).
    assert (DB.todos db' = ∅) as Hempty.
    { apply map_empty. intros k'.
      pose proof (todos_foldl_deleteTodo keys db k') as Hk'. fold db' in Hk'.
      unfold DB.get in Hk'. rewrite Hk'. case_bool_decide as Hin; [done|].
      destruct (DB.todos db !! k') eqn:Hlook; [|done].
      exfalso. apply Hin, elem_of_getAllKeysOf. by eexists. }
    destruct (frame_foldl_deleteTodo keys db) as (Hkey & Hc & Hs & Ht & Hst).
    fold db' in Hkey, Hc, Hs, Ht, Hst.
    split; [done|]. split.
    { unfold getTodos, DB.getAll. by rewrite Hempty, getAllOf_empty. }
    repeat (split; [done|]).
    apply Hadd; [done|]. unfold DB.get. by rewrite Hempty, lookup_empty.
  - intros k' todo Hk'. by destruct (Hwf _ _ Hk').
Qed.

(** X14. [updateTodo] writes the record under its own [id], whether a task was
    stored there or not, and touches no other task; [getTodos] then lists
    it, and writing it a second time changes nothing. *)
Theorem updateTodo_upsert (db : DB.t) (todo : Todo.t) (k : Z) :
  Todo.id todo = Some k →
  let r := updateTodo todo db in
  r.1 = k ∧
  DB.get k r.2 = Some todo ∧
  (∀ k', k' ≠ k → DB.get k' r.2 = DB.get k' db) ∧
  Todo.withDefaults todo ∈ getTodos r.2 ∧
  (updateTodo todo r.2).2 = r.2.
Proof.
  intros Hid. unfold updateTodo. split_and!.
  - unfold DB.put. by rewrite Hid.
  - rewrite (get_put_keyed _ k) by done. by rewrite decide_True.
  - intros k' Hk'. rewrite (get_put_keyed _ k) by done. by rewrite decide_False.
  - unfold getTodos. apply list_elem_of_fmap. exists todo. split; [done|].
    apply elem_of_getAll. exists k.
    rewrite (get_put_keyed _ k) by done. by rewrite decide_True.
  - unfold DB.put. rewrite Hid. simpl. unfold DB.set_todos. simpl.
    rewrite insert_insert_eq. f_equal. lia.
Qed.

(** ** Categories, settings, templates *)

Lemma filter_bool_nil {A} (f : A → bool) (l : list A) :
  (∀ x, x ∈ l → f x = false) → List.filter f l = [].
Proof.
  induction l as [|x l IH]; [done|]. intros H. simpl.
  rewrite (H x) by left. apply IH. intros y Hy. apply H. by right.
Qed.

(** X15. [addCategory] fails when the identifier is in use and otherwise stores
    the category under it, next to the categories already there;
    [deleteCategory] then undoes it: if no task has this category, the
    database is again the one before the addition. *)
Theorem addCategory_deleteCategory (db : DB.t) (uuid : string) (c : Category.t) :
  (is_Some (DB.categories db !! uuid) → addCategory uuid c db = ConstraintError) ∧
  (DB.categories db !! uuid = None →
     ∃ cat db',
       addCategory uuid c db = Ok (cat, db') ∧
       Category.id cat = uuid ∧ Category.name cat = Category.name c ∧
       cat ∈ getCategories db' ∧
       (∀ old, old ∈ getCategories db → old ∈ getCategories db') ∧
       ((∀ todo, todo ∈ DB.getAll db → Todo.categoryId todo ≠ Some uuid) →
          deleteCategory uuid db' = db)).
Proof.
  unfold addCategory. split.
  - intros [old ->]. done.
  - intros Hfree. rewrite Hfree. eexists _, _. split; [done|].
    split; [done|]. split; [done|]. unfold getCategories. split_and!.
    + apply elem_of_getAllOf. exists uuid. simpl. apply lookup_insert_eq.
    + intros old (k & Hk)%elem_of_getAllOf. apply elem_of_getAllOf. exists k. simpl.
      rewrite lookup_insert_ne; [done|]. intros ->. congruence.
    + intros Hnone. unfold deleteCategory, getTodosByCategory,
        DB.getAllFromIndex_categoryId.
      rewrite filter_bool_nil.
      * simpl. unfold DB.set_categories. simpl.
        rewrite delete_insert_id by done. by destruct db.
      * intros todo Hin. apply bool_decide_eq_false. by apply Hnone.
Qed.

Lemma getSettings_spec (db : DB.t) :
  let r := getSettings db in
  r.1 = Some (default DB.defaultSettings (DB.settings db !! "settings"%string)) ∧
  DB.settings r.2 !! "settings"%string = r.1 ∧
  getSettings r.2 = r ∧
  (is_Some (DB.settings db !! "settings"%string) → r.2 = db) ∧
  DB.todos r.2 = DB.todos db ∧ DB.todoKey r.2 = DB.todoKey db ∧
  DB.categories r.2 = DB.categories db ∧ DB.templates r.2 = DB.templates db ∧
  DB.stats r.2 = DB.stats db.
Proof.
  unfold getSettings, initDefaultSettings.
  destruct (DB.settings db !! "settings"%string) as [settings|] eqn:Hs; simpl.
  - rewrite Hs. by split_and!.
  - rewrite !lookup_insert_eq. split_and!; try done; by intros [? [=]].
Qed.

(** X16. [getSettings] always returns a settings record, the stored one or, when
    none is stored, the default one, which it stores; a second call returns
    the same and changes nothing. No other store is touched. *)
Theorem getSettings_defaults (db : DB.t) :
  let r := getSettings db in
  r.1 = Some (default DB.defaultSettings (DB.settings db !! "settings"%string)) ∧
  DB.settings r.2 !! "settings"%string = r.1 ∧
  getSettings r.2 = r ∧
  (is_Some (DB.settings db !! "settings"%string) → r.2 = db) ∧
  DB.todos r.2 = DB.todos db ∧ DB.todoKey r.2 = DB.todoKey db ∧
  DB.categories r.2 = DB.categories db ∧ DB.templates r.2 = DB.templates db ∧
  DB.stats r.2 = DB.stats db.
Proof. apply getSettings_spec. Qed.

Lemma getSettings_is_Some (db : DB.t) : is_Some (getSettings db).1.
Proof. destruct (getSettings_spec db) as [-> _]. by eexists. Qed.

(** X17. [updateSettings] returns and stores the current settings (the
    default ones when none are stored) in which every property the update
    has, even one holding [undefined], has taken the place of the current
    one, and [getSettings] reads this back; of two updates in a row the
    second prevails where both have a property, and an update without
    properties keeps the settings. No other store is touched. An update
    whose [id] holds [undefined] makes the store refuse the record: nothing
    is written but the defaults [getSettings] may have written. *)
Theorem updateSettings_merge (db : DB.t) (p1 p2 : SettingsPatch.t) :
  let current := default DB.defaultSettings (DB.settings db !! "settings"%string) in
  let s1 :=
    UserSettings.mk
      (default (UserSettings.theme current) (SettingsPatch.theme p1))
      (default (UserSettings.language current) (SettingsPatch.language p1))
      (default (UserSettings.dateFormat current) (SettingsPatch.dateFormat p1))
      (default (UserSettings.timeFormat current) (SettingsPatch.timeFormat p1))
      (default (UserSettings.defaultView current) (SettingsPatch.defaultView p1))
      (default (UserSettings.defaultCalendarView current)
         (SettingsPatch.defaultCalendarView p1))
      (default (UserSettings.startOfWeek current) (SettingsPatch.startOfWeek p1)) in
  let s2 :=
    UserSettings.mk
      (default (UserSettings.theme s1) (SettingsPatch.theme p2))
      (default (UserSettings.language s1) (SettingsPatch.language p2))
      (default (UserSettings.dateFormat s1) (SettingsPatch.dateFormat p2))
      (default (UserSettings.timeFormat s1) (SettingsPatch.timeFormat p2))
      (default (UserSettings.defaultView s1) (SettingsPatch.defaultView p2))
      (default (UserSettings.defaultCalendarView s1)
         (SettingsPatch.defaultCalendarView p2))
      (default (UserSettings.startOfWeek s1) (SettingsPatch.startOfWeek p2)) in
  let r1 := updateSettings p1 db in
  (SettingsPatch.id p1 = Some None → r1 = (DataError, (getSettings db).2)) ∧
  (SettingsPatch.id p1 ≠ Some None →
     r1.1 = Stored s1 ∧
     DB.settings r1.2 !! "settings"%string = Some s1 ∧
     getSettings r1.2 = (Some s1, r1.2) ∧
     DB.todos r1.2 = DB.todos db ∧ DB.todoKey r1.2 = DB.todoKey db ∧
     DB.categories r1.2 = DB.categories db ∧
     DB.templates r1.2 = DB.templates db ∧ DB.stats r1.2 = DB.stats db ∧
     (SettingsPatch.id p2 ≠ Some None →
        (updateSettings p2 r1.2).1 = Stored s2 ∧
        DB.settings (updateSettings p2 r1.2).2 !! "settings"%string = Some s2)) ∧
  (updateSettings (SettingsPatch.mk None None None None None None None None) db).1
    = Stored current.
Proof.
  assert (∀ p db0,
            SettingsPatch.id p ≠ Some None →
            let cur := default DB.defaultSettings (DB.settings db0 !! "settings"%string) in
            updateSettings p db0 =
            (Stored (SettingsPatch.apply p cur),
             setSettingsStore
               (<["settings"%string := SettingsPatch.apply p cur]> (DB.settings db0))
               db0)) as Hupd.
  { intros p db0 Hid. unfold updateSettings, getSettings, initDefaultSettings.
    destruct (DB.settings db0 !! "settings"%string) as [s|] eqn:Hs; simpl.
    - by destruct (SettingsPatch.id p) as [[[]|]|].
    - rewrite lookup_insert_eq. simpl. unfold setSettingsStore. simpl.
      rewrite insert_insert_eq. by destruct (SettingsPatch.id p) as [[[]|]|]. }
  assert (∀ p cur,
            SettingsPatch.apply p cur =
            UserSettings.mk
              (default (UserSettings.theme cur) (SettingsPatch.theme p))
              (default (UserSettings.language cur) (SettingsPatch.language p))
              (default (UserSettings.dateFormat cur) (SettingsPatch.dateFormat p))
              (default (UserSettings.timeFormat cur) (SettingsPatch.timeFormat p))
              (default (UserSettings.defaultView cur) (SettingsPatch.defaultView p))
              (default (UserSettings.defaultCalendarView cur)
                 (SettingsPatch.defaultCalendarView p))
              (default (UserSettings.startOfWeek cur) (SettingsPatch.startOfWeek p)))
    as Happly.
  { intros p cur. unfold SettingsPatch.apply.
    by destruct (SettingsPatch.theme p), (SettingsPatch.language p),
      (SettingsPatch.dateFormat p), (SettingsPatch.timeFormat p),
      (SettingsPatch.defaultView p), (SettingsPatch.defaultCalendarView p),
      (SettingsPatch.startOfWeek p). }
  intros current s1 s2 r1. split; [|split].
  - intros Hid. subst r1. unfold updateSettings.
    destruct (getSettings db) as [cur db'] eqn:Hget. by rewrite Hid.
  - intros Hid. subst r1. rewrite (Hupd p1 db Hid). cbn [fst snd].
    rewrite Happly. fold current. fold s1.
    split_and!; try done.
    + unfold setSettingsStore. simpl. apply lookup_insert_eq.
    + unfold getSettings, setSettingsStore. simpl. by rewrite lookup_insert_eq.
    + intros Hid2.
      assert (default DB.defaultSettings
                (DB.settings (setSettingsStore (<["settings"%string := s1]> (DB.settings db)) db)
                   !! "settings"%string) = s1) as Hcur.
      { unfold setSettingsStore. cbn [DB.settings]. by rewrite lookup_insert_eq. }
      rewrite (Hupd p2 _ Hid2). cbn [fst snd]. rewrite Hcur, Happly. fold s2.
      split; [done|]. unfold setSettingsStore. cbn [DB.settings]. apply lookup_insert_eq.
  - rewrite Hupd by done. cbn [fst]. rewrite Happly. fold current. by destruct current.
Qed.

(** X18. [createTodoFromTemplate] does nothing and returns [undefined] for an
    unknown template. For a known one whose task data carry no [id], it adds
    the task data, with the time of the call as [createdAt] and the defaults
    of [addTodo], under the next identifier, returns this identifier, and
    leaves the template where it is. *)
Theorem createTodoFromTemplate_adds (db : DB.t) (now : Z) (templateId : string) :
  (DB.templates db !! templateId = None →
     createTodoFromTemplate now templateId db = Ok (None, db)) ∧
  (∀ template,
     DB.templates db !! templateId = Some template →
     DB.wf db →
     Todo.id (TodoTemplate.todoData template) = None →
     ∃ db',
       createTodoFromTemplate now templateId db = Ok (Some (DB.todoKey db), db') ∧
       DB.templates db' = DB.templates db ∧
       DB.get (DB.todoKey db) db' =
         Some (Todo.set_id (Some (DB.todoKey db))
                 (Todo.withDefaults
                    (Todo.set_createdAt (Some now) (TodoTemplate.todoData template)))) ∧
       ∀ k, k ≠ DB.todoKey db → DB.get k db' = DB.get k db).
Proof.
  unfold createTodoFromTemplate. split; [by intros ->|].
  intros template -> Hwf Hid. unfold addTodo, DB.add.
  set (newTodo := Todo.withDefaults _).
  assert (Todo.id newTodo = None) as Hnew by done.
  rewrite Hnew. simpl.
  destruct (DB.todos db !! DB.todoKey db) as [old|] eqn:Hold.
  { destruct (Hwf _ _ Hold). lia. }
  unfold DB.put. rewrite Hnew. eexists. split; [done|]. split; [done|].
  unfold DB.get. simpl. split; [apply lookup_insert_eq|].
  intros k Hk. by apply lookup_insert_ne.
Qed.

(** ** Operations on one task *)

Lemma put_existing (db : DB.t) (k : Z) (old new : Todo.t) :
  DB.wf db → DB.get k db = Some old → Todo.id new = Some k →
  DB.get k (DB.put new db).2 = Some new ∧ sameBut k db (DB.put new db).2.
Proof.
  intros Hwf Hold Hid. split.
  - rewrite (get_put_keyed _ k) by done. by rewrite decide_True.
  - split.
    + intros k' Hk'. rewrite (get_put_keyed _ k) by done. by rewrite decide_False.
    + unfold DB.put. rewrite Hid. simpl. split_and!; try done.
      destruct (Hwf _ _ Hold). lia.
Qed.

Lemma sameBut_refl (k : Z) (db : DB.t) : sameBut k db db.
Proof. by repeat split. Qed.

(** X19. The operations on the task [k] touch neither another task nor another
    store nor the key generator, and the subtask, note and time-tracking
    operations change nothing of the task's title, description, dates, tags,
    priority, recurrence, parent and category. *)
Theorem task_operations_frame
    (db : DB.t) (k now : Z) (uuid text : string) (b : bool) :
  DB.wf db →
  sameBut k db (toggleTodoCompletion now k b db).2 ∧
  sameBut k db (addSubtask uuid k text db).2 ∧
  sameBut k db (toggleSubtask k uuid b db).2 ∧
  sameBut k db (addNote now uuid k text db).2 ∧
  sameBut k db (startTimeTracking now k db).2 ∧
  sameBut k db (stopTimeTracking now k db).2 ∧
  ∀ t t', DB.get k db = Some t →
    (DB.get k (addSubtask uuid k text db).2 = Some t' ∨
     DB.get k (toggleSubtask k uuid b db).2 = Some t' ∨
     DB.get k (addNote now uuid k text db).2 = Some t' ∨
     DB.get k (startTimeTracking now k db).2 = Some t' ∨
     DB.get k (stopTimeTracking now k db).2 = Some t') →
    sameCore t t'.
Proof.
  intros Hwf.
  unfold toggleTodoCompletion, addSubtask, toggleSubtask, addNote,
    startTimeTracking, stopTimeTracking.
  destruct (DB.get k db) as [t|] eqn:Ht; [|by split_and!; try apply sameBut_refl].
  assert (Todo.id t = Some k) as Hid by (by destruct (Hwf _ _ Ht)).
  assert (∀ new, Todo.id new = Some k →
            DB.get k (DB.put new db).2 = Some new ∧ sameBut k db (DB.put new db).2)
    as Hput by (intros new Hnew; by apply (put_existing db k t new)).
  assert (sameCore t t) as Hrefl by (by repeat split).
  split_and!.
  - by apply Hput.
  - by apply Hput.
  - destruct (Todo.subtasks t); [by apply Hput|apply sameBut_refl].
  - by apply Hput.
  - by apply Hput.
  - destruct (Todo.timeTracking t) as [tr|]; [|apply sameBut_refl].
    destruct (TimeTracking.started tr); [by apply Hput|apply sameBut_refl].
  - intros t0 t' [= <-] H.
    destruct H as [H|[H|[H|[H|H]]]]; revert H; simpl.
    + destruct (Hput (Todo.set_subtasks
                        (Some (default [] (Todo.subtasks t) ++ [SubTask.mk uuid text false])) t)
                  Hid) as [-> _].
      by intros [= <-].
    + destruct (Todo.subtasks t) as [subs|]; simpl.
      * match goal with |- DB.get k (DB.put ?n db).2 = _ → _ =>
          destruct (Hput n Hid) as [-> _] end.
        by intros [= <-].
      * rewrite Ht. by intros [= <-].
    + match goal with |- DB.get k (DB.put ?n db).2 = _ → _ =>
        destruct (Hput n Hid) as [-> _] end.
      by intros [= <-].
    + match goal with |- DB.get k (DB.put ?n db).2 = _ → _ =>
        destruct (Hput n Hid) as [-> _] end.
      by intros [= <-].
    + destruct (Todo.timeTracking t) as [tr|]; simpl; [|rewrite Ht; by intros [= <-]].
      destruct (TimeTracking.started tr); simpl; [|rewrite Ht; by intros [= <-]].
      match goal with |- DB.get k (DB.put ?n db).2 = _ → _ =>
        destruct (Hput n Hid) as [-> _] end.
      by intros [= <-].
Qed.

(** X20. [toggleSubtask] sets the flag of the subtasks that have the identifier,
    all of them if several do, and keeps the others, their number and their
    order: the task it returns and stores has this subtask list and every
    other property as before. With an identifier no subtask has, it still
    writes and returns the task, unchanged; on a task without subtask list
    it returns [undefined] and writes nothing. *)
Theorem toggleSubtask_sets_flag (db : DB.t) (k : Z) (sid : string) (b : bool) (t : Todo.t) :
  DB.wf db →
  DB.get k db = Some t →
  let r := toggleSubtask k sid b db in
  (Todo.subtasks t = None → r = (None, db)) ∧
  (∀ subs, Todo.subtasks t = Some subs →
     let subs' := (λ st, if bool_decide (SubTask.id st = sid)
                         then SubTask.mk (SubTask.id st) (SubTask.text st) b
                         else st) <$> subs in
     r.1 = Some (Todo.set_subtasks (Some subs') t) ∧
     DB.get k r.2 = r.1 ∧
     length subs' = length subs ∧
     (∀ st, st ∈ subs' → SubTask.id st = sid → SubTask.completed st = b) ∧
     ((∀ st, st ∈ subs → SubTask.id st ≠ sid) → r = (Some t, db)) ∧
     r.1 = Some (Todo.mk (Todo.id t) (Todo.text t) (Todo.description t) (Todo.completed t)
               (Todo.createdAt t) (Todo.dueDate t) (Todo.startDate t) (Todo.endDate t)
               (Todo.tags t) (Todo.priority t) (Todo.repeat t) (Some subs')
               (Todo.notes t) (Todo.parentId t) (Todo.categoryId t) (Todo.completedAt t)
               (Todo.timeTracking t)) ∧
     (Todo.subtasks <$> DB.get k r.2) = Some (Some subs')).
Proof.
  intros Hwf Ht r. subst r. unfold toggleSubtask. rewrite Ht.
  assert (Todo.id t = Some k) as Hid by (by destruct (Hwf _ _ Ht)).
  split; [by intros ->|]. intros subs Hsubs. rewrite Hsubs. simpl.
  set (subs' := _ <$> subs).
  destruct (put_existing db k t (Todo.set_subtasks (Some subs') t) Hwf Ht Hid)
    as [Hget _].
  split; [done|]. split; [done|]. split; [apply length_fmap|]. split; [|split].
  3:{ by rewrite Hget. }
  - intros st (st0 & -> & Hin)%list_elem_of_fmap.
    case_bool_decide as Hsid; [done|]. by intros ?.
  - intros Hnone.
    assert (subs' = subs) as ->.
    { unfold subs'. rewrite <- (list_fmap_id subs) at 2.
      apply list_fmap_ext. intros i st Hi. simpl.
      rewrite bool_decide_false; [done|].
      apply Hnone. by eapply list_elem_of_lookup_2. }
    assert (Todo.set_subtasks (Some subs) t = t) as ->
      by (clear -Hsubs; destruct t; simpl in *; by subst).
    f_equal. unfold DB.put. rewrite Hid. simpl.
    unfold DB.get in Ht. rewrite insert_id by done.
    destruct (Hwf _ _ Ht) as [_ Hlt]. rewrite Z.max_l by lia. by destruct db.
Qed.

(** X21. A subtask added with [addSubtask] comes last and not completed;
    [toggleSubtask] with its identifier then completes it and, the
    identifier being new, no other subtask: the task stored in the end has
    the old subtasks followed by the new one, completed, and every other
    property as before. *)
Theorem addSubtask_then_toggleSubtask
    (db : DB.t) (k : Z) (uuid text : string) (t : Todo.t) :
  DB.wf db →
  DB.get k db = Some t →
  (∀ st, st ∈ default [] (Todo.subtasks t) → SubTask.id st ≠ uuid) →
  let subs := default [] (Todo.subtasks t) in
  let r1 := addSubtask uuid k text db in
  let r2 := toggleSubtask k uuid true r1.2 in
  DB.get k r1.2 = Some (Todo.set_subtasks (Some (subs ++ [SubTask.mk uuid text false])) t) ∧
  DB.get k r2.2 = Some (Todo.set_subtasks (Some (subs ++ [SubTask.mk uuid text true])) t) ∧
  (Todo.subtasks <$> DB.get k r1.2) = Some (Some (subs ++ [SubTask.mk uuid text false])) ∧
  (Todo.subtasks <$> DB.get k r2.2) = Some (Some (subs ++ [SubTask.mk uuid text true])) ∧
  DB.get k r2.2 =
    Some (Todo.mk (Todo.id t) (Todo.text t) (Todo.description t) (Todo.completed t)
               (Todo.createdAt t) (Todo.dueDate t) (Todo.startDate t) (Todo.endDate t)
               (Todo.tags t) (Todo.priority t) (Todo.repeat t) (Some (subs ++ [SubTask.mk uuid text true]))
               (Todo.notes t) (Todo.parentId t) (Todo.categoryId t) (Todo.completedAt t)
               (Todo.timeTracking t)).
Proof.
  intros Hwf Ht Hfresh subs r1 r2.
  enough (DB.get k r1.2 =
            Some (Todo.set_subtasks (Some (subs ++ [SubTask.mk uuid text false])) t) ∧
          DB.get k r2.2 =
            Some (Todo.set_subtasks (Some (subs ++ [SubTask.mk uuid text true])) t))
    as [H1 H2] by (rewrite H1, H2; by split_and!).
  subst r1 r2.
  assert (Todo.id t = Some k) as Hid by (by destruct (Hwf _ _ Ht)).
  set (t1 := Todo.set_subtasks (Some (subs ++ [SubTask.mk uuid text false])) t).
  assert (addSubtask uuid k text db = (Some t1, (DB.put t1 db).2)) as ->
    by (unfold addSubtask; by rewrite Ht).
  cbn [fst snd].
  destruct (put_existing db k t t1 Hwf Ht Hid) as [Hget1 _].
  split; [done|].
  set (subs2 := (λ st, if bool_decide (SubTask.id st = uuid)
                       then SubTask.mk (SubTask.id st) (SubTask.text st) true else st)
                  <$> (subs ++ [SubTask.mk uuid text false])).
  assert (toggleSubtask k uuid true (DB.put t1 db).2 =
          (Some (Todo.set_subtasks (Some subs2) t1),
           (DB.put (Todo.set_subtasks (Some subs2) t1) (DB.put t1 db).2).2)) as ->
    by (unfold toggleSubtask; by rewrite Hget1).
  cbn [fst snd].
  destruct (put_existing (DB.put t1 db).2 k t1 (Todo.set_subtasks (Some subs2) t1)
              (wf_put _ _ Hwf) Hget1 Hid) as [-> _].
  f_equal. unfold Todo.set_subtasks, t1. simpl. f_equal. f_equal.
  unfold subs2. rewrite fmap_app. simpl. rewrite bool_decide_true by done. f_equal.
  rewrite <- (list_fmap_id subs) at 2. apply list_fmap_ext. intros i st Hi. simpl.
  rewrite bool_decide_false; [done|]. apply Hfresh. by eapply list_elem_of_lookup_2.
Qed.

(** X22. One tracking session: [startTimeTracking] at [t1] keeps the time counted
    so far and removes the stop time; [stopTimeTracking] at [t2] then adds
    [t2 - t1] to it. The start time stays in place, so a second stop, at
    [t3], adds [t3 - t1] once more. *)
Theorem time_tracking_session (db : DB.t) (k t1 t2 t3 : Z) (t : Todo.t) :
  DB.wf db →
  DB.get k db = Some t →
  let before := default 0 (Todo.timeTracking t ≫= TimeTracking.totalTime) in
  let db1 := (startTimeTracking t1 k db).2 in
  let db2 := (stopTimeTracking t2 k db1).2 in
  let db3 := (stopTimeTracking t3 k db2).2 in
  (Todo.timeTracking <$> DB.get k db1) =
    Some (Some (TimeTracking.mk (Some t1) None
                  (Todo.timeTracking t ≫= TimeTracking.totalTime))) ∧
  (Todo.timeTracking <$> DB.get k db2) =
    Some (Some (TimeTracking.mk (Some t1) (Some t2) (Some (before + (t2 - t1))))) ∧
  (Todo.timeTracking <$> DB.get k db3) =
    Some (Some (TimeTracking.mk (Some t1) (Some t3)
                  (Some (before + (t2 - t1) + (t3 - t1))))).
Proof.
  intros Hwf Ht before db1 db2 db3. subst db1 db2 db3.
  assert (Todo.id t = Some k) as Hid by (by destruct (Hwf _ _ Ht)).
  set (total0 := TimeTracking.totalTime (default TimeTracking.empty (Todo.timeTracking t))).
  set (s1 := Todo.set_timeTracking (Some (TimeTracking.mk (Some t1) None total0)) t).
  set (s2 := Todo.set_timeTracking
               (Some (TimeTracking.mk (Some t1) (Some t2)
                        (Some (default 0 total0 + (t2 - t1))))) s1).
  set (s3 := Todo.set_timeTracking
               (Some (TimeTracking.mk (Some t1) (Some t3)
                        (Some (default 0 total0 + (t2 - t1) + (t3 - t1))))) s2).
  assert (startTimeTracking t1 k db = (Some s1, (DB.put s1 db).2)) as ->
    by (unfold startTimeTracking; by rewrite Ht).
  cbn [fst snd].
  destruct (put_existing db k t s1 Hwf Ht Hid) as [H1 _].
  assert (DB.wf (DB.put s1 db).2) as Hwf1 by (by apply wf_put).
  assert (stopTimeTracking t2 k (DB.put s1 db).2 = (Some s2, (DB.put s2 (DB.put s1 db).2).2))
    as -> by (unfold stopTimeTracking; by rewrite H1).
  cbn [fst snd].
  destruct (put_existing _ k s1 s2 Hwf1 H1 Hid) as [H2 _].
  assert (DB.wf (DB.put s2 (DB.put s1 db).2).2) as Hwf2 by (by apply wf_put).
  assert (stopTimeTracking t3 k (DB.put s2 (DB.put s1 db).2).2 =
          (Some s3, (DB.put s3 (DB.put s2 (DB.put s1 db).2).2).2))
    as -> by (unfold stopTimeTracking; by rewrite H2).
  cbn [fst snd].
  destruct (put_existing _ k s2 s3 Hwf2 H2 Hid) as [H3 _].
  rewrite H1, H2, H3. unfold before, total0.
  by destruct (Todo.timeTracking t) as [[? ? [?|]]|].
Qed.

(** ** Tag queries *)

Lemma addTags_spec (l acc : list string) :
  let addTags := foldl (λ acc tag, if bool_decide (tag ∈ acc) then acc else acc ++ [tag]) in
  (NoDup acc → NoDup (addTags acc l)) ∧
  (∀ x, x ∈ addTags acc l ↔ x ∈ acc ∨ x ∈ l).
Proof.
  simpl. revert acc. induction l as [|tag l IH]; intros acc; simpl.
  { split; [done|]. intros x. rewrite elem_of_nil. tauto. }
  destruct (IH (if bool_decide (tag ∈ acc) then acc else acc ++ [tag])) as [Hnd Hin].
  split.
  - intros Hacc. apply Hnd. case_bool_decide; [done|].
    apply NoDup_app. split; [done|]. split; [|apply NoDup_singleton].
    by intros y Hy ->%list_elem_of_singleton.
  - intros x. rewrite Hin, elem_of_cons. case_bool_decide as Htag.
    + split; [tauto|]. intros [?|[->|?]]; tauto.
    + rewrite elem_of_app, list_elem_of_singleton. tauto.
Qed.

(** X23. [getAllTags] lists each tag that some stored task carries, once. *)
Theorem getAllTags_distinct (db : DB.t) :
  NoDup (getAllTags db) ∧
  ∀ tag, tag ∈ getAllTags db ↔
         ∃ todo tags, todo ∈ DB.getAll db ∧ Todo.tags todo = Some tags ∧ tag ∈ tags.
Proof.
  unfold getAllTags.
  assert (∀ l acc,
            let r := foldl
                       (λ tagsSet todo,
                          foldl (λ acc tag, if bool_decide (tag ∈ acc) then acc else acc ++ [tag])
                                tagsSet (default [] (Todo.tags todo)))
                       acc l in
            (NoDup acc → NoDup r) ∧
            (∀ x, x ∈ r ↔ x ∈ acc ∨
                   ∃ todo tags, todo ∈ l ∧ Todo.tags todo = Some tags ∧ x ∈ tags)) as H.
  { induction l as [|todo l IH]; intros acc; simpl.
    { split; [done|]. intros x. split; [by left|].
      intros [?|(? & ? & Hin & _)]; [done|]. inversion Hin. }
    destruct (addTags_spec (default [] (Todo.tags todo)) acc) as [Hnd0 Hin0].
    simpl in Hnd0, Hin0.
    match goal with |- context [foldl _ ?a l] => destruct (IH a) as [Hnd Hin] end.
    simpl in Hnd, Hin. split; [by intros ?; apply Hnd, Hnd0|].
    intros x. rewrite Hin, Hin0. split.
    - intros [[?|Hx]|(t & tags & Ht & Htags & Hx)]; [by left| |].
      + right. destruct (Todo.tags todo) as [tags|] eqn:Htags; [|inversion Hx].
        exists todo, tags. split; [left|done].
      + right. exists t, tags. split; [by right|done].
    - intros [?|(t & tags & [->|Ht]%elem_of_cons & Htags & Hx)]; [by left; left| |].
      + left. right. by rewrite Htags.
      + right. by exists t, tags. }
  destruct (H (DB.getAll db) []) as [Hnd Hin]. simpl in Hnd, Hin.
  split; [apply Hnd; constructor|].
  intros tag. rewrite Hin, elem_of_nil. tauto.
Qed.

Section TagQueries.
Context {host : Host}.

(** X24. The tag queries of the store. For one tag the three queries agree; with
    no tag, "any" finds nothing and "all" finds every task that has a tag
    list; with tags, what "all" finds "any" finds too. For a selection that
    is not empty, the tag filter of the list view, alone, keeps of the
    stored tasks what [getTodosByAllTags] returns. *)
Theorem tag_queries (db : DB.t) (tag : string) (tags : list string) :
  getTodosByTag tag db = getTodosByAllTags [tag] db ∧
  getTodosByTag tag db = getTodosByAnyTags [tag] db ∧
  getTodosByAnyTags [] db = [] ∧
  (∀ t, t ∈ getTodosByAllTags tags db ↔
        t ∈ DB.getAll db ∧ ∃ todoTags, Todo.tags t = Some todoTags ∧ tags ⊆ todoTags) ∧
  (tags ≠ [] →
     (∀ t, t ∈ getTodosByAllTags tags db → t ∈ getTodosByAnyTags tags db) ∧
     (truthy (trim "") = false →
        filterTodos (DB.getAll db) None tags [] None "" CompletionFilter.all
        = getTodosByAllTags tags db)).
Proof.
  split_and!.
  - unfold getTodosByTag, getTodosByAllTags. apply List.filter_ext. intros t.
    destruct (Todo.tags t); simpl; [by rewrite andb_true_r|done].
  - unfold getTodosByTag, getTodosByAnyTags. apply List.filter_ext. intros t.
    destruct (Todo.tags t) as [tt|]; [|done].
    apply eq_true_iff_eq. rewrite bool_decide_eq_true, existsb_exists. split.
    + intros Hin. exists tag. rewrite <- list_elem_of_In.
      split; [done|]. apply bool_decide_eq_true. left.
    + intros (x & Hx & Hd). apply bool_decide_eq_true, list_elem_of_singleton in Hd.
      subst x. by apply list_elem_of_In.
  - unfold getTodosByAnyTags. apply filter_bool_nil. intros t _.
    destruct (Todo.tags t) as [tt|]; [|done].
    induction tt as [|a tt IH]; [done|]. cbn [existsb]. rewrite IH, orb_false_r.
    apply bool_decide_eq_false, not_elem_of_nil.
  - intros t. unfold getTodosByAllTags. rewrite elem_of_filter_bool.
    destruct (Todo.tags t) as [tt|].
    + rewrite forallb_forall. split.
      * intros [? H]. split; [done|]. exists tt. split; [done|].
        intros x Hx. apply (bool_decide_eq_true_1 _), H. by apply list_elem_of_In.
      * intros [? (tt' & [= <-] & H)]. split; [done|].
        intros x Hx. apply bool_decide_eq_true_2, H. by apply list_elem_of_In.
    + split; [by intros [_ ?]|]. by intros [_ (? & [=] & _)].
  - intros Hne. split.
    + intros t. unfold getTodosByAllTags, getTodosByAnyTags.
      rewrite !elem_of_filter_bool. intros [Hin Hall]. split; [done|].
      destruct (Todo.tags t) as [tt|]; [|done].
      destruct tags as [|x tags]; [done|]. simpl in Hall.
      apply andb_true_iff in Hall as [Hx%bool_decide_eq_true _].
      apply existsb_exists. exists x. split; [by apply list_elem_of_In|].
      apply bool_decide_eq_true. left.
    + intros He. unfold filterTodos, getTodosByAllTags. apply List.filter_ext. intros t.
      rewrite keeps_tags, (keeps_date_only None "" t He). unfold tagsPass, datePass.
      rewrite andb_true_r. destruct tags as [|x tags]; [done|]. simpl.
      destruct (Todo.tags t); [by rewrite negb_involutive|done].
Qed.

End TagQueries.

(** A task is listed by [getParentTodos] when it has no parent or the parent
    number 0, and by [getSubTodos p] when its parent number is [p]: each
    stored task is in the first list or in exactly one of the others, and a
    task whose parent number is 0 is in both the first and [getSubTodos 0]. *)
Lemma parent_and_sub_todos (db : DB.t) (t : Todo.t) :
  t ∈ DB.getAll db →
  (t ∈ getParentTodos db ↔ Todo.parentId t = None ∨ Todo.parentId t = Some 0) ∧
  (∀ p, t ∈ getSubTodos p db ↔ Todo.parentId t = Some p) ∧
  (t ∈ getParentTodos db ∨ ∃ p, p ≠ 0 ∧ t ∈ getSubTodos p db) ∧
  (∀ p, p ≠ 0 → t ∈ getSubTodos p db → t ∉ getParentTodos db).
Proof.
  intros Hin. unfold getParentTodos, getSubTodos.
  assert (∀ p, t ∈ List.filter (λ todo, bool_decide (Todo.parentId todo = Some p))
                     (DB.getAll db) ↔ Todo.parentId t = Some p) as Hsub.
  { intros p. rewrite elem_of_filter_bool, bool_decide_eq_true. tauto. }
  assert (t ∈ List.filter (λ todo, match Todo.parentId todo with
                                   | Some parentId => parentId =? 0
                                   | None => true
                                   end) (DB.getAll db) ↔
          Todo.parentId t = None ∨ Todo.parentId t = Some 0) as Hpar.
  { rewrite elem_of_filter_bool. destruct (Todo.parentId t) as [p|].
    - rewrite Z.eqb_eq. split; [intros [_ ->]; by right|].
      intros [[=]|[= ->]]. done.
    - split; [by left|done]. }
  split; [done|]. split; [done|]. split.
  - rewrite Hpar. destruct (Todo.parentId t) as [p|] eqn:Hp; [|by left; left].
    destruct (decide (p = 0)) as [->|Hne]; [by left; right|].
    right. exists p. split; [done|]. rewrite elem_of_filter_bool, Hp.
    split; [done|]. by apply bool_decide_eq_true.
  - intros p Hp Hs%Hsub. rewrite Hpar, Hs. intros [[=]|[=]]. done.
Qed.

(** ** Daily statistics *)

Section StatsFacts.
Context {host : Host}.
Import JSDate.

Lemma setHoursZero_localDay (a b : Z) :
  localDay a = localDay b → setHoursZero a = setHoursZero b.
Proof. unfold localDay, setHoursZero. by intros ->. Qed.

(** X25. One record a day: a second call on the same local day, the tasks and
    categories being the same, leaves the database as the first call left
    it; in particular [updateDailyStats] is idempotent. It changes no task
    and no category. *)
Theorem updateDailyStats_same_day (now1 now2 : Z) (db : DB.t) :
  localDay now1 = localDay now2 →
  updateDailyStats now2 (updateDailyStats now1 db) = updateDailyStats now1 db ∧
  DB.todos (updateDailyStats now1 db) = DB.todos db ∧
  DB.categories (updateDailyStats now1 db) = DB.categories db.
Proof.
  intros Hday. split; [|done].
  pose proof (setHoursZero_localDay _ _ Hday) as Hz.
  unfold updateDailyStats, DB.set_stats, getAllTags, DB.getAll.
  cbn [DB.todos DB.categories DB.stats DB.todoKey DB.settings DB.templates].
  rewrite <- Hz. f_equal. apply insert_insert_eq.
Qed.

End StatsFacts.

Section LoadFacts.
Context {host : Host}.
Import JSDate.

(** After [loadData] the state holds every stored task, with its defaults
    filled in, the categories and templates, a settings record (never
    [null]: the defaults are stored when none was) and the statistics records
    dated from seven days before [weekAgo] up to [today]; the filter fields
    are as before and no store but the settings is written. *)
Lemma loadData_loads (today weekAgo : Z) (db : DB.t) (s : TodoState.t) :
  let r := loadData today weekAgo db s in
  TodoState.todos r.2 = getTodos db ∧
  TodoState.categories r.2 = getCategories db ∧
  TodoState.templates r.2 = getTemplates db ∧
  TodoState.settings r.2 =
    Some (default DB.defaultSettings (DB.settings db !! "settings"%string)) ∧
  (∀ stat, stat ∈ TodoState.stats r.2 ↔
           (∃ key, DB.stats db !! key = Some stat) ∧
           setDateBy weekAgo (-7) ≤ StatsData.date stat ≤ today) ∧
  TodoState.isLoading r.2 = false ∧
  getFilteredTodos r.2 =
    filterTodos (getTodos db) (Some (TodoState.selectedDate s)) (TodoState.selectedTags s)
      (TodoState.selectedCategories s) (TodoState.selectedPriority s)
      (TodoState.searchQuery s) (TodoState.completionFilter s) ∧
  DB.todos r.1 = DB.todos db ∧ DB.categories r.1 = DB.categories db ∧
  DB.templates r.1 = DB.templates db ∧ DB.stats r.1 = DB.stats db.
Proof.
  unfold loadData.
  destruct (getSettings_spec db) as (Hs & _ & _ & _ & Ht & _ & Hc & Htp & Hst).
  destruct (getSettings db) as [settings db'] eqn:Hget. simpl in *.
  split_and!; try done.
  intros stat. unfold getStatsRange.
  rewrite elem_of_filter_bool, elem_of_getAllOf, Hst, andb_true_iff, !Z.leb_le.
  tauto.
Qed.

End LoadFacts.

Section LoadFixedOffsetFacts.
Context {host : Host}.
Import JSDate.

Lemma setHoursZero_bounds (Hfixed : FixedOffset host) (now : Z) :
  now - msPerDay < setHoursZero now ≤ now.
Proof.
  destruct Hfixed as [offset Hoffset].
  unfold setHoursZero, UTC, Day, LocalTime. rewrite !Hoffset. unfold msPerDay.
  Z.to_euclidean_division_equations; lia.
Qed.

(** X26. On a host without clock changes, the record [updateDailyStats]
    writes at [now] is among the statistics a later [loadData] puts in the
    state, as long as the load happens within six days. *)
Theorem loadData_after_updateDailyStats (Hfixed : FixedOffset host)
    (now today weekAgo : Z) (db : DB.t) (s : TodoState.t) :
  now ≤ today →
  weekAgo ≤ now + 6 * msPerDay →
  ∃ stat,
    DB.stats (updateDailyStats now db)
      !! ("stats_" +:+ isoDate (setHoursZero now))%string = Some stat ∧
    StatsData.date stat = setHoursZero now ∧
    stat ∈ TodoState.stats (loadData today weekAgo (updateDailyStats now db) s).2.
Proof.
  intros Htoday Hweek.
  destruct (loadData_loads today weekAgo (updateDailyStats now db) s)
    as (_ & _ & _ & _ & Hstats & _).
  eexists. split; [unfold updateDailyStats; apply lookup_insert_eq|].
  split; [done|]. apply Hstats. split.
  - eexists. unfold updateDailyStats. apply lookup_insert_eq.
  - simpl. rewrite (setDateBy_fixed Hfixed). pose proof (setHoursZero_bounds Hfixed now).
    unfold msPerDay in *. lia.
Qed.

End LoadFixedOffsetFacts.

Lemma zeroCounts_lookup (l : list Category.t) (m : gmap string Counts.t) (c : string) :
  foldl (λ stats cat, <[Category.id cat := Counts.mk 0 0]> stats) m l !! c =
  if bool_decide (c ∈ Category.id <$> l) then Some (Counts.mk 0 0) else m !! c.
Proof.
  revert m. induction l as [|cat l IH]; intros m; simpl; [done|].
  rewrite IH. case_bool_decide as Hin.
  - by rewrite bool_decide_true by (by right).
  - destruct (decide (c = Category.id cat)) as [->|Hne].
    + rewrite bool_decide_true by left. apply lookup_insert_eq.
    + rewrite bool_decide_false by (by intros [?|?]%elem_of_cons).
      by apply lookup_insert_ne.
Qed.

Lemma tallyTodo_category (todayStr c : string) (acc : Tally) (todo : Todo.t) :
  categoryStats (tallyTodo todayStr acc todo) !! c =
  (if inCategoryDueOn todayStr c todo then bump (Todo.completed todo) else id)
    <$> (categoryStats acc !! c).
Proof.
  unfold tallyTodo, inCategoryDueOn, dueOn.
  destruct (Todo.dueDate todo) as [due|]; simpl; [|by rewrite option_fmap_id].
  destruct (String.eqb (JSDate.isoDate due) todayStr); simpl; [|by rewrite option_fmap_id].
  destruct (Todo.categoryId todo) as [cid|]; simpl; [|by rewrite option_fmap_id].
  destruct (decide (cid = c)) as [->|Hne].
  - rewrite bool_decide_true by done. simpl.
    destruct (truthy c); [|by rewrite option_fmap_id].
    destruct (categoryStats acc !! c) as [cnt|] eqn:Hc; simpl.
    + apply lookup_insert_eq.
    + by rewrite Hc.
  - rewrite bool_decide_false by congruence. simpl. rewrite option_fmap_id.
    destruct (truthy cid); [|done].
    destruct (categoryStats acc !! cid); [|done]. by apply lookup_insert_ne.
Qed.

Lemma foldl_tallyTodo_category (todayStr c : string) (l : list Todo.t) (acc : Tally) :
  categoryStats (foldl (tallyTodo todayStr) acc l) !! c =
  (λ cnt,
     Counts.mk
       (Counts.completed cnt +
        Z.of_nat (length (List.filter
                            (λ todo, inCategoryDueOn todayStr c todo && Todo.completed todo) l)))
       (Counts.total cnt +
        Z.of_nat (length (List.filter (inCategoryDueOn todayStr c) l))))
    <$> (categoryStats acc !! c).
Proof.
  revert acc. induction l as [|todo l IH]; intros acc; simpl.
  { destruct (categoryStats acc !! c) as [[? ?]|]; simpl; [|done].
    by rewrite !Z.add_0_r. }
  rewrite IH, tallyTodo_category.
  destruct (categoryStats acc !! c) as [[n m]|]; simpl; [|done].
  destruct (inCategoryDueOn todayStr c todo); simpl; [|done].
  destruct (Todo.completed todo); simpl; f_equal; f_equal; lia.
Qed.

(** X27. The category table of the day's record has one entry for each stored
    category and no other: a task whose category is not stored is counted
    under no category. The entry of a category counts the tasks of this
    category whose due date has the day's date string, and those of them
    that are completed. *)
Theorem updateDailyStats_categoryStats {host : Host} (now : Z) (db : DB.t) (c : string) :
  categoriesKeyed db →
  let todayStr := JSDate.isoDate (JSDate.setHoursZero now) in
  ∃ stat,
    DB.stats (updateDailyStats now db) !! ("stats_" +:+ todayStr)%string = Some stat ∧
    StatsData.categoryStats stat !! c =
      if bool_decide (is_Some (DB.categories db !! c)) then
        Some (Counts.mk
                (Z.of_nat (length (List.filter
                                     (λ todo, inCategoryDueOn todayStr c todo &&
                                              Todo.completed todo)
                                     (DB.getAll db))))
                (Z.of_nat (length (List.filter (inCategoryDueOn todayStr c)
                                     (DB.getAll db)))))
      else None.
Proof.
  intros Hkeyed todayStr. unfold updateDailyStats. fold todayStr.
  eexists. split; [apply lookup_insert_eq|]. simpl.
  rewrite foldl_tallyTodo_category. simpl. rewrite zeroCounts_lookup, lookup_empty.
  assert (c ∈ Category.id <$> getAllOf String.le (DB.categories db) ↔
          is_Some (DB.categories db !! c)) as Hin.
  { rewrite list_elem_of_fmap. split.
    - intros (cat & -> & (k & Hk)%elem_of_getAllOf).
      rewrite (Hkeyed _ _ Hk). by eexists.
    - intros [cat Hcat]. exists cat. split; [by rewrite (Hkeyed _ _ Hcat)|].
      apply elem_of_getAllOf. by exists c. }
  case_bool_decide as H1; case_bool_decide as H2; try tauto; done.
Qed.

(** ** The day view shows each task of the day once *)

Lemma sum_list_fmap_add {B} (f g : B → nat) (xs : list B) :
  sum_list ((λ x, f x + g x)%nat <$> xs) = (sum_list (f <$> xs) + sum_list (g <$> xs))%nat.
Proof. induction xs as [|x xs IH]; csimpl; [done|]. rewrite IH. lia. Qed.

Lemma sum_list_fmap_zero {B} (f : B → nat) (xs : list B) :
  (∀ x, x ∈ xs → f x = 0%nat) → sum_list (f <$> xs) = 0%nat.
Proof.
  induction xs as [|x xs IH]; csimpl; [done|]. intros H.
  rewrite (H x) by left. rewrite IH; [done|]. intros y Hy. apply H. by right.
Qed.

Lemma sum_list_fmap_one {B} `{EqDecision B} (f : B → nat) (xs : list B) (x0 : B) :
  NoDup xs → x0 ∈ xs → f x0 = 1%nat → (∀ x, x ∈ xs → x ≠ x0 → f x = 0%nat) →
  sum_list (f <$> xs) = 1%nat.
Proof.
  induction 1 as [|x xs Hx Hnd IH]; csimpl; [by intros ?%elem_of_nil|].
  intros [->|Hin]%elem_of_cons H1 H0.
  - rewrite H1, sum_list_fmap_zero; [done|].
    intros y Hy. apply H0; [by right|]. by intros ->.
  - rewrite (H0 x); [|left|by intros ->]. simpl. apply IH; [done..|].
    intros y Hy. apply H0. by right.
Qed.

Lemma length_filter_partition {A B} (p q : A → bool) (r : B → A → bool)
    (xs : list B) (l : list A) :
  (∀ t, Nat.b2n (p t) = (Nat.b2n (q t) + sum_list ((λ x, Nat.b2n (r x t)) <$> xs))%nat) →
  length (List.filter p l) =
  (length (List.filter q l) + sum_list ((λ x, length (List.filter (r x) l)) <$> xs))%nat.
Proof.
  intros H. induction l as [|t l IH]; simpl.
  { rewrite sum_list_fmap_zero; done. }
  assert (sum_list ((λ x, length (if r x t then t :: List.filter (r x) l
                                  else List.filter (r x) l)) <$> xs)
          = (sum_list ((λ x, Nat.b2n (r x t)) <$> xs) +
             sum_list ((λ x, length (List.filter (r x) l)) <$> xs))%nat) as ->.
  { rewrite <- (sum_list_fmap_add (λ x, Nat.b2n (r x t))
                (λ x, length (List.filter (r x) l))).
    f_equal. apply list_fmap_ext. intros i x _.
    by destruct (r x t). }
  specialize (H t). destruct (p t), (q t); simpl in *; lia.
Qed.

Lemma NoDup_TIME_SLOTS : NoDup TIME_SLOTS.
Proof. apply (bool_decide_unpack _). by vm_compute. Qed.

(** X28. On a host without clock changes, every task the day cell lists is
    shown once in the day view: under "all day" or in one of the 48 slots,
    so that the numbers add up. *)
Theorem day_view_counts {host : Host} (todos : list Todo.t) (day : Z) :
  FixedOffset host →
  length (getTodosForDay todos day) =
  (length (allDayTodos todos day) +
   sum_list ((λ slot, length (getTodosForTimeSlot todos day slot.1 slot.2))
               <$> TIME_SLOTS))%nat.
Proof.
  intros Hfixed.
  unfold allDayTodos. rewrite !(getTodosForDay_filter Hfixed), filter_bool_filter.
  unfold getTodosForTimeSlot.
  apply (length_filter_partition _ _
           (λ slot todo,
              match Todo.dueDate todo with
              | Some dueDate =>
                  if (JSDate.getHours dueDate =? 0) && (JSDate.getMinutes dueDate =? 0)
                  then false
                  else JSDate.isSameDay dueDate day && (JSDate.getHours dueDate =? slot.1) &&
                       (if slot.2 =? 0 then JSDate.getMinutes dueDate <? 30
                        else 30 <=? JSDate.getMinutes dueDate)
              | None => false
              end)).
  intros t. destruct (Todo.dueDate t) as [due|].
  2: { by rewrite (sum_list_fmap_zero _ TIME_SLOTS). }
  destruct ((JSDate.getHours due =? 0) && (JSDate.getMinutes due =? 0)) eqn:Hmid.
  { rewrite andb_true_r, (sum_list_fmap_zero _ TIME_SLOTS) by done. lia. }
  rewrite andb_false_r.
  destruct (JSDate.isSameDay due day).
  2: { by rewrite (sum_list_fmap_zero _ TIME_SLOTS). }
  symmetry. apply (sum_list_fmap_one _ _ (slotOf due)).
  - apply NoDup_TIME_SLOTS.
  - unfold slotOf. apply elem_of_TIME_SLOTS. split; [apply getHours_range|].
    destruct (_ <? 30); auto.
  - unfold slotOf. cbn [fst snd andb]. rewrite Z.eqb_refl.
    destruct (Z.ltb_spec (JSDate.getMinutes due) 30) as [Hlt|Hge]; cbn; [done|].
    apply Z.leb_le in Hge. by rewrite Hge.
  - intros [hour minute] [_ Hminute]%elem_of_TIME_SLOTS Hne. cbn [fst snd andb].
    destruct (Z.eqb_spec (JSDate.getHours due) hour) as [<-|]; [|done].
    unfold slotOf in Hne.
    destruct Hminute as [-> | ->]; cbn;
      destruct (Z.ltb_spec (JSDate.getMinutes due) 30) as [Hlt|Hge]; try done.
    destruct (Z.leb_spec 30 (JSDate.getMinutes due)); [lia|done].
Qed.

(** ** The tag input *)

Section TagInputFacts.
Context {host : Host}.

(** X29. [handleAddTag] keeps the tag list valid: when it changes the list, it
    appends the trimmed tag, which is not empty and was not in the list, and
    the list had room for it; a blank or repeated tag, or a full list, makes
    it return without a change. *)
Theorem handleAddTag_valid (tags : list string) (maxTags : Z) (tag : string) :
  validTags maxTags tags →
  match handleAddTag tags maxTags tag with
  | Some newTags =>
      newTags = tags ++ [trim tag] ∧ trim tag ≠ EmptyString ∧ (trim tag ∉ tags) ∧
      validTags maxTags newTags
  | None =>
      trim tag = ""%string ∨ trim tag ∈ tags ∨ maxTags ≤ Z.of_nat (length tags)
  end.
Proof.
  intros (Hnd & Hne & Hlen). unfold handleAddTag.
  destruct (truthy (trim tag)) eqn:Ht; simpl.
  2: { left. destruct (decide (trim tag = ""%string)) as [|Hn]; [done|].
       apply truthy_ne in Hn. congruence. }
  apply truthy_ne in Ht.
  case_bool_decide as Hin; simpl; [by right; left|].
  destruct (Z.leb_spec maxTags (Z.of_nat (length tags))) as [Hfull|Hroom];
    [by right; right|].
  split; [done|]. split; [done|]. split; [done|]. split_and!.
  - apply NoDup_app. split; [done|]. split; [|apply NoDup_singleton].
    by intros x Hx ->%list_elem_of_singleton.
  - rewrite elem_of_app, list_elem_of_singleton. intros [?|?]; [done|congruence].
  - rewrite length_app. simpl. lia.
Qed.

Lemma sliceFromStart_length {A} (l : list A) (n : Z) :
  0 ≤ n → Z.of_nat (length (sliceFromStart l n)) ≤ n.
Proof.
  intros Hn. unfold sliceFromStart.
  destruct (Z.ltb_spec n 0); [lia|]. rewrite length_take. lia.
Qed.

(** X30. What [handlePaste] hands over has at most [maxTags] tags; it begins with
    the tags there were, all of them if they were at most [maxTags], and
    continues with pasted pieces, trimmed, none of them empty or among the
    tags there were. *)
Theorem handlePaste_bounded (tags : list string) (maxTags : Z) (pasteData : string)
    (newTags : list string) :
  0 ≤ maxTags →
  handlePaste tags maxTags pasteData = Some newTags →
  Z.of_nat (length newTags) ≤ maxTags ∧
  (Z.of_nat (length tags) ≤ maxTags → tags `prefix_of` newTags) ∧
  ∀ tag, tag ∈ newTags →
         tag ∈ tags ∨
         (tag ≠ EmptyString ∧ (tag ∉ tags) ∧ tag ∈ trim <$> splitComma pasteData).
Proof.
  intros Hmax. unfold handlePaste.
  destruct (negb (truthy pasteData)); [done|].
  set (pasted := List.filter _ _).
  destruct (nonEmpty pasted); [|done]. intros [= <-].
  split; [by apply sliceFromStart_length|]. unfold sliceFromStart.
  destruct (Z.ltb_spec maxTags 0); [lia|]. split.
  - intros Hlen. rewrite take_app_ge by lia.
    by apply prefix_app_r.
  - intros tag Hin%subseteq_take. apply elem_of_app in Hin as [?|Hin]; [by left|].
    right. unfold pasted in Hin.
    apply elem_of_filter_bool in Hin as [Hin [Ht Hn]%andb_true_iff].
    apply truthy_ne in Ht. apply negb_true_iff, bool_decide_eq_false in Hn. done.
Qed.

End TagInputFacts.

Lemma handleAddTag_valid_witness :
  validTags 10 ["home"%string] ∧
  @handleAddTag seoul ["home"%string] 10 "  work " = Some ["home"; "work"]%string ∧
  validTags 10 ["home"; "work"]%string.
Proof.
  assert (validTags 10 ["home"%string]) as Hv.
  { split_and!; [apply NoDup_singleton|by intros ?%list_elem_of_singleton|simpl; lia]. }
  pose proof (@handleAddTag_valid seoul ["home"%string] 10 "  work " Hv) as H.
  assert (@handleAddTag seoul ["home"%string] 10 "  work " = Some ["home"; "work"]%string)
    as Heq by (vm_compute; reflexivity).
  rewrite Heq in H. destruct H as (_ & _ & _ & Hv').
  split; [exact Hv|]. split; [exact Heq|]. exact Hv'.
Defined.

Lemma handlePaste_bounded_witness :
  0 ≤ 3 ∧
  @handlePaste seoul ["home"%string] 3 "work, home ,urgent,  ,later"
    = Some ["home"; "work"; "urgent"]%string ∧
  Z.of_nat (length ["home"; "work"; "urgent"]%string) ≤ 3.
Proof.
  assert (@handlePaste seoul ["home"%string] 3 "work, home ,urgent,  ,later"
          = Some ["home"; "work"; "urgent"]%string) as Heq by (vm_compute; reflexivity).
  split; [lia|]. split; [exact Heq|].
  exact (proj1 (@handlePaste_bounded seoul ["home"%string] 3
                  "work, home ,urgent,  ,later" _ ltac:(lia) Heq)).
Defined.

(** Pasting a tag twice in one go stores it twice. *)
Example handlePaste_repeats :
  @handlePaste seoul [] 10 "a,a" = Some ["a"; "a"]%string.
Proof. vm_compute. reflexivity. Qed.

(** ** Instances of the properties above *)

Ltac wf_sample := apply wf_withTodos; intros ? ? Hk; vm_compute in Hk; discriminate.

Lemma toggle_selection_twice_witness :
  ("home"%string ∉ TodoState.selectedTags sampleState) ∧
  TodoState.toggleTag "home" (TodoState.toggleTag "home" sampleState) = sampleState ∧
  "home"%string ∈ TodoState.selectedTags busyState ∧
  TodoState.selectedTags (TodoState.toggleTag "home" (TodoState.toggleTag "home" busyState))
  = ["home"%string].
Proof.
  assert ("home"%string ∉ TodoState.selectedTags sampleState) as Hout
    by (vm_compute; apply not_elem_of_nil).
  assert ("home"%string ∈ TodoState.selectedTags busyState) as Hin by (vm_compute; left).
  destruct (toggle_selection_twice "home" sampleState) as (H1 & _).
  destruct (toggle_selection_twice "home" busyState) as (_ & H2 & _).
  split; [exact Hout|]. split; [exact (H1 Hout)|]. split; [exact Hin|].
  rewrite (H2 Hin). vm_compute. reflexivity.
Defined.

Lemma toggleTag_getFilteredTodos_witness :
  ("home"%string ∉ TodoState.selectedTags sampleState) ∧
  doneAtNine ∈ @getFilteredTodos seoul sampleState ∧
  doneAtNine ∈ @getFilteredTodos seoul (TodoState.toggleTag "home" sampleState) ∧
  ¬ (atNine ∈ @getFilteredTodos seoul (TodoState.toggleTag "home" sampleState)).
Proof.
  assert ("home"%string ∉ TodoState.selectedTags sampleState) as Hout
    by (vm_compute; apply not_elem_of_nil).
  assert (doneAtNine ∈ @getFilteredTodos seoul sampleState) as Hshown.
  { apply list_elem_of_In. vm_compute. do 4 right. by left. }
  destruct (@toggleTag_getFilteredTodos seoul "home" sampleState doneAtNine) as [H1 _].
  destruct (@toggleTag_getFilteredTodos seoul "home" sampleState atNine) as [H2 _].
  split; [exact Hout|]. split; [exact Hshown|]. split.
  - apply (H1 Hout). split; [exact Hshown|]. left.
  - intros Hin. apply (H2 Hout) in Hin as [_ Hin]. vm_compute in Hin. inversion Hin.
Defined.

Lemma clearFilters_keeps_date_witness :
  truthy (@trim seoul "") = false ∧
  dentist ∈ TodoState.todos busyState ∧
  ¬ (dentist ∈ @getFilteredTodos seoul (TodoState.clearFilters busyState)) ∧
  atNine ∈ @getFilteredTodos seoul (TodoState.clearFilters busyState).
Proof.
  assert (truthy (@trim seoul "") = false) as He by reflexivity.
  assert (dentist ∈ TodoState.todos busyState) as Hd.
  { apply list_elem_of_In. vm_compute. do 5 right. by left. }
  assert (atNine ∈ TodoState.todos busyState) as Hn.
  { apply list_elem_of_In. vm_compute. do 2 right. by left. }
  destruct (@clearFilters_keeps_date seoul busyState dentist He) as [_ H1].
  destruct (@clearFilters_keeps_date seoul busyState atNine He) as [_ H2].
  split; [exact He|]. split; [exact Hd|]. split.
  - intros Hin. apply H1 in Hin as [_ Hday].
    specialize (Hday _ eq_refl). vm_compute in Hday. discriminate.
  - apply H2. split; [exact Hn|]. intros due [= <-]. vm_compute. reflexivity.
Defined.

Lemma getTodos_ascending_witness :
  DB.wf sampleDB ∧
  Todo.id <$> getTodos sampleDB = [Some 1; Some 2; Some 3; Some 4; Some 5] ∧
  length (getTodos sampleDB) = size (DB.todos sampleDB).
Proof.
  assert (DB.wf sampleDB) as Hwf by wf_sample.
  destruct (getTodos_ascending sampleDB Hwf) as (_ & _ & Hlen).
  split; [exact Hwf|]. split; [vm_compute; reflexivity|exact Hlen].
Defined.

Lemma delete_keeps_identifiers_witness :
  DB.wf sampleDB ∧ Todo.id buyMilk = None ∧
  DB.get 5 (deleteTodo 5 sampleDB) = None ∧
  (∃ db', addTodo jan10_1000 buyMilk (deleteTodo 5 sampleDB) = Ok (6, db')) ∧
  (∃ db', addTodo jan10_1000 buyMilk (deleteAllTodos sampleDB).2 = Ok (6, db')).
Proof.
  assert (DB.wf sampleDB) as Hwf by wf_sample.
  destruct (delete_keeps_identifiers sampleDB 5 jan10_1000 buyMilk Hwf eq_refl)
    as ((Hgone & _ & Hadd) & (_ & _ & _ & _ & _ & _ & Hall) & _).
  split; [exact Hwf|]. split; [reflexivity|]. split; [exact Hgone|].
  split; [exact Hadd|exact Hall].
Defined.

Lemma updateTodo_upsert_witness :
  Todo.id doneAtNine = Some 5 ∧
  DB.get 5 (updateTodo doneAtNine DB.init).2 = Some doneAtNine ∧
  (updateTodo doneAtNine (updateTodo doneAtNine DB.init).2).2
  = (updateTodo doneAtNine DB.init).2.
Proof.
  destruct (updateTodo_upsert DB.init doneAtNine 5 eq_refl) as (_ & Hget & _ & _ & Hidem).
  split; [reflexivity|]. split; [exact Hget|exact Hidem].
Defined.

Lemma addCategory_deleteCategory_witness :
  DB.categories sampleDB !! "new"%string = None ∧
  (∀ todo, todo ∈ DB.getAll sampleDB → Todo.categoryId todo ≠ Some "new"%string) ∧
  ∃ cat db', addCategory "new" work sampleDB = Ok (cat, db') ∧
             deleteCategory "new" db' = sampleDB.
Proof.
  assert (DB.categories sampleDB !! "new"%string = None) as Hfree
    by (vm_compute; reflexivity).
  assert (∀ todo, todo ∈ DB.getAll sampleDB → Todo.categoryId todo ≠ Some "new"%string)
    as Hnone.
  { intros todo Hin%list_elem_of_In. vm_compute in Hin.
    repeat (destruct Hin as [<-|Hin]; [discriminate|]). destruct Hin. }
  destruct (addCategory_deleteCategory sampleDB "new" work) as [_ Hadd].
  destruct (Hadd Hfree) as (cat & db' & Heq & _ & _ & _ & _ & Hundo).
  split; [exact Hfree|]. split; [exact Hnone|].
  exists cat, db'. split; [exact Heq|exact (Hundo Hnone)].
Defined.

Lemma createTodoFromTemplate_adds_witness :
  DB.templates templateDB !! "tpl"%string = Some standup ∧
  DB.wf templateDB ∧
  Todo.id (TodoTemplate.todoData standup) = None ∧
  (∃ db', createTodoFromTemplate jan10_1000 "tpl" templateDB = Ok (Some 6, db') ∧
          Todo.text <$> DB.get 6 db' = Some "stand-up"%string) ∧
  createTodoFromTemplate jan10_1000 "nope" templateDB = Ok (None, templateDB).
Proof.
  assert (DB.templates templateDB !! "tpl"%string = Some standup) as Htpl
    by (vm_compute; reflexivity).
  assert (DB.wf templateDB) as Hwf by wf_sample.
  destruct (createTodoFromTemplate_adds templateDB jan10_1000 "tpl") as [_ Hknown].
  destruct (createTodoFromTemplate_adds templateDB jan10_1000 "nope") as [Hunknown _].
  destruct (Hknown standup Htpl Hwf eq_refl) as (db' & Heq & _ & Hget & _).
  split; [exact Htpl|]. split; [exact Hwf|]. split; [reflexivity|]. split.
  - exists db'. split; [exact Heq|]. change 6 with (DB.todoKey templateDB).
    rewrite Hget. reflexivity.
  - apply Hunknown. vm_compute. reflexivity.
Defined.

Lemma task_operations_frame_witness :
  DB.wf sampleDB ∧
  sameBut 5 sampleDB (addNote jan10_1000 "n1" 5 "call back" sampleDB).2 ∧
  DB.get 3 (toggleTodoCompletion jan10_1000 5 false sampleDB).2 = Some atNine.
Proof.
  assert (DB.wf sampleDB) as Hwf by wf_sample.
  destruct (task_operations_frame sampleDB 5 jan10_1000 "n1" "call back" false Hwf)
    as ([Hother _] & _ & _ & Hnote & _).
  split; [exact Hwf|]. split; [exact Hnote|].
  rewrite (Hother 3) by done. vm_compute. reflexivity.
Defined.

Lemma wf_choresDB : DB.wf choresDB.
Proof.
  assert (DB.wf sampleDB) as Hwf by wf_sample.
  destruct (@wf_operations seoul sampleDB 0 2 "wash" "s1" false buyMilk Hwf)
    as (_ & _ & _ & Hwf1 & _).
  destruct (@wf_operations seoul _ 0 2 "dry" "s2" false buyMilk Hwf1)
    as (_ & _ & _ & Hwf2 & _).
  exact Hwf2.
Qed.

Lemma toggleSubtask_sets_flag_witness :
  DB.wf choresDB ∧ DB.get 2 choresDB = Some chores ∧
  (toggleSubtask 2 "s1" true choresDB).1
  = Some (Todo.set_subtasks
            (Some [SubTask.mk "s1" "wash" true; SubTask.mk "s2" "dry" false]) chores) ∧
  (Todo.subtasks <$> DB.get 2 (toggleSubtask 2 "s1" true choresDB).2)
  = Some (Some [SubTask.mk "s1" "wash" true; SubTask.mk "s2" "dry" false]) ∧
  toggleSubtask 2 "s3" true choresDB = (Some chores, choresDB).
Proof.
  assert (DB.get 2 choresDB = Some chores) as Hget by (vm_compute; reflexivity).
  destruct (toggleSubtask_sets_flag choresDB 2 "s1" true chores wf_choresDB Hget)
    as [_ Hs1].
  destruct (toggleSubtask_sets_flag choresDB 2 "s3" true chores wf_choresDB Hget)
    as [_ Hs3].
  destruct (Hs1 _ eq_refl) as (Hres & _ & _ & _ & _ & _ & Hstored).
  destruct (Hs3 _ eq_refl) as (_ & _ & _ & _ & Hnone & _).
  split; [exact wf_choresDB|]. split; [exact Hget|]. split; [|split].
  - rewrite Hres. reflexivity.
  - rewrite Hstored. reflexivity.
  - apply Hnone. intros st Hst%list_elem_of_In.
    destruct Hst as [<-|[<-|[]]]; discriminate.
Defined.

Lemma addSubtask_then_toggleSubtask_witness :
  DB.wf sampleDB ∧ DB.get 2 sampleDB = Some allDay ∧
  (∀ st, st ∈ default [] (Todo.subtasks allDay) → SubTask.id st ≠ "s1"%string) ∧
  DB.get 2 (toggleSubtask 2 "s1" true (addSubtask "s1" 2 "wash" sampleDB).2).2
  = Some (Todo.set_subtasks (Some [SubTask.mk "s1" "wash" true]) allDay) ∧
  (Todo.subtasks <$>
     DB.get 2 (toggleSubtask 2 "s1" true (addSubtask "s1" 2 "wash" sampleDB).2).2)
  = Some (Some [SubTask.mk "s1" "wash" true]).
Proof.
  assert (DB.wf sampleDB) as Hwf by wf_sample.
  assert (DB.get 2 sampleDB = Some allDay) as Hget by (vm_compute; reflexivity).
  assert (∀ st, st ∈ default [] (Todo.subtasks allDay) → SubTask.id st ≠ "s1"%string)
    as Hnew by (intros st Hst%list_elem_of_In; destruct Hst).
  destruct (addSubtask_then_toggleSubtask sampleDB 2 "s1" "wash" allDay Hwf Hget Hnew)
    as (_ & Hdone & _ & Hsubs & _).
  split; [exact Hwf|]. split; [exact Hget|]. split; [exact Hnew|].
  split; [exact Hdone|exact Hsubs].
Defined.

Lemma time_tracking_session_witness :
  DB.wf sampleDB ∧ DB.get 3 sampleDB = Some atNine ∧
  Todo.timeTracking <$>
    DB.get 3 (stopTimeTracking jan10_1200 3
                (stopTimeTracking jan10_1000 3
                   (startTimeTracking jan10_0900 3 sampleDB).2).2).2
  = Some (Some (TimeTracking.mk (Some jan10_0900) (Some jan10_1200)
                  (Some (4 * 3600000)))).
Proof.
  assert (DB.wf sampleDB) as Hwf by wf_sample.
  assert (DB.get 3 sampleDB = Some atNine) as Hget by (vm_compute; reflexivity).
  destruct (time_tracking_session sampleDB 3 jan10_0900 jan10_1000 jan10_1200 atNine
              Hwf Hget) as (_ & _ & Htwice).
  split; [exact Hwf|]. split; [exact Hget|]. rewrite Htwice. reflexivity.
Defined.

Lemma tag_queries_witness :
  ["home"%string] ≠ [] ∧ truthy (@trim seoul "") = false ∧
  @filterTodos seoul (DB.getAll sampleDB) None ["home"%string] [] None ""
    CompletionFilter.all
  = getTodosByAllTags ["home"%string] sampleDB ∧
  getTodosByAnyTags ["home"%string] sampleDB = getTodosByAllTags ["home"%string] sampleDB.
Proof.
  assert (["home"%string] ≠ []) as Hne by discriminate.
  assert (truthy (@trim seoul "") = false) as He by reflexivity.
  destruct (@tag_queries seoul sampleDB "home" ["home"%string])
    as (Hall & Hany & _ & _ & Htags).
  destruct (Htags Hne) as [_ Hfilter].
  split; [exact Hne|]. split; [exact He|]. split; [exact (Hfilter He)|].
  by rewrite <- Hall, <- Hany.
Defined.

Lemma updateDailyStats_same_day_witness :
  @localDay seoul jan10_0900 = @localDay seoul jan10_1200 ∧
  @updateDailyStats seoul jan10_1200 (@updateDailyStats seoul jan10_0900 sampleDB)
  = @updateDailyStats seoul jan10_0900 sampleDB.
Proof.
  assert (@localDay seoul jan10_0900 = @localDay seoul jan10_1200) as Hday
    by (vm_compute; reflexivity).
  destruct (@updateDailyStats_same_day seoul jan10_0900 jan10_1200 sampleDB Hday)
    as [Hsame _].
  split; [exact Hday|exact Hsame].
Defined.

Lemma loadData_after_updateDailyStats_witness :
  FixedOffset seoul ∧
  jan10_0900 ≤ jan10_1200 ∧
  jan10_1200 ≤ jan10_0900 + 6 * JSDate.msPerDay ∧
  ∃ stat,
    StatsData.date stat = @JSDate.setHoursZero seoul jan10_0900 ∧
    stat ∈ TodoState.stats
             (@loadData seoul jan10_1200 jan10_1200
                (@updateDailyStats seoul jan10_0900 sampleDB)
                (TodoState.initial jan10_1200)).2.
Proof.
  assert (jan10_0900 ≤ jan10_1200) as H1 by (vm_compute; discriminate).
  assert (jan10_1200 ≤ jan10_0900 + 6 * JSDate.msPerDay) as H2
    by (vm_compute; discriminate).
  assert (FixedOffset seoul) as Hfixed by apply fixedOffsetHost_FixedOffset.
  destruct (@loadData_after_updateDailyStats seoul Hfixed jan10_0900 jan10_1200
              jan10_1200 sampleDB
              (TodoState.initial jan10_1200) H1 H2) as (stat & _ & Hdate & Hin).
  split; [exact Hfixed|]. split; [exact H1|]. split; [exact H2|]. exists stat. split; [exact Hdate|exact Hin].
Defined.

Lemma categoriesKeyed_sampleDB : categoriesKeyed sampleDB.
Proof.
  intros k cat Hk.
  assert (DB.categories sampleDB = <["work"%string := work]> ∅) as Heq
    by (vm_compute; reflexivity).
  rewrite Heq in Hk. apply lookup_insert_Some in Hk as [[<- <-]|[_ Hk]]; [done|].
  by rewrite lookup_empty in Hk.
Qed.

Lemma updateDailyStats_categoryStats_witness :
  categoriesKeyed sampleDB ∧
  ∃ stat,
    DB.stats (@updateDailyStats greenwich jan10_1200 sampleDB)
      !! "stats_2024-01-10"%string = Some stat ∧
    StatsData.categoryStats stat !! "work"%string = Some (Counts.mk 1 1).
Proof.
  destruct (@updateDailyStats_categoryStats greenwich jan10_1200 sampleDB "work"
              categoriesKeyed_sampleDB) as (stat & Hstat & Hwork).
  split; [exact categoriesKeyed_sampleDB|]. exists stat. split.
  - rewrite <- Hstat. f_equal.
  - rewrite Hwork. vm_compute. reflexivity.
Defined.

Lemma getTodosForDay_same_day_witness :
  FixedOffset seoul ∧
  atNine ∈ @getTodosForDay seoul [undated; allDay; atNine; dentist] jan10_1000 ∧
  ¬ (dentist ∈ @getTodosForDay seoul [undated; allDay; atNine; dentist] jan10_1000).
Proof.
  assert (FixedOffset seoul) as Hfixed by apply fixedOffsetHost_FixedOffset.
  split; [exact Hfixed|]. split.
  - apply (@getTodosForDay_same_day seoul Hfixed). split; [do 2 right; left|].
    exists jan10_0900. split; [reflexivity|]. vm_compute. reflexivity.
  - intros Hin. apply (@getTodosForDay_same_day seoul Hfixed) in Hin
      as [_ (due & [= <-] & Hday)].
    vm_compute in Hday. discriminate.
Defined.

Lemma getTodosByDate_getTodosForDay_witness :
  FixedOffset seoul ∧
  @getTodosByDate seoul jan10_1000 sampleDB
  = @getTodosForDay seoul (DB.getAll sampleDB) jan10_1000.
Proof.
  assert (FixedOffset seoul) as Hfixed by apply fixedOffsetHost_FixedOffset.
  split; [exact Hfixed|]. exact (@getTodosByDate_getTodosForDay seoul Hfixed sampleDB jan10_1000).
Defined.

Lemma getTodosByDate_range_witness :
  FixedOffset seoul ∧
  @getTodosByDate seoul jan10_1000 sampleDB
  = getTodosByDateRange jan10_midnight (jan10_midnight + JSDate.msPerDay - 1) sampleDB.
Proof.
  assert (FixedOffset seoul) as Hfixed by apply fixedOffsetHost_FixedOffset.
  split; [exact Hfixed|]. exact (@getTodosByDate_range seoul Hfixed sampleDB jan10_1000).
Defined.

Lemma day_view_counts_witness :
  FixedOffset seoul ∧
  length (@getTodosForDay seoul [undated; allDay; atNine; atNoon; dentist] jan10_1000)
  = 3%nat ∧
  (length (@allDayTodos seoul [undated; allDay; atNine; atNoon; dentist] jan10_1000) +
   sum_list ((λ slot, length (@getTodosForTimeSlot seoul
                                [undated; allDay; atNine; atNoon; dentist]
                                jan10_1000 slot.1 slot.2)) <$> TIME_SLOTS))%nat
  = 3%nat.
Proof.
  assert (FixedOffset seoul) as Hfixed by apply fixedOffsetHost_FixedOffset.
  split; [exact Hfixed|]. split; [vm_compute; reflexivity|].
  rewrite <- (@day_view_counts seoul [undated; allDay; atNine; atNoon; dentist]
                jan10_1000 Hfixed).
  vm_compute. reflexivity.
Defined.

Lemma updateSettings_merge_witness :
  SettingsPatch.id darkTheme ≠ Some None ∧
  SettingsPatch.id noThemeEnglish ≠ Some None ∧
  SettingsPatch.id noId = Some None ∧
  (updateSettings darkTheme sampleDB).1
  = Stored (UserSettings.mk (Some UserSettings.dark) (Some "ko"%string)
              (Some "yyyy-MM-dd"%string) (Some UserSettings.h24) (Some UserSettings.list)
              (Some UserSettings.month) (Some 0)) ∧
  (updateSettings noThemeEnglish (updateSettings darkTheme sampleDB).2).1
  = Stored (UserSettings.mk None (Some "en"%string)
              (Some "yyyy-MM-dd"%string) (Some UserSettings.h24) (Some UserSettings.list)
              (Some UserSettings.month) (Some 0)) ∧
  updateSettings noId sampleDB = (DataError, sampleDB).
Proof.
  assert (SettingsPatch.id darkTheme ≠ Some None) as Hid1 by discriminate.
  assert (SettingsPatch.id noThemeEnglish ≠ Some None) as Hid2 by discriminate.
  assert (SettingsPatch.id noId = Some None) as Hid3 by reflexivity.
  destruct (updateSettings_merge sampleDB darkTheme noThemeEnglish) as (_ & Hok & _).
  destruct (updateSettings_merge sampleDB noId noId) as (Hrefused & _).
  destruct (Hok Hid1) as (Hfirst & _ & _ & _ & _ & _ & _ & _ & Hnext).
  destruct (Hnext Hid2) as [Hsecond _].
  split; [exact Hid1|]. split; [exact Hid2|]. split; [exact Hid3|]. split; [|split].
  - rewrite Hfirst. vm_compute. reflexivity.
  - rewrite Hsecond. vm_compute. reflexivity.
  - rewrite (Hrefused Hid3). vm_compute. reflexivity.
Defined.
